(** * Zettelkasten LLM tools: model values, embedding client, indexing run

    A shallow embedding of [main.ts] and [src/llm_client.ts].

    - JavaScript strings are Rocq [string]s; [indexOf], [includes] and
      [substring] follow the ECMAScript definitions on them.
    - [async] functions that touch the outside (the embeddings endpoint,
      the host's persisted data, the event bus) are computations in a
      state-and-exception monad: a rejected promise is [Thrown].
    - JavaScript numbers stay abstract: the embedding client is written
      over any carrier [number] with its [toFixed] digits and its [Number]
      parser. *)

From Stdlib Require Import String Ascii ZArith QArith Bool List Lia Sorted.
From stdpp Require Import base option list strings gmap pretty sorting.
Import ListNotations.

Local Open Scope Z_scope.

(* ===================================================================== *)
(** ** JavaScript strings *)
(* ===================================================================== *)

Module Js.

(** [s.indexOf(search)]: index of the first occurrence, [-1] if none. *)
Definition indexOf (s search : string) : Z :=
  match String.index 0 search s with
  | Some i => Z.of_nat i
  | None => -1
  end.

(** [s.includes(search)]. *)
Definition includes (s search : string) : bool :=
  match String.index 0 search s with
  | Some _ => true
  | None => false
  end.

(** [s.substring(start, end)]; [end_ = None] is the one-argument call.
    Both indices are clamped to [0, length] and swapped when reversed. *)
Definition substring (s : string) (start : Z) (end_ : option Z) : string :=
  let len := Z.of_nat (String.length s) in
  let clamp i := Z.min (Z.max i 0) len in
  let a := clamp start in
  let b := match end_ with Some e => clamp e | None => len end in
  let from := Z.min a b in
  let to := Z.max a b in
  String.substring (Z.to_nat from) (Z.to_nat (to - from)) s.

(** Truthiness of a string that may be [undefined]. *)
Definition truthy (o : option string) : bool :=
  match o with
  | Some s => negb (String.eqb s "")
  | None => false
  end.

(** [a || d] on a possibly undefined string. *)
Definition or_else (o : option string) (d : string) : string :=
  match o with
  | Some s => if String.eqb s "" then d else s
  | None => d
  end.

(** [!!s] on a string. *)
Definition nonempty (s : string) : bool := negb (String.eqb s "").

(** [s] between double quotes, as a template literal writes ["${s}"]. *)
Definition quoted (s : string) : string :=
  String "034"%char (s +:+ String "034"%char EmptyString).

End Js.

(* ===================================================================== *)
(** ** [main.ts]: the [providerId:modelName] value format *)
(* ===================================================================== *)

Record ModelValue := mkModelValue { providerId : string; modelName : string }.

Definition formatModelValue (providerId modelName : string) : string :=
  providerId +:+ ":" +:+ modelName.

Definition parseModelValue (value : string) : ModelValue :=
  let colonIndex := Js.indexOf value ":" in
  if colonIndex =? -1 then
    (* Old format - just model name, default to openai *)
    {| providerId := "openai"; modelName := value |}
  else
    {| providerId := Js.substring value 0 (Some colonIndex);
       modelName := Js.substring value (colonIndex + 1) None |}.

(** The bound [T extends { name: string; providerId?: string }]. *)
Class NamedModel (T : Type) := {
  name_of : T -> string;
  providerId_of : T -> option string
}.

Section Migrate.
Context {T : Type} `{NamedModel T}.

Definition migrateModelValue
    (oldValue : string) (availableModels : list T)
    (currentProviderId : option string) : string :=
  (* If already in new format, return as-is *)
  if Js.includes oldValue ":" then oldValue
  else
    let matchingModels :=
      List.filter (fun m => String.eqb (name_of m) oldValue) availableModels in
    match matchingModels with
    | [] => formatModelValue "openai" oldValue
    | [m] => formatModelValue (Js.or_else (providerId_of m) "openai") oldValue
    | first :: _ =>
        let fallback :=
          formatModelValue (Js.or_else (providerId_of first) "openai") oldValue in
        if Js.truthy currentProviderId then
          match List.find
                  (fun m => bool_decide (providerId_of m = currentProviderId))
                  matchingModels with
          | Some preferredMatch =>
              formatModelValue
                (Js.or_else (providerId_of preferredMatch) "openai") oldValue
          | None => fallback
          end
        else fallback
    end.
End Migrate.

(* ===================================================================== *)
(** ** Promises: state and exceptions *)
(* ===================================================================== *)

(** What a [throw] carries: the error class and its message. *)
Inductive Thrown :=
| Error (message : string)
| RangeError (message : string).

(** How a call ends: it returns, or it throws (an [async] call rejects). *)
Inductive Outcome (A : Type) :=
| Returned (a : A)
| Threw (e : Thrown).
Arguments Returned {A} a.
Arguments Threw {A} e.

(** A computation over a mutable world [W]. *)
Definition M (W A : Type) : Type := W -> Outcome A * W.

Definition ret {W A} (a : A) : M W A := fun w => (Returned a, w).

Definition bind {W A B} (c : M W A) (k : A -> M W B) : M W B :=
  fun w =>
    match c w with
    | (Returned a, w') => k a w'
    | (Threw e, w') => (Threw e, w')
    end.

Definition throw {W A} (e : Thrown) : M W A := fun w => (Threw e, w).

Definition get {W} : M W W := fun w => (Returned w, w).

Definition modify {W} (f : W -> W) : M W unit := fun w => (Returned tt, f w).

(** [try { body } catch (e) { handler e }]. *)
Definition try_catch {W A} (body : M W A) (handler : Thrown -> M W A) : M W A :=
  fun w =>
    match body w with
    | (Returned a, w') => (Returned a, w')
    | (Threw e, w') => handler e w'
    end.

(** [try { body } finally { fin }]: [fin] always runs; an error thrown by
    [fin] replaces the outcome of [body]. *)
Definition try_finally {W A} (body : M W A) (fin : M W unit) : M W A :=
  fun w =>
    match body w with
    | (r, w') =>
        match fin w' with
        | (Returned _, w'') => (r, w'')
        | (Threw e, w'') => (Threw e, w'')
        end
    end.

Declare Scope js_scope.
Delimit Scope js_scope with js.
Notation "x <- c ;; k" := (bind c (fun x => k))
  (at level 100, c at next level, right associativity) : js_scope.
Notation "c ;;; k" := (bind c (fun _ => k))
  (at level 100, right associativity) : js_scope.

(** [xs.map(f)] for an [f] that may throw: left to right, stops at the
    first throw. *)
Fixpoint map_throwing {W A B} (f : A -> M W B) (xs : list A) : M W (list B) :=
  match xs with
  | [] => ret []
  | x :: rest =>
      (y <- f x ;; ys <- map_throwing f rest ;; ret (y :: ys))%js
  end.

(* ===================================================================== *)
(** ** [src/llm_client.ts] *)
(* ===================================================================== *)

Definition OPENAI_PROVIDER : string := "openai".
Definition ANTHROPIC_PROVIDER : string := "anthropic".
Definition OPENAI_EMBEDDING_3_SMALL : string := "text-embedding-3-small".
Definition OPENAI_EMBEDDING_3_LARGE : string := "text-embedding-3-large".
Definition unlabelledEmbeddingModel : string := OPENAI_EMBEDDING_3_SMALL.
Definition quantizationDecimals : Z := 3.
Definition CLAUDE_3_5_HAIKU : string := "claude-3-5-haiku-latest".

Record EmbeddingModel := mkEmbeddingModel {
  em_provider : string;
  em_name : string;
  em_displayName : string;
  em_available : bool;
  em_providerId : option string
}.

Record CustomEmbeddingModel := mkCustomEmbeddingModel {
  cem_name : string;
  cem_displayName : string
}.

Record ChatModel := mkChatModel {
  cm_provider : string;
  cm_name : string;
  cm_displayName : string;
  cm_available : bool;
  cm_providerId : option string
}.

Record CustomChatModel := mkCustomChatModel {
  ccm_name : string;
  ccm_displayName : string;
  ccm_provider : string
}.

(** [interface ProviderModels] of [main.ts]; [llm_client.ts] reads its
    [embedding] field. *)
Record ProviderModels := mkProviderModels {
  chat : list ChatModel;
  embedding : list EmbeddingModel
}.

#[export] Instance EmbeddingModel_named : NamedModel EmbeddingModel :=
  {| name_of := em_name; providerId_of := em_providerId |}.

#[export] Instance ChatModel_named : NamedModel ChatModel :=
  {| name_of := cm_name; providerId_of := cm_providerId |}.

(** [availableEmbeddingModels(openAIKey, customModels?, providerModels?)].
    A [Record<string, _>] is kept as its entries in insertion order, which
    is the order [Object.values] walks them in. *)
Definition availableEmbeddingModels
    (openAIKey : string)
    (customModels : option (list CustomEmbeddingModel))
    (providerModels : option (list (string * ProviderModels)))
  : list EmbeddingModel :=
  let builtInModels :=
    [ {| em_provider := OPENAI_PROVIDER;
         em_name := OPENAI_EMBEDDING_3_SMALL;
         em_displayName := "OpenAI: text-embedding-3-small";
         em_available := Js.nonempty openAIKey;
         em_providerId := Some "openai" |};
      {| em_provider := OPENAI_PROVIDER;
         em_name := OPENAI_EMBEDDING_3_LARGE;
         em_displayName := "OpenAI: text-embedding-3-large";
         em_available := Js.nonempty openAIKey;
         em_providerId := Some "openai" |} ] in
  (* Custom models (manual entry) - assume OpenAI provider *)
  let customEmbeddingModels :=
    List.map
      (fun model =>
         {| em_provider := OPENAI_PROVIDER;
            em_name := cem_name model;
            em_displayName :=
              Js.or_else (Some (cem_displayName model)) (cem_name model);
            em_available := true;
            em_providerId := Some "openai" |})
      (List.filter (fun model => Js.nonempty (cem_name model))
                   (default [] customModels)) in
  (* Auto-discovered provider models *)
  let discoveredModels :=
    match providerModels with
    | Some pm => List.concat (List.map (fun kv => embedding (snd kv)) pm)
    | None => []
    end in
  builtInModels ++ customEmbeddingModels ++ discoveredModels.

Record OpenAIClientConfig := mkOpenAIClientConfig {
  embeddings_model : string;
  quantization_decimals : Z;
  baseURL : option string
}.

(** [Partial<OpenAIClientConfig>]: a field is [None] when its key is absent. *)
Record PartialOpenAIClientConfig := mkPartialConfig {
  embeddings_model_opt : option string;
  quantization_decimals_opt : option Z;
  baseURL_opt : option string
}.

Definition defaultOpenAIConfig : OpenAIClientConfig :=
  {| embeddings_model := OPENAI_EMBEDDING_3_SMALL;
     quantization_decimals := quantizationDecimals;
     baseURL := None |}.

(** [{ ...defaults, ...config }]. *)
Definition spread_config
    (defaults : OpenAIClientConfig) (config : option PartialOpenAIClientConfig)
  : OpenAIClientConfig :=
  match config with
  | None => defaults
  | Some c =>
      {| embeddings_model :=
           default (embeddings_model defaults) (embeddings_model_opt c);
         quantization_decimals :=
           default (quantization_decimals defaults) (quantization_decimals_opt c);
         baseURL :=
           match baseURL_opt c with Some u => Some u | None => baseURL defaults end |}
  end.

(** The options the SDK client is built from; they identify the endpoint. *)
Record OpenAIOptions := mkOpenAIOptions {
  apiKey : string;
  dangerouslyAllowBrowser : bool;
  options_baseURL : option string
}.

Record OpenAIClient := mkOpenAIClient {
  openai : OpenAIOptions;
  config : OpenAIClientConfig
}.

(** [new OpenAIClient(apiKey, config?)]. *)
Definition new_OpenAIClient
    (apiKey : string) (config : option PartialOpenAIClientConfig) : OpenAIClient :=
  let cfg := spread_config defaultOpenAIConfig config in
  {| openai :=
       {| apiKey := apiKey;
          dangerouslyAllowBrowser := true;
          options_baseURL :=
            if Js.truthy (baseURL cfg) then baseURL cfg else None |};
     config := cfg |}.

Record AnthropicClient := mkAnthropicClient { anthropic_apiKey : string }.

(** The body of [openai.embeddings.create(...)], with the endpoint it is
    sent to. *)
Record EmbeddingRequest := mkEmbeddingRequest {
  endpoint : OpenAIOptions;
  model : string;
  input : list string;
  dimensions : option Z
}.

(** The request [generateOpenAiEmbeddings] sends for [docs]. *)
Definition request_sent (this : OpenAIClient) (docs : list string)
  : EmbeddingRequest :=
  {| endpoint := openai this;
     model := embeddings_model (config this);
     input := docs;
     dimensions :=
       if String.eqb (embeddings_model (config this)) OPENAI_EMBEDDING_3_SMALL
       then Some 256 else None |}.

Section Embeddings.

(** JavaScript numbers: the carrier, the digits [Number.prototype.toFixed]
    produces for a fraction-digit count it accepts, and the [Number(...)]
    conversion of a string. *)
Context {number : Type}.
Variable toFixedDigits : number -> Z -> string.
Variable Number : string -> number.

Record EmbeddingEntry := mkEmbeddingEntry { entry_embedding : list number }.

Record CreateEmbeddingResponse := mkResponse { data : list EmbeddingEntry }.

(** The embeddings endpoint as the client sees it: the requests sent so
    far, and what the service answers to the next one. The answer may
    depend on everything sent before, so two identical requests need not
    get identical answers. *)
Record Remote := mkRemote {
  sent : list EmbeddingRequest;
  service : list EmbeddingRequest -> EmbeddingRequest ->
            Outcome CreateEmbeddingResponse
}.

(** [await openai.embeddings.create(request)]. *)
Definition embeddings_create (request : EmbeddingRequest)
  : M Remote CreateEmbeddingResponse :=
  fun w =>
    (service w (sent w) request,
     {| sent := sent w ++ [request]; service := service w |}).

(** [value.toFixed(fractionDigits)]: a [RangeError] outside 0..100. *)
Definition toFixed {W} (value : number) (fractionDigits : Z) : M W string :=
  if (fractionDigits <? 0) || (100 <? fractionDigits) then
    throw (RangeError "toFixed() digits argument must be between 0 and 100")
  else ret (toFixedDigits value fractionDigits).

(** [OpenAIClient.generateOpenAiEmbeddings(docs)]. The result is entry
    [0] of the mapped response: [None] is JavaScript's [undefined], what
    indexing an empty array gives. *)
Definition generateOpenAiEmbeddings (this : OpenAIClient) (docs : list string)
  : M Remote (option (list number)) :=
  (let model := embeddings_model (config this) in
   let dimensions :=
     if String.eqb model OPENAI_EMBEDDING_3_SMALL then Some 256 else None in
   embeddings <- embeddings_create
                   {| endpoint := openai this;
                      model := model;
                      input := docs;
                      dimensions := dimensions |} ;;
   mapped <- map_throwing
               (fun entry =>
                  map_throwing
                    (fun value =>
                       digits <- toFixed value
                                   (quantization_decimals (config this)) ;;
                       ret (Number digits))
                    (entry_embedding entry))
               (data embeddings) ;;
   ret (List.head mapped))%js.

(** [generateEmbeddings(text, modelName, openaiClient?)]. [text = None]
    is a missing ([undefined]) argument. *)
Definition generateEmbeddings
    (text : option string) (modelName : string)
    (openaiClient : option OpenAIClient)
  : M Remote (option (list number)) :=
  match text with
  | Some text' =>
      if Js.nonempty text' then
        if String.eqb modelName OPENAI_EMBEDDING_3_SMALL
           || String.eqb modelName OPENAI_EMBEDDING_3_LARGE
        then
          match openaiClient with
          | None => throw (Error "OpenAI client not initialized")
          | Some client => generateOpenAiEmbeddings client [text']
          end
        else throw (Error ("Unknown embedding model: " +:+ modelName))
      else throw (Error "No text provided for embedding generation")
  | None => throw (Error "No text provided for embedding generation")
  end.

(** The rounding rule of the store: one component at [decimals] places. *)
Definition quantize (decimals : Z) (value : number) : number :=
  Number (toFixedDigits value decimals).

End Embeddings.

Arguments EmbeddingEntry : clear implicits.
Arguments CreateEmbeddingResponse : clear implicits.
Arguments Remote : clear implicits.

(** *** Numbers in exact decimal arithmetic

    A carrier on which the client can be run: a number is a rational, or
    [None] for [NaN]. [toFixedDigits] writes the nearest multiple of
    [10^-digits], ties away from zero, in fixed notation; [Number] reads a
    decimal literal (an optional sign, digits, an optional fraction) and
    gives [NaN] on anything else. Doubles round where these do not. *)
Module DecimalNumbers.

Definition number : Type := option Q.

(** The integer nearest to [|x| * 10^digits]; of two, the larger. *)
Definition scaled_nearest (x : Q) (digits : Z) : Z :=
  let numerator := Z.abs (Qnum x) * 10 ^ digits in
  let denominator := Z.pos (Qden x) in
  (2 * numerator + denominator) / (2 * denominator).

Fixpoint zeros (n : nat) : string :=
  match n with
  | O => EmptyString
  | S n' => String "0" (zeros n')
  end.

Definition toFixedDigits (x : number) (digits : Z) : string :=
  match x with
  | None => "NaN"
  | Some q =>
      let d := Z.to_nat digits in
      let n := pretty (scaled_nearest q digits) in
      let padded := zeros (S d - String.length n) +:+ n in
      let k := (String.length padded - d)%nat in
      let body :=
        if digits =? 0 then padded
        else String.substring 0 k padded +:+ "." +:+ String.substring k d padded in
      if Qnum q <? 0 then "-" +:+ body else body
  end.

Definition digit_value (c : ascii) : option Z :=
  let code := Z.of_nat (nat_of_ascii c) in
  if (48 <=? code) && (code <=? 57) then Some (code - 48) else None.

Fixpoint digits_value (s : string) (acc : Z) : option Z :=
  match s with
  | EmptyString => Some acc
  | String c rest =>
      match digit_value c with
      | Some d => digits_value rest (10 * acc + d)
      | None => None
      end
  end.

Definition Number (s : string) : number :=
  let '(negative, body) :=
    match s with
    | String "-" rest => (true, rest)
    | _ => (false, s)
    end in
  let dot := Js.indexOf body "." in
  let whole := if dot =? -1 then body else Js.substring body 0 (Some dot) in
  let fraction :=
    if dot =? -1 then EmptyString else Js.substring body (dot + 1) None in
  match whole +:+ fraction with
  | EmptyString => None
  | String _ _ as all_digits =>
      match digits_value all_digits 0 with
      | Some n =>
          Some (Qmake (if negative then - n else n)
                      (Z.to_pos (10 ^ Z.of_nat (String.length fraction))))
      | None => None
      end
  end.

End DecimalNumbers.

(* ===================================================================== *)
(** ** [main.ts]: the plugin *)
(* ===================================================================== *)

Inductive IndexingStatus := IDLE_STATUS | INDEXING_STATUS.

#[export] Instance IndexingStatus_eq_dec : EqDecision IndexingStatus.
Proof. solve_decision. Defined.

Record CustomProvider := mkCustomProvider {
  cp_id : string;
  cp_name : string;
  cp_apiKey : string;
  cp_baseUrl : string;
  cp_enabled : bool
}.

Inductive EventName := index_updated | api_keys_updated.

Inductive ConsoleLine :=
| console_log (text : string)
| console_warn (text : string)
| console_error (text : string) (error : Thrown).

Section Plugin.

(** Types declared in modules of the plugin that are only imported here:
    [StoredVector] and [VectorStore] ([vector_storage]), [NoteGroup]
    ([note_group]), the concurrency manager ([semantic_search]); [TFile]
    is the host's. *)
Context {StoredVector NoteGroup TFile VectorStore ConcurrencyManager : Type}.

Record ZettelkastenLLMToolsPluginSettings := mkSettings {
  openaiAPIKey : string;
  openaiBaseUrl : string;
  anthropicAPIKey : string;
  gcpAPIKey : string;
  vectors : list StoredVector;
  noteGroups : list NoteGroup;
  embeddingsModelVersion : option string;
  embeddingsModelProviderId : option string;
  embeddingsEnabled : bool;
  indexedNoteGroup : Z;
  copilotModel : string;
  copilotModelProviderId : option string;
  customChatModels : list CustomChatModel;
  customEmbeddingModels : list CustomEmbeddingModel;
  customProviders : list CustomProvider;
  providerModels : list (string * ProviderModels)
}.

(** The fields of [ZettelkastenLLMToolsPlugin] that the indexing code
    reads or writes. *)
Record Plugin := mkPlugin {
  settings : ZettelkastenLLMToolsPluginSettings;
  vectorStore : VectorStore;
  openaiClient : OpenAIClient;
  anthropicClient : AnthropicClient;
  indexingStatus : IndexingStatus;
  lastIndexedCount : nat;
  clientCache : gmap string OpenAIClient
}.

(** What the host keeps for the plugin: the blob written by [saveData],
    the events triggered on the plugin's bus, the console, the notices
    shown, and the value shown by the embedding-model dropdown. *)
Record Host := mkHost {
  data_json : option ZettelkastenLLMToolsPluginSettings;
  triggered : list EventName;
  console : list ConsoleLine;
  notices : list string;
  embeddingDropdown : string
}.

Record World := mkWorld { plugin : Plugin; host : Host }.

Definition with_plugin (f : Plugin -> Plugin) (w : World) : World :=
  {| plugin := f (plugin w); host := host w |}.

Definition with_host (f : Host -> Host) (w : World) : World :=
  {| plugin := plugin w; host := f (host w) |}.

Definition with_settings
    (f : ZettelkastenLLMToolsPluginSettings -> ZettelkastenLLMToolsPluginSettings)
    (p : Plugin) : Plugin :=
  {| settings := f (settings p);
     vectorStore := vectorStore p;
     openaiClient := openaiClient p;
     anthropicClient := anthropicClient p;
     indexingStatus := indexingStatus p;
     lastIndexedCount := lastIndexedCount p;
     clientCache := clientCache p |}.

Definition set_vectors (v : list StoredVector)
    (s : ZettelkastenLLMToolsPluginSettings) : ZettelkastenLLMToolsPluginSettings :=
  {| openaiAPIKey := openaiAPIKey s;
     openaiBaseUrl := openaiBaseUrl s;
     anthropicAPIKey := anthropicAPIKey s;
     gcpAPIKey := gcpAPIKey s;
     vectors := v;
     noteGroups := noteGroups s;
     embeddingsModelVersion := embeddingsModelVersion s;
     embeddingsModelProviderId := embeddingsModelProviderId s;
     embeddingsEnabled := embeddingsEnabled s;
     indexedNoteGroup := indexedNoteGroup s;
     copilotModel := copilotModel s;
     copilotModelProviderId := copilotModelProviderId s;
     customChatModels := customChatModels s;
     customEmbeddingModels := customEmbeddingModels s;
     customProviders := customProviders s;
     providerModels := providerModels s |}.

Definition set_embeddingsModel (version providerId : option string)
    (s : ZettelkastenLLMToolsPluginSettings) : ZettelkastenLLMToolsPluginSettings :=
  {| openaiAPIKey := openaiAPIKey s;
     openaiBaseUrl := openaiBaseUrl s;
     anthropicAPIKey := anthropicAPIKey s;
     gcpAPIKey := gcpAPIKey s;
     vectors := vectors s;
     noteGroups := noteGroups s;
     embeddingsModelVersion := version;
     embeddingsModelProviderId := providerId;
     embeddingsEnabled := embeddingsEnabled s;
     indexedNoteGroup := indexedNoteGroup s;
     copilotModel := copilotModel s;
     copilotModelProviderId := copilotModelProviderId s;
     customChatModels := customChatModels s;
     customEmbeddingModels := customEmbeddingModels s;
     customProviders := customProviders s;
     providerModels := providerModels s |}.

Definition set_vectorStore (v : VectorStore) (p : Plugin) : Plugin :=
  {| settings := settings p;
     vectorStore := v;
     openaiClient := openaiClient p;
     anthropicClient := anthropicClient p;
     indexingStatus := indexingStatus p;
     lastIndexedCount := lastIndexedCount p;
     clientCache := clientCache p |}.

Definition set_clients (o : OpenAIClient) (a : AnthropicClient) (p : Plugin) : Plugin :=
  {| settings := settings p;
     vectorStore := vectorStore p;
     openaiClient := o;
     anthropicClient := a;
     indexingStatus := indexingStatus p;
     lastIndexedCount := lastIndexedCount p;
     clientCache := clientCache p |}.

Definition set_indexingStatus (st : IndexingStatus) (p : Plugin) : Plugin :=
  {| settings := settings p;
     vectorStore := vectorStore p;
     openaiClient := openaiClient p;
     anthropicClient := anthropicClient p;
     indexingStatus := st;
     lastIndexedCount := lastIndexedCount p;
     clientCache := clientCache p |}.

Definition set_lastIndexedCount (n : nat) (p : Plugin) : Plugin :=
  {| settings := settings p;
     vectorStore := vectorStore p;
     openaiClient := openaiClient p;
     anthropicClient := anthropicClient p;
     indexingStatus := indexingStatus p;
     lastIndexedCount := n;
     clientCache := clientCache p |}.

Definition set_clientCache (c : gmap string OpenAIClient) (p : Plugin) : Plugin :=
  {| settings := settings p;
     vectorStore := vectorStore p;
     openaiClient := openaiClient p;
     anthropicClient := anthropicClient p;
     indexingStatus := indexingStatus p;
     lastIndexedCount := lastIndexedCount p;
     clientCache := c |}.

(** Host effects. *)
Definition console_write (line : ConsoleLine) : M World unit :=
  modify (with_host (fun h =>
    {| data_json := data_json h;
       triggered := triggered h;
       console := console h ++ [line];
       notices := notices h;
       embeddingDropdown := embeddingDropdown h |})).

(** [this.trigger(name)]: the event goes out on the plugin's bus. *)
Definition trigger (name : EventName) : M World unit :=
  modify (with_host (fun h =>
    {| data_json := data_json h;
       triggered := triggered h ++ [name];
       console := console h;
       notices := notices h;
       embeddingDropdown := embeddingDropdown h |})).

(** [new Notice(text)]. *)
Definition Notice (text : string) : M World unit :=
  modify (with_host (fun h =>
    {| data_json := data_json h;
       triggered := triggered h;
       console := console h;
       notices := notices h ++ [text];
       embeddingDropdown := embeddingDropdown h |})).

(** [this.saveData(data)] is the host's, and like every [async] call it
    may reject. Whether it does is not the plugin's to decide, so it is a
    parameter: [saveData_rejection data w] is [None] when the write of
    [data] asked for in world [w] resolves, and [Some (error, blob)] when
    it rejects with [error], [blob] being what [data.json] holds
    afterwards. *)
Variable saveData_rejection :
  ZettelkastenLLMToolsPluginSettings -> World ->
  option (Thrown * option ZettelkastenLLMToolsPluginSettings).

(** [await this.saveData(data)]: when the write resolves the persisted
    blob is [data]; when it rejects the error reaches the caller. *)
Definition saveData (data : ZettelkastenLLMToolsPluginSettings) : M World unit :=
  (w <- get ;;
   match saveData_rejection data w with
   | None =>
       modify (with_host (fun h =>
         {| data_json := Some data;
            triggered := triggered h;
            console := console h;
            notices := notices h;
            embeddingDropdown := embeddingDropdown h |}))
   | Some (error, blob) =>
       modify (with_host (fun h =>
         {| data_json := blob;
            triggered := triggered h;
            console := console h;
            notices := notices h;
            embeddingDropdown := embeddingDropdown h |})) ;;;
       throw error
   end)%js.

(** [dropdown.setValue(value)] on the embedding-model dropdown. *)
Definition dropdown_setValue (value : string) : M World unit :=
  modify (with_host (fun h =>
    {| data_json := data_json h;
       triggered := triggered h;
       console := console h;
       notices := notices h;
       embeddingDropdown := value |})).

(** [DEFAULT_NOTE_GROUPS] of [note_group]. *)
Variable DEFAULT_NOTE_GROUPS : list NoteGroup.

Definition DEFAULT_SETTINGS : ZettelkastenLLMToolsPluginSettings :=
  {| openaiAPIKey := EmptyString;
     openaiBaseUrl := EmptyString;
     anthropicAPIKey := EmptyString;
     gcpAPIKey := EmptyString;
     vectors := [];
     noteGroups := DEFAULT_NOTE_GROUPS;
     embeddingsModelVersion := None;
     embeddingsModelProviderId := None;
     embeddingsEnabled := false;
     indexedNoteGroup := 0;
     copilotModel := CLAUDE_3_5_HAIKU;
     copilotModelProviderId := None;
     customChatModels := [];
     customEmbeddingModels := [];
     customProviders := [];
     providerModels := [] |}.

(** [new VectorStore(this)]: the store object built over the plugin. *)
Variable new_VectorStore : Plugin -> VectorStore.

(** [filesInGroupFolder(app, noteGroup)] of [note_group]; the group is
    [None] when [noteGroups[indexedNoteGroup]] is [undefined]. *)
Variable filesInGroupFolder : option NoteGroup -> M World (list TFile).

(** The argument object of [generateAndStoreEmbeddings]. *)
Record GenerateArgs := mkGenerateArgs {
  files : list TFile;
  args_vectorStore : VectorStore;
  args_openaiClient : OpenAIClient;
  notify : nat -> M World unit
}.

(** [generateAndStoreEmbeddings(args)] of [semantic_search] and the
    [done()] of the manager it resolves to. Both run with the whole world
    in reach and may reject. *)
Variable generateAndStoreEmbeddings : GenerateArgs -> M World ConcurrencyManager.
Variable concurrencyManager_done : ConcurrencyManager -> M World unit.

(** [array[index]] for a numeric index: [undefined] out of range. *)
Definition array_get {A} (l : list A) (index : Z) : option A :=
  if index <? 0 then None else l !! Z.to_nat index.

(** [getOpenAIClient(providerId?)]. *)
Definition getOpenAIClient (providerId : option string) : M World OpenAIClient :=
  (* Default to 'openai' if no providerId specified *)
  let id := Js.or_else providerId "openai" in
  if String.eqb id "anthropic" then
    throw (Error "Anthropic provider is not supported for OpenAI-compatible operations. Use AnthropicClient for Anthropic models.")
  else
    (w <- get ;;
     match clientCache (plugin w) !! id with
     | Some cached => ret cached
     | None =>
         let s := settings (plugin w) in
         keys <-
           (if String.eqb id "gcp" then
              if Js.nonempty (gcpAPIKey s) then
                ret (gcpAPIKey s,
                     "https://generativelanguage.googleapis.com/v1beta/openai/")
              else
                (console_write (console_warn
                   "GCP provider requested but no API key is configured. Falling back to OpenAI.") ;;;
                 ret (openaiAPIKey s, openaiBaseUrl s))
            else if negb (String.eqb id "openai") then
              (* Check custom providers *)
              match List.find (fun p => String.eqb (cp_id p) id) (customProviders s) with
              | Some customProvider =>
                  ret (cp_apiKey customProvider, cp_baseUrl customProvider)
              | None =>
                  (console_write (console_warn
                     ("Custom provider " +:+ Js.quoted id +:+
                      " not found. It may have been deleted. Falling back to OpenAI.")) ;;;
                   ret (openaiAPIKey s, openaiBaseUrl s))
              end
            else ret (openaiAPIKey s, openaiBaseUrl s)) ;;
         let '(apiKey, baseURL) := keys in
         (* new format is providerId:modelName *)
         let embeddingsModel :=
           Js.or_else (embeddingsModelVersion s) unlabelledEmbeddingModel in
         let embeddingsModel :=
           if Js.includes embeddingsModel ":" then
             modelName (parseModelValue embeddingsModel)
           else embeddingsModel in
         let client :=
           new_OpenAIClient apiKey
             (Some {| embeddings_model_opt := Some embeddingsModel;
                      quantization_decimals_opt := None;
                      baseURL_opt :=
                        if Js.nonempty baseURL then Some baseURL else None |}) in
         modify (with_plugin (fun p =>
           set_clientCache (<[id := client]> (clientCache p)) p)) ;;;
         ret client
     end)%js.

(** [clearVectorArray()]. *)
Definition clearVectorArray : M World unit :=
  (modify (with_plugin (with_settings (set_vectors []))) ;;;
   modify (with_plugin (fun p => set_vectorStore (new_VectorStore p) p)) ;;;
   modify (with_plugin (set_lastIndexedCount 0)))%js.

(** [saveSettings()]. *)
Definition saveSettings : M World unit :=
  (console_write (console_log "saving...") ;;;
   w <- get ;;
   saveData (settings (plugin w)) ;;;
   modify (with_plugin (set_clientCache ∅)) ;;;
   client <- getOpenAIClient None ;;
   modify (with_plugin (fun p =>
     set_clients client
       {| anthropic_apiKey := anthropicAPIKey (settings p) |} p)) ;;;
   console_write (console_log "done"))%js.

(** The [notify] callback that [indexVectorStores] hands over. *)
Definition notify_callback (numCompleted : nat) : M World unit :=
  (modify (with_plugin (set_lastIndexedCount numCompleted)) ;;;
   trigger index_updated)%js.

(** The [try] block of [indexVectorStores] (main.ts:454-472), the
    embedding work of one run: the files of the indexed note group are
    listed, the client of the configured provider is looked up, the work
    is handed over and waited for. *)
Definition indexVectorStores_work : M World unit :=
  (w <- get ;;
   let noteGroup :=
     array_get (noteGroups (settings (plugin w)))
               (indexedNoteGroup (settings (plugin w))) in
   filesForNoteGroup <- filesInGroupFolder noteGroup ;;
   (* Get the client for the configured embedding model *)
   w <- get ;;
   let providerId := embeddingsModelProviderId (settings (plugin w)) in
   client <- getOpenAIClient providerId ;;
   w <- get ;;
   concurrencyManager <-
     generateAndStoreEmbeddings
       {| files := filesForNoteGroup;
          args_vectorStore := vectorStore (plugin w);
          args_openaiClient := client;
          notify := notify_callback |} ;;
   concurrencyManager_done concurrencyManager)%js.

(** [indexVectorStores()]. *)
Definition indexVectorStores : M World unit :=
  (w <- get ;;
   if negb (embeddingsEnabled (settings (plugin w)))
      || bool_decide (indexingStatus (plugin w) = INDEXING_STATUS)
   then ret tt
   else
     (* for now only the first note group will have a vector store *)
     modify (with_plugin (set_indexingStatus INDEXING_STATUS)) ;;;
     modify (with_plugin (set_lastIndexedCount 0)) ;;;
     trigger index_updated ;;;
     saveSettings ;;; (* Save immediately to update UI *)
     try_finally
       (try_catch
          (w <- get ;;
           let noteGroup :=
             array_get (noteGroups (settings (plugin w)))
                       (indexedNoteGroup (settings (plugin w))) in
           filesForNoteGroup <- filesInGroupFolder noteGroup ;;
           (* Get the client for the configured embedding model *)
           w <- get ;;
           let providerId := embeddingsModelProviderId (settings (plugin w)) in
           client <- getOpenAIClient providerId ;;
           w <- get ;;
           concurrencyManager <-
             generateAndStoreEmbeddings
               {| files := filesForNoteGroup;
                  args_vectorStore := vectorStore (plugin w);
                  args_openaiClient := client;
                  notify := notify_callback |} ;;
           concurrencyManager_done concurrencyManager)
          (fun error =>
             console_write (console_error "Error during indexing:" error)))
       (modify (with_plugin (set_indexingStatus IDLE_STATUS)) ;;;
        trigger index_updated ;;;
        saveSettings ;;;
        w <- get ;;
        Notice ("Indexed " +:+ pretty (lastIndexedCount (plugin w)) +:+ " notes")))%js.

(** [getCurrentEmbeddingModelValue()] of the settings tab. *)
Definition getCurrentEmbeddingModelValue
    (s : ZettelkastenLLMToolsPluginSettings) : string :=
  match embeddingsModelVersion s with
  | None => ""
  | Some modelVersion =>
      if negb (Js.nonempty modelVersion) then ""
      else if Js.includes modelVersion ":" then modelVersion
      else
        (* Migrate from old format *)
        let availableModels :=
          availableEmbeddingModels (openaiAPIKey s)
            (Some (customEmbeddingModels s)) (Some (providerModels s)) in
        migrateModelValue modelVersion availableModels
          (embeddingsModelProviderId s)
  end.

(** The values offered by the embedding-model dropdown: one option per
    available model. *)
Definition embeddingDropdownOptions
    (s : ZettelkastenLLMToolsPluginSettings) : list string :=
  List.map
    (fun m => formatModelValue (Js.or_else (em_providerId m) "openai") (em_name m))
    (List.filter em_available
       (availableEmbeddingModels (openaiAPIKey s)
          (Some (customEmbeddingModels s)) (Some (providerModels s)))).

(** The callback given to [EmbeddingsOverwriteConfirmModal] by the
    dropdown's [onChange(value)]: it runs with the user's answer. *)
Definition embeddingModel_onConfirm (value : string) (confirmWasClicked : bool)
  : M World unit :=
  (if negb confirmWasClicked then
     w <- get ;;
     dropdown_setValue (getCurrentEmbeddingModelValue (settings (plugin w)))
   else
     w <- get ;;
     let currentValue := getCurrentEmbeddingModelValue (settings (plugin w)) in
     if Js.nonempty value && negb (String.eqb value currentValue) then
       let parsed := parseModelValue value in
       modify (with_plugin (with_settings
         (set_embeddingsModel (Some value) (Some (providerId parsed))))) ;;;
       clearVectorArray ;;;
       saveSettings ;;;
       indexVectorStores
     else ret tt)%js.

(** What a computation leaves alone in the plugin. *)
Definition same_plugin_state (w w' : World) : Prop :=
  settings (plugin w') = settings (plugin w) /\
  vectorStore (plugin w') = vectorStore (plugin w) /\
  indexingStatus (plugin w') = indexingStatus (plugin w) /\
  lastIndexedCount (plugin w') = lastIndexedCount (plugin w).

End Plugin.

(* ===================================================================== *)
(** ** The concurrency manager *)
(* ===================================================================== *)

Module ConcurrencyManager.
Section Manager.

Context {Doc : Type}.

(** What each task ends in: [true] succeeded, [false] failed. *)
Variable worker : Doc -> bool.

(** One call of the progress callback: the count it was given, and how
    many tasks had succeeded and failed when it was called. *)
Record Notification := mkNotification {
  numCompleted : nat;
  succeeded_then : nat;
  failed_then : nat
}.

(** Modelled from the spec: the bounded-parallelism scheduler behind
    [generateAndStoreEmbeddings] and [done()], whose module
    ([semantic_search]) is only imported by [main.ts]. Every task is in
    one of the states pending, in flight, succeeded or failed; [completed]
    is the cumulative counter and [delivered] the calls of the progress
    callback, oldest first. *)
Record Manager := mkManager {
  pending : list Doc;
  inFlight : list Doc;
  succeeded : list Doc;
  failed : list Doc;
  completed : nat;
  delivered : list Notification
}.

(** Modelled from the spec: the admission window. While fewer than
    [maxConcurrency] tasks are in flight and unstarted tasks remain, the
    next one is admitted. *)
Fixpoint fill_window (maxConcurrency : nat) (pending inFlight : list Doc)
  : list Doc * list Doc :=
  match pending with
  | [] => ([], inFlight)
  | task :: rest =>
      if (length inFlight <? maxConcurrency)%nat
      then fill_window maxConcurrency rest (inFlight ++ [task])
      else (pending, inFlight)
  end.

(** Modelled from the spec: [start(tasks, worker, maxConcurrency)] of the
    concurrency manager: nothing has completed, the window is filled. *)
Definition start (tasks : list Doc) (maxConcurrency : nat) : Manager :=
  let '(pending', inFlight') := fill_window maxConcurrency tasks [] in
  {| pending := pending';
     inFlight := inFlight';
     succeeded := [];
     failed := [];
     completed := 0;
     delivered := [] |}.

(** Modelled from the spec: one completion in the concurrency manager.
    [choice] picks which in-flight call comes back next (completion order
    follows latency, not submission). The task reaches its terminal state,
    the counter is incremented, the callback is called with the new
    count, and a replacement is admitted if any task remains. *)
Definition complete (maxConcurrency choice : nat) (m : Manager) : Manager :=
  match inFlight m with
  | [] => m
  | first :: _ =>
      let i := (choice mod length (inFlight m))%nat in
      let task := nth i (inFlight m) first in
      let stillInFlight := take i (inFlight m) ++ drop (S i) (inFlight m) in
      let succeeded' :=
        if worker task then succeeded m ++ [task] else succeeded m in
      let failed' :=
        if worker task then failed m else failed m ++ [task] in
      let completed' := S (completed m) in
      let '(pending', inFlight') :=
        fill_window maxConcurrency (pending m) stillInFlight in
      {| pending := pending';
         inFlight := inFlight';
         succeeded := succeeded';
         failed := failed';
         completed := completed';
         delivered :=
           delivered m ++
           [ {| numCompleted := completed';
                succeeded_then := length succeeded';
                failed_then := length failed' |} ] |}
  end.

(** Modelled from the spec: [done()] of the concurrency manager: calls
    come back, in the order [latency] dictates, until none is in flight.
    [fuel] bounds the number of completions waited for. *)
Fixpoint drain (fuel : nat) (maxConcurrency : nat) (latency : nat -> nat)
    (m : Manager) : Manager :=
  match fuel with
  | O => m
  | S fuel' =>
      match inFlight m with
      | [] => m
      | _ :: _ =>
          drain fuel' maxConcurrency latency
                (complete maxConcurrency (latency (completed m)) m)
      end
  end.

(** Modelled from the spec: one run of the concurrency manager, [start]
    followed by [done()]; one completion per submitted task is enough
    fuel. *)
Definition run (tasks : list Doc) (maxConcurrency : nat) (latency : nat -> nat)
  : Manager :=
  drain (length tasks) maxConcurrency latency (start tasks maxConcurrency).

(** Every submitted task is terminal. *)
Definition drained (m : Manager) : Prop := pending m = [] /\ inFlight m = [].

(** What every reachable state of a run over [total] tasks satisfies. *)
Record manager_inv (maxConcurrency total : nat) (m : Manager) : Prop := {
  inv_total :
    (length (pending m) + length (inFlight m) + completed m = total)%nat;
  inv_terminal :
    completed m = (length (succeeded m) + length (failed m))%nat;
  inv_counts :
    List.map numCompleted (delivered m) = seq 1 (completed m);
  inv_cumulative :
    Forall (fun n => numCompleted n = (succeeded_then n + failed_then n)%nat)
           (delivered m);
  inv_progress : inFlight m = [] -> pending m = [];
  inv_window : (length (inFlight m) <= maxConcurrency)%nat
}.

End Manager.
End ConcurrencyManager.

(* ===================================================================== *)
(** ** [src/llm_client.ts]: chat models *)
(* ===================================================================== *)

Definition OPENAI_GPT4o : string := "gpt-4o".
Definition OPENAI_GPT4o_MINI : string := "gpt-4o-mini".
Definition OPENAI_GPT35 : string := "gpt-3.5-turbo".
Definition CLAUDE_3_5_SONNET : string := "claude-3-5-sonnet-latest".

(** [availableChatModels(openAIKey, anthropicKey, customModels?,
    providerModels?)]. *)
Definition availableChatModels
    (openAIKey anthropicKey : string)
    (customModels : option (list CustomChatModel))
    (providerModels : option (list (string * ProviderModels)))
  : list ChatModel :=
  let builtInModels :=
    [ {| cm_provider := OPENAI_PROVIDER; cm_name := OPENAI_GPT4o;
         cm_displayName := "GPT-4o";
         cm_available := Js.nonempty openAIKey;
         cm_providerId := Some "openai" |};
      {| cm_provider := OPENAI_PROVIDER; cm_name := OPENAI_GPT4o_MINI;
         cm_displayName := "GPT-4o Mini";
         cm_available := Js.nonempty openAIKey;
         cm_providerId := Some "openai" |};
      {| cm_provider := OPENAI_PROVIDER; cm_name := OPENAI_GPT35;
         cm_displayName := "GPT-3.5 Turbo";
         cm_available := Js.nonempty openAIKey;
         cm_providerId := Some "openai" |};
      {| cm_provider := ANTHROPIC_PROVIDER; cm_name := CLAUDE_3_5_SONNET;
         cm_displayName := "Claude 3.5 Sonnet";
         cm_available := Js.nonempty anthropicKey;
         cm_providerId := Some "anthropic" |};
      {| cm_provider := ANTHROPIC_PROVIDER; cm_name := CLAUDE_3_5_HAIKU;
         cm_displayName := "Claude 3.5 Haiku";
         cm_available := Js.nonempty anthropicKey;
         cm_providerId := Some "anthropic" |} ] in
  let customChatModels :=
    List.map
      (fun model =>
         {| cm_provider :=
              if String.eqb (ccm_provider model) "anthropic"
              then ANTHROPIC_PROVIDER else OPENAI_PROVIDER;
            cm_name := ccm_name model;
            cm_displayName :=
              Js.or_else (Some (ccm_displayName model)) (ccm_name model);
            cm_available := true;
            cm_providerId := Some (ccm_provider model) |})
      (List.filter (fun model => Js.nonempty (ccm_name model))
                   (default [] customModels)) in
  (* Auto-discovered provider models *)
  let discoveredModels :=
    match providerModels with
    | Some pm => List.concat (List.map (fun kv => chat (snd kv)) pm)
    | None => []
    end in
  builtInModels ++ customChatModels ++ discoveredModels.

(* ===================================================================== *)
(** ** [main.ts]: loading settings, the single-note command *)
(* ===================================================================== *)

Section PluginLifecycle.

Context {StoredVector NoteGroup TFile VectorStore ConcurrencyManager : Type}.

Local Abbreviation Settings :=
  (@ZettelkastenLLMToolsPluginSettings StoredVector NoteGroup).
Local Abbreviation World := (@World StoredVector NoteGroup VectorStore).

(** What [loadData()] resolves to when a [data.json] exists: each key of
    the settings is there or not. *)
Record LoadedSettings := mkLoadedSettings {
  loaded_openaiAPIKey : option string;
  loaded_openaiBaseUrl : option string;
  loaded_anthropicAPIKey : option string;
  loaded_gcpAPIKey : option string;
  loaded_vectors : option (list StoredVector);
  loaded_noteGroups : option (list NoteGroup);
  loaded_embeddingsModelVersion : option string;
  loaded_embeddingsModelProviderId : option string;
  loaded_embeddingsEnabled : option bool;
  loaded_indexedNoteGroup : option Z;
  loaded_copilotModel : option string;
  loaded_copilotModelProviderId : option string;
  loaded_customChatModels : option (list CustomChatModel);
  loaded_customEmbeddingModels : option (list CustomEmbeddingModel);
  loaded_customProviders : option (list CustomProvider);
  loaded_providerModels : option (list (string * ProviderModels))
}.

(** [Object.assign({}, defaults, loaded)]; [loaded = None] is [null]. *)
Definition assign_settings (defaults : Settings) (loaded : option LoadedSettings)
  : Settings :=
  match loaded with
  | None => defaults
  | Some l =>
      {| openaiAPIKey := default (openaiAPIKey defaults) (loaded_openaiAPIKey l);
         openaiBaseUrl := default (openaiBaseUrl defaults) (loaded_openaiBaseUrl l);
         anthropicAPIKey :=
           default (anthropicAPIKey defaults) (loaded_anthropicAPIKey l);
         gcpAPIKey := default (gcpAPIKey defaults) (loaded_gcpAPIKey l);
         vectors := default (vectors defaults) (loaded_vectors l);
         noteGroups := default (noteGroups defaults) (loaded_noteGroups l);
         embeddingsModelVersion :=
           match loaded_embeddingsModelVersion l with
           | Some v => Some v
           | None => embeddingsModelVersion defaults
           end;
         embeddingsModelProviderId :=
           match loaded_embeddingsModelProviderId l with
           | Some v => Some v
           | None => embeddingsModelProviderId defaults
           end;
         embeddingsEnabled :=
           default (embeddingsEnabled defaults) (loaded_embeddingsEnabled l);
         indexedNoteGroup :=
           default (indexedNoteGroup defaults) (loaded_indexedNoteGroup l);
         copilotModel := default (copilotModel defaults) (loaded_copilotModel l);
         copilotModelProviderId :=
           match loaded_copilotModelProviderId l with
           | Some v => Some v
           | None => copilotModelProviderId defaults
           end;
         customChatModels :=
           default (customChatModels defaults) (loaded_customChatModels l);
         customEmbeddingModels :=
           default (customEmbeddingModels defaults) (loaded_customEmbeddingModels l);
         customProviders :=
           default (customProviders defaults) (loaded_customProviders l);
         providerModels :=
           default (providerModels defaults) (loaded_providerModels l) |}
  end.

(** What a [saveData(settings)] that resolves leaves in [data.json]:
    every key, the optional ones when they are defined. *)
Definition stored_form (s : Settings) : LoadedSettings :=
  {| loaded_openaiAPIKey := Some (openaiAPIKey s);
     loaded_openaiBaseUrl := Some (openaiBaseUrl s);
     loaded_anthropicAPIKey := Some (anthropicAPIKey s);
     loaded_gcpAPIKey := Some (gcpAPIKey s);
     loaded_vectors := Some (vectors s);
     loaded_noteGroups := Some (noteGroups s);
     loaded_embeddingsModelVersion := embeddingsModelVersion s;
     loaded_embeddingsModelProviderId := embeddingsModelProviderId s;
     loaded_embeddingsEnabled := Some (embeddingsEnabled s);
     loaded_indexedNoteGroup := Some (indexedNoteGroup s);
     loaded_copilotModel := Some (copilotModel s);
     loaded_copilotModelProviderId := copilotModelProviderId s;
     loaded_customChatModels := Some (customChatModels s);
     loaded_customEmbeddingModels := Some (customEmbeddingModels s);
     loaded_customProviders := Some (customProviders s);
     loaded_providerModels := Some (providerModels s) |}.

Definition set_embeddingsEnabled (enabled : bool) (s : Settings) : Settings :=
  {| openaiAPIKey := openaiAPIKey s;
     openaiBaseUrl := openaiBaseUrl s;
     anthropicAPIKey := anthropicAPIKey s;
     gcpAPIKey := gcpAPIKey s;
     vectors := vectors s;
     noteGroups := noteGroups s;
     embeddingsModelVersion := embeddingsModelVersion s;
     embeddingsModelProviderId := embeddingsModelProviderId s;
     embeddingsEnabled := enabled;
     indexedNoteGroup := indexedNoteGroup s;
     copilotModel := copilotModel s;
     copilotModelProviderId := copilotModelProviderId s;
     customChatModels := customChatModels s;
     customEmbeddingModels := customEmbeddingModels s;
     customProviders := customProviders s;
     providerModels := providerModels s |}.

Definition set_copilotModel (value : string) (providerId : option string)
    (s : Settings) : Settings :=
  {| openaiAPIKey := openaiAPIKey s;
     openaiBaseUrl := openaiBaseUrl s;
     anthropicAPIKey := anthropicAPIKey s;
     gcpAPIKey := gcpAPIKey s;
     vectors := vectors s;
     noteGroups := noteGroups s;
     embeddingsModelVersion := embeddingsModelVersion s;
     embeddingsModelProviderId := embeddingsModelProviderId s;
     embeddingsEnabled := embeddingsEnabled s;
     indexedNoteGroup := indexedNoteGroup s;
     copilotModel := value;
     copilotModelProviderId := providerId;
     customChatModels := customChatModels s;
     customEmbeddingModels := customEmbeddingModels s;
     customProviders := customProviders s;
     providerModels := providerModels s |}.

(** [migrateModelSettings()]. *)
Definition migrateModelSettings : M World unit :=
  (w <- get ;;
   let s := settings (plugin w) in
   (* Migrate embeddingsModelVersion if in old format *)
   (if Js.truthy (embeddingsModelVersion s)
       && negb (Js.includes (default EmptyString (embeddingsModelVersion s)) ":")
    then
      let oldValue := default EmptyString (embeddingsModelVersion s) in
      let availableModels :=
        availableEmbeddingModels (openaiAPIKey s)
          (Some (customEmbeddingModels s)) (Some (providerModels s)) in
      let migratedValue :=
        migrateModelValue oldValue availableModels (embeddingsModelProviderId s) in
      console_write (console_log
        ("Migrating embeddingsModelVersion from " +:+ Js.quoted oldValue +:+
         " to " +:+ Js.quoted migratedValue)) ;;;
      (* Extract and set providerId from migrated value *)
      modify (with_plugin (with_settings
        (set_embeddingsModel (Some migratedValue)
           (Some (providerId (parseModelValue migratedValue))))))
    else ret tt) ;;;
   w <- get ;;
   let s := settings (plugin w) in
   (* Migrate copilotModel if in old format *)
   if Js.nonempty (copilotModel s) && negb (Js.includes (copilotModel s) ":")
   then
     let availableModels :=
       availableChatModels (openaiAPIKey s) (anthropicAPIKey s)
         (Some (customChatModels s)) (Some (providerModels s)) in
     let migratedValue :=
       migrateModelValue (copilotModel s) availableModels
         (copilotModelProviderId s) in
     console_write (console_log
       ("Migrating copilotModel from " +:+ Js.quoted (copilotModel s) +:+
        " to " +:+ Js.quoted migratedValue)) ;;;
     modify (with_plugin (with_settings
       (set_copilotModel migratedValue
          (Some (providerId (parseModelValue migratedValue))))))
   else ret tt)%js.

(** [DEFAULT_NOTE_GROUPS] of [note_group], and the host's [loadData()]. *)
Variable DEFAULT_NOTE_GROUPS : list NoteGroup.
Variable loadData : M World (option LoadedSettings).

(** [loadSettings()]. *)
Definition loadSettings : M World unit :=
  (loadedSettings <- loadData ;;
   modify (with_plugin (with_settings (fun _ =>
     assign_settings (DEFAULT_SETTINGS DEFAULT_NOTE_GROUPS) loadedSettings))) ;;;
   w <- get ;;
   (if negb (Js.truthy (loadedSettings ≫= loaded_embeddingsModelVersion))
       && negb (length (vectors (settings (plugin w))) =? 0)%nat
    then
      (* if the model version was not set in settings, but vectors exist *)
      modify (with_plugin (with_settings (fun s =>
        set_embeddingsEnabled true
          (set_embeddingsModel (Some unlabelledEmbeddingModel)
             (embeddingsModelProviderId s) s))))
    else ret tt) ;;;
   w <- get ;;
   (if negb (length (vectors (settings (plugin w))) =? 0)%nat
    then modify (with_plugin
           (set_lastIndexedCount (length (vectors (settings (plugin w))))))
    else ret tt) ;;;
   (* Migrate old format model values to new format (providerId:modelName) *)
   migrateModelSettings ;;;
   (* Initialize clients *)
   modify (with_plugin (set_clientCache ∅)) ;;;
   client <- getOpenAIClient None ;;
   modify (with_plugin (fun p =>
     set_clients client
       {| anthropic_apiKey := anthropicAPIKey (settings p) |} p)))%js.

(** Both model settings are in the [providerId:modelName] format, or
    unset. *)
Definition new_format (s : Settings) : Prop :=
  (Js.truthy (embeddingsModelVersion s) = true ->
   Js.includes (default EmptyString (embeddingsModelVersion s)) ":" = true) /\
  (Js.nonempty (copilotModel s) = true ->
   Js.includes (copilotModel s) ":" = true).

Variable saveData_rejection : Settings -> World -> option (Thrown * option Settings).
Variable generateAndStoreEmbeddings :
  @GenerateArgs StoredVector NoteGroup TFile VectorStore ->
  M World ConcurrencyManager.
Variable concurrencyManager_done : ConcurrencyManager -> M World unit.

Local Abbreviation saveSettings := (saveSettings saveData_rejection).

(** What the command [generate-embeddings-current-note] does once the
    status is set and saved (main.ts:205-219): the client of the
    configured provider is looked up, the one file is handed over and
    waited for. *)
Definition currentNote_work (file : TFile) : M World unit :=
  ((* Get the client for the configured embedding model *)
   w <- get ;;
   let providerId := embeddingsModelProviderId (settings (plugin w)) in
   client <- getOpenAIClient providerId ;;
   w <- get ;;
   concurrencyManager <-
     generateAndStoreEmbeddings
       {| files := [file];
          args_vectorStore := vectorStore (plugin w);
          args_openaiClient := client;
          notify := fun numCompleted =>
            modify (with_plugin (set_lastIndexedCount numCompleted)) |} ;;
   concurrencyManager_done concurrencyManager)%js.

(** The callback of the command [generate-embeddings-current-note].
    [activeView] tells whether [getActiveViewOfType(MarkdownView)] found a
    view, [activeFile] is what [getActiveFile()] gave. *)
Definition generateEmbeddingsForCurrentNote
    (activeView : bool) (activeFile : option TFile) : M World unit :=
  if activeView then
    match activeFile with
    | None => ret tt
    | Some file =>
        try_finally
          (modify (with_plugin (set_indexingStatus INDEXING_STATUS)) ;;;
           saveSettings ;;;
           (* Get the client for the configured embedding model *)
           w <- get ;;
           let providerId := embeddingsModelProviderId (settings (plugin w)) in
           client <- getOpenAIClient providerId ;;
           w <- get ;;
           concurrencyManager <-
             generateAndStoreEmbeddings
               {| files := [file];
                  args_vectorStore := vectorStore (plugin w);
                  args_openaiClient := client;
                  notify := fun numCompleted =>
                    modify (with_plugin (set_lastIndexedCount numCompleted)) |} ;;
           concurrencyManager_done concurrencyManager)%js
          (modify (with_plugin (set_indexingStatus IDLE_STATUS)) ;;;
           saveSettings)%js
    end
  else ret tt.

(** Every cached client rounds to the default number of decimals. *)
Definition cache_default_precision (w : World) : Prop :=
  forall (id : string) (client : OpenAIClient),
    clientCache (plugin w) !! id = Some client ->
    quantization_decimals (config client) = quantizationDecimals.

(** The embedding model name [getOpenAIClient] configures a new client
    with. *)
Definition configuredEmbeddingsModel (s : Settings) : string :=
  let embeddingsModel :=
    Js.or_else (embeddingsModelVersion s) unlabelledEmbeddingModel in
  if Js.includes embeddingsModel ":"
  then modelName (parseModelValue embeddingsModel)
  else embeddingsModel.

(** The client [getOpenAIClient] builds from credentials. *)
Definition client_for (s : Settings) (apiKey baseURL : string) : OpenAIClient :=
  new_OpenAIClient apiKey
    (Some {| embeddings_model_opt := Some (configuredEmbeddingsModel s);
             quantization_decimals_opt := None;
             baseURL_opt := if Js.nonempty baseURL then Some baseURL else None |}).

End PluginLifecycle.

(* ===================================================================== *)
(** ** [main.ts]: duplicate model names *)
(* ===================================================================== *)

(** A JavaScript [Map] with string keys: its entries in insertion order.
    [set] on a key already present replaces the value where it stands. *)
Fixpoint map_get {V : Type} (m : list (string * V)) (key : string) : option V :=
  match m with
  | [] => None
  | (k, v) :: rest => if String.eqb k key then Some v else map_get rest key
  end.

Fixpoint map_set {V : Type} (m : list (string * V)) (key : string) (value : V)
  : list (string * V) :=
  match m with
  | [] => [(key, value)]
  | (k, v) :: rest =>
      if String.eqb k key then (k, value) :: rest
      else (k, v) :: map_set rest key value
  end.

Section Duplicates.
Context {T : Type} `{NamedModel T}.

(** The first loop of [detectDuplicateModelNames]: models grouped by
    name. *)
Definition nameToModels (models : list T) : list (string * list T) :=
  List.fold_left
    (fun acc model =>
       let existing := default [] (map_get acc (name_of model)) in
       map_set acc (name_of model) (existing ++ [model]))
    models [].

(** [detectDuplicateModelNames(models)]. *)
Definition detectDuplicateModelNames (models : list T) : list (string * list T) :=
  (* Filter to only duplicates *)
  List.fold_left
    (fun duplicates entry =>
       let '(name, modelList) := entry in
       if (1 <? length modelList)%nat then map_set duplicates name modelList
       else duplicates)
    (nameToModels models) [].

End Duplicates.

(* ===================================================================== *)
(** ** [main.ts]: the folders a note group may select *)
(* ===================================================================== *)

(** [array.entries()]: each element with its index. *)
Fixpoint indexed_from {A : Type} (start : nat) (l : list A) : list (nat * A) :=
  match l with
  | [] => []
  | x :: rest => (start, x) :: indexed_from (S start) rest
  end.

(** [new Set(values)] read back with [Array.from]: the values in order of
    first occurrence. *)
Definition js_set (values : list string) : list string :=
  List.fold_left
    (fun seen value =>
       if existsb (String.eqb value) seen then seen else seen ++ [value])
    values [].

(** The order of [Array.prototype.sort()] on strings. *)
Definition string_le (a b : string) : Prop := String.leb a b = true.

#[export] Instance string_le_dec (a b : string) : Decision (string_le a b).
Proof. unfold string_le. apply _. Defined.

Section NoteGroupFolders.

Context {NoteGroup : Type}.

(** The [notesFolder] field of a note group ([note_group]): a path or
    [null]. *)
Variable notesFolder : NoteGroup -> option string.

Definition NO_FOLDER_SELECTED : string := "(none selected)".

(** Folders already used by the other note groups. *)
Definition usedFolders (noteGroups : list NoteGroup) (i : nat) : list string :=
  js_set
    (List.map (fun entry => default EmptyString (notesFolder (snd entry)))
       (List.filter
          (fun entry =>
             negb (Nat.eqb (fst entry) i) && Js.truthy (notesFolder (snd entry)))
          (indexed_from 0 noteGroups))).

(** The options of the folder dropdown of note group [i], given the
    paths of all folders of the vault. *)
Definition selectableFolders
    (allFolders : list string) (noteGroups : list NoteGroup) (i : nat)
  : list string :=
  let used := usedFolders noteGroups i in
  let selectable :=
    List.filter
      (fun folder =>
         (* Keep folder if it's not used and none of its parents is *)
         negb (existsb
                 (fun usedFolder =>
                    String.eqb folder usedFolder
                    || String.prefix (usedFolder +:+ "/") folder)
                 used))
      allFolders in
  merge_sort string_le (NO_FOLDER_SELECTED :: selectable).

End NoteGroupFolders.

(* ===================================================================== *)
(** ** A vault to run the model on *)
(* ===================================================================== *)

Module Example.

(** A stored vector is the note's path with its components; a note group
    is its folder; a file is its path; the store object remembers how many
    vectors it was built over. *)
Definition StoredVector : Type := string * list DecimalNumbers.number.
Definition NoteGroup : Type := string.
Definition TFile : Type := string.
Definition VectorStore : Type := nat.
Definition ExWorld : Type := @World StoredVector NoteGroup VectorStore.

Definition new_VectorStore (p : @Plugin StoredVector NoteGroup VectorStore)
  : VectorStore :=
  length (vectors (settings p)).

Definition filesInGroupFolder (noteGroup : option NoteGroup)
  : M ExWorld (list TFile) :=
  match noteGroup with
  | Some folder => ret [folder +:+ "/a.md"; folder +:+ "/b.md"]
  | None => throw (Error "no note group selected")
  end.

(** Embedding work that fails as a whole. *)
Definition generateAndStoreEmbeddings
    (args : @GenerateArgs StoredVector NoteGroup TFile VectorStore)
  : M ExWorld unit :=
  throw (Error "embedding service unavailable").

Definition concurrencyManager_done (manager : unit) : M ExWorld unit := ret tt.

(** A host on which every write of the settings resolves. *)
Definition saveData_rejection
    (data : @ZettelkastenLLMToolsPluginSettings StoredVector NoteGroup)
    (w : ExWorld)
  : option (Thrown * option (@ZettelkastenLLMToolsPluginSettings StoredVector NoteGroup)) :=
  None.

(** Settings of a user who enabled embeddings under the small model, in
    the old value format, and has one note indexed. *)
Definition user_settings
  : @ZettelkastenLLMToolsPluginSettings StoredVector NoteGroup :=
  {| openaiAPIKey := "sk-test";
     openaiBaseUrl := EmptyString;
     anthropicAPIKey := EmptyString;
     gcpAPIKey := EmptyString;
     vectors := [("notes/a.md", [Some (Qmake 123 1000); Some (Qmake (-333) 1000)])];
     noteGroups := ["notes"];
     embeddingsModelVersion := Some "text-embedding-3-small";
     embeddingsModelProviderId := None;
     embeddingsEnabled := true;
     indexedNoteGroup := 0;
     copilotModel := CLAUDE_3_5_HAIKU;
     copilotModelProviderId := None;
     customChatModels := [];
     customEmbeddingModels := [];
     customProviders := [];
     providerModels := [] |}.

Definition world_with (status : IndexingStatus) : ExWorld :=
  {| plugin :=
       {| settings := user_settings;
          vectorStore := 1%nat;
          openaiClient := new_OpenAIClient "sk-test" None;
          anthropicClient := {| anthropic_apiKey := EmptyString |};
          indexingStatus := status;
          lastIndexedCount := 1;
          clientCache := ∅ |};
     host :=
       {| data_json := Some user_settings;
          triggered := [];
          console := [];
          notices := [];
          embeddingDropdown := "openai:text-embedding-3-small" |} |}.

(** An endpoint that answers every request with the same raw embedding. *)
Definition raw_embedding : list DecimalNumbers.number :=
  [Some (Qmake 12345 100000); Some (Qmake (-1) 3); Some (Qmake 1 2000)].

Definition steady_remote : Remote DecimalNumbers.number :=
  {| sent := [];
     service := fun _ _ =>
       Returned {| data := [ {| entry_embedding := raw_embedding |} ] |} |}.

(** Three notes; the second one fails to embed; the call that was
    admitted last comes back first. *)
Definition notes : list string := ["a.md"; "b.md"; "c.md"].

Definition embeds (note : string) : bool := negb (String.eqb note "b.md").

Definition last_first (completedSoFar : nat) : nat := 1%nat.

End Example.

(* ===================================================================== *)
(** ** More of the vault: other settings, endpoints and stored data *)
(* ===================================================================== *)

Module MoreExamples.

Import Example.

Definition ExSettings : Type :=
  @ZettelkastenLLMToolsPluginSettings StoredVector NoteGroup.

(** A plugin over given settings, with nothing cached. *)
Definition world_of (s : ExSettings) (status : IndexingStatus) : ExWorld :=
  {| plugin :=
       {| settings := s;
          vectorStore := 1%nat;
          openaiClient := new_OpenAIClient "sk-test" None;
          anthropicClient := {| anthropic_apiKey := EmptyString |};
          indexingStatus := status;
          lastIndexedCount := 1;
          clientCache := ∅ |};
     host :=
       {| data_json := None;
          triggered := [];
          console := [];
          notices := [];
          embeddingDropdown := EmptyString |} |}.

(** The user's settings once in the new format. *)
Definition migrated_settings : ExSettings :=
  set_copilotModel "anthropic:claude-3-5-haiku-latest" (Some "anthropic")
    (set_embeddingsModel (Some "openai:text-embedding-3-small") (Some "openai")
       user_settings).

(** The same user with embeddings switched off. *)
Definition disabled_settings : ExSettings :=
  set_embeddingsEnabled false user_settings.

(** Settings that name a discovered GCP model. *)
Definition gcp_settings : ExSettings :=
  set_embeddingsModel (Some "gcp:text-embedding-004") (Some "gcp") user_settings.

(** Settings whose embeddings provider id is the Anthropic one. *)
Definition anthropic_settings : ExSettings :=
  set_embeddingsModel (Some "anthropic:voyage-3") (Some "anthropic") user_settings.

(** An endpoint that rejects everything, one that answers with no entry. *)
Definition failing_remote : Remote DecimalNumbers.number :=
  {| sent := []; service := fun _ _ => Threw (Error "429 rate limited") |}.

Definition empty_remote : Remote DecimalNumbers.number :=
  {| sent := []; service := fun _ _ => Returned {| data := [] |} |}.

(** A client asked to round to 101 decimals. *)
Definition overprecise_client : OpenAIClient :=
  new_OpenAIClient "sk-test"
    (Some {| embeddings_model_opt := None;
             quantization_decimals_opt := Some 101;
             baseURL_opt := None |}).

(** A vault that cannot be listed, and one with a single note. *)
Definition unreadable_vault (noteGroup : option NoteGroup)
  : M ExWorld (list TFile) :=
  throw (Error "vault not ready").

Definition one_note_vault (noteGroup : option NoteGroup)
  : M ExWorld (list TFile) :=
  ret ["notes/a.md"].

(** A [data.json] written before model versions were recorded. *)
Definition legacy_data : @LoadedSettings StoredVector NoteGroup :=
  {| loaded_openaiAPIKey := Some "sk-test";
     loaded_openaiBaseUrl := None;
     loaded_anthropicAPIKey := Some EmptyString;
     loaded_gcpAPIKey := None;
     loaded_vectors :=
       Some [("notes/a.md", [Some (Qmake 123 1000)]);
             ("notes/b.md", [Some (Qmake 5 1000)])];
     loaded_noteGroups := Some ["notes"];
     loaded_embeddingsModelVersion := None;
     loaded_embeddingsModelProviderId := None;
     loaded_embeddingsEnabled := Some false;
     loaded_indexedNoteGroup := Some 0;
     loaded_copilotModel := Some "gpt-4o";
     loaded_copilotModelProviderId := None;
     loaded_customChatModels := None;
     loaded_customEmbeddingModels := None;
     loaded_customProviders := None;
     loaded_providerModels := None |}.


(** A host whose [loadData] finds the given data. *)
Definition loadData_finding (data : option (@LoadedSettings StoredVector NoteGroup))
  : M ExWorld (option (@LoadedSettings StoredVector NoteGroup)) :=
  ret data.

End MoreExamples.

(* ===================================================================== *)
(** * Part II: properties *)
(* ===================================================================== *)

(* --------------------------------------------------------------------- *)
(** *** Facts about [indexOf] and [substring] *)
(* --------------------------------------------------------------------- *)

Lemma prefix_colon_cons (a : ascii) (s : string) :
  String.prefix ":" (String a s) = bool_decide (a = ":"%char).
Proof.
  change (String.prefix ":" (String a s))
    with (if ascii_dec ":" a then String.prefix "" s else false).
  destruct (ascii_dec ":" a) as [<- | Hne].
  - rewrite bool_decide_eq_true_2 by reflexivity. destruct s; reflexivity.
  - rewrite bool_decide_eq_false_2; [reflexivity | congruence].
Qed.

Lemma index_colon_cons (a : ascii) (s : string) :
  String.index 0 ":" (String a s) =
  if bool_decide (a = ":"%char) then Some 0%nat
  else option_map S (String.index 0 ":" s).
Proof.
  change (String.index 0 ":" (String a s))
    with (if String.prefix ":" (String a s) then Some 0%nat
          else match String.index 0 ":" s with
               | Some n => Some (S n)
               | None => None
               end).
  rewrite prefix_colon_cons.
  destruct (bool_decide (a = ":"%char)); [reflexivity |].
  destruct (String.index 0 ":" s); reflexivity.
Qed.

Lemma append_nil_l (s : string) : "" +:+ s = s.
Proof. reflexivity. Qed.

Lemma append_cons (a : ascii) (s t : string) :
  String a s +:+ t = String a (s +:+ t).
Proof. reflexivity. Qed.

Lemma append_colon (m : string) : ":" +:+ m = String ":" m.
Proof. reflexivity. Qed.

Lemma append_assoc (s t u : string) : (s +:+ t) +:+ u = s +:+ t +:+ u.
Proof.
  induction s as [| a s IH]; [reflexivity |].
  rewrite !append_cons, IH. reflexivity.
Qed.

(** The first colon of [p ++ ":" ++ m] sits right after a colon-free [p]. *)
Lemma index_colon_append (p m : string) :
  String.index 0 ":" p = None ->
  String.index 0 ":" (p +:+ ":" +:+ m) = Some (String.length p).
Proof.
  rewrite append_colon.
  induction p as [| a p IH]; intros Hp.
  - rewrite append_nil_l, index_colon_cons.
    rewrite bool_decide_eq_true_2; reflexivity.
  - rewrite index_colon_cons in Hp.
    rewrite append_cons, index_colon_cons.
    destruct (bool_decide (a = ":"%char)); [discriminate |].
    destruct (String.index 0 ":" p); [discriminate |].
    rewrite IH; reflexivity.
Qed.

Lemma index_colon_append_some (p m : string) :
  exists i, String.index 0 ":" (p +:+ ":" +:+ m) = Some i.
Proof.
  rewrite append_colon.
  induction p as [| a p [i IH]].
  - exists 0%nat. rewrite append_nil_l, index_colon_cons.
    rewrite bool_decide_eq_true_2; reflexivity.
  - rewrite append_cons, index_colon_cons.
    destruct (bool_decide (a = ":"%char)); [eauto |].
    rewrite IH. simpl. eauto.
Qed.

Lemma length_append (s t : string) :
  String.length (s +:+ t) = (String.length s + String.length t)%nat.
Proof.
  induction s as [| a s IH]; [reflexivity |].
  rewrite append_cons. simpl. rewrite IH. reflexivity.
Qed.

Lemma substring_all (s : string) : String.substring 0 (String.length s) s = s.
Proof. induction s as [| a s IH]; simpl; [reflexivity | rewrite IH; reflexivity]. Qed.

Lemma substring_head (p rest : string) :
  String.substring 0 (String.length p) (p +:+ rest) = p.
Proof.
  induction p as [| a p IH].
  - rewrite append_nil_l. destruct rest; reflexivity.
  - rewrite append_cons. simpl. rewrite IH. reflexivity.
Qed.

Lemma substring_tail (p rest : string) :
  String.substring (String.length p) (String.length rest) (p +:+ rest) = rest.
Proof.
  induction p as [| a p IH].
  - rewrite append_nil_l. apply substring_all.
  - rewrite append_cons. simpl. exact IH.
Qed.

Lemma js_substring_head (p rest : string) :
  Js.substring (p +:+ rest) 0 (Some (Z.of_nat (String.length p))) = p.
Proof.
  unfold Js.substring. rewrite length_append.
  replace (Z.to_nat _) with 0%nat by lia.
  replace (Z.to_nat _) with (String.length p) by lia.
  apply substring_head.
Qed.

Lemma js_substring_tail (p m : string) :
  Js.substring (p +:+ ":" +:+ m) (Z.of_nat (String.length p) + 1) None = m.
Proof.
  rewrite <- append_assoc.
  unfold Js.substring. rewrite !length_append. cbn [String.length].
  replace (Z.to_nat _) with (String.length (p +:+ ":"))
    by (rewrite length_append; cbn [String.length]; lia).
  replace (Z.to_nat _) with (String.length m) by lia.
  apply substring_tail.
Qed.

Lemma includes_format (p m : string) : Js.includes (formatModelValue p m) ":" = true.
Proof.
  unfold Js.includes, formatModelValue.
  destruct (index_colon_append_some p m) as [i ->]. reflexivity.
Qed.

(** [includes(':')] is membership of the colon among the characters. *)
Lemma includes_colon_iff (s : string) :
  Js.includes s ":" = true <-> In ":"%char (list_ascii_of_string s).
Proof.
  unfold Js.includes. induction s as [| a s IH].
  - cbn. split; [discriminate | tauto].
  - rewrite index_colon_cons. cbn [list_ascii_of_string In].
    destruct (bool_decide_reflect (a = ":"%char)) as [-> | Hne].
    + split; auto.
    + destruct (String.index 0 ":" s); cbn [option_map]; split.
      * intros _. right. apply IH. reflexivity.
      * reflexivity.
      * discriminate.
      * intros [Heq | Hin]; [congruence | apply IH in Hin; discriminate].
Qed.

Lemma includes_colon_false (s : string) :
  ~ In ":"%char (list_ascii_of_string s) -> Js.includes s ":" = false.
Proof.
  intros Hnot. destruct (Js.includes s ":") eqn:Hinc; [| reflexivity].
  apply includes_colon_iff in Hinc. contradiction.
Qed.

(* --------------------------------------------------------------------- *)
(** *** Round trip and migration *)
(* --------------------------------------------------------------------- *)

(** C8. For every [providerId] without a colon and every [modelName],
    parsing the formatted value gives back exactly the two parts; and a
    value without any colon parses as provider ['openai'] with the whole
    input as model name. *)
Theorem parse_format_roundtrip :
  (forall providerId modelName : string,
      ~ In ":"%char (list_ascii_of_string providerId) ->
      parseModelValue (formatModelValue providerId modelName) =
      {| providerId := providerId; modelName := modelName |}) /\
  (forall value : string,
      ~ In ":"%char (list_ascii_of_string value) ->
      parseModelValue value = {| providerId := "openai"; modelName := value |}).
Proof.
  split.
  - intros p m Hp. apply includes_colon_false in Hp. unfold Js.includes in Hp.
    destruct (String.index 0 ":" p) eqn:Hidx; [discriminate |].
    unfold parseModelValue, Js.indexOf, formatModelValue.
    rewrite (index_colon_append p m Hidx).
    destruct (Z.eqb_spec (Z.of_nat (String.length p)) (-1)) as [Hneg | _]; [lia |].
    f_equal.
    + apply js_substring_head.
    + apply js_substring_tail.
  - intros v Hv. apply includes_colon_false in Hv. unfold Js.includes in Hv.
    unfold parseModelValue, Js.indexOf.
    destruct (String.index 0 ":" v); [discriminate | reflexivity].
Qed.

Lemma parse_format_roundtrip_witness :
  parseModelValue (formatModelValue "gcp" "text-embedding-004") =
  {| providerId := "gcp"; modelName := "text-embedding-004" |} /\
  parseModelValue "text-embedding-3-small" =
  {| providerId := "openai"; modelName := "text-embedding-3-small" |}.
Proof.
  split.
  - apply (proj1 parse_format_roundtrip "gcp" "text-embedding-004").
    cbn. intros [H | [H | [H | []]]]; discriminate H.
  - apply (proj2 parse_format_roundtrip "text-embedding-3-small").
    cbn. intros H. repeat (destruct H as [H | H]; [discriminate H |]).
    exact H.
Defined.

(** C9. [migrateModelValue] always returns a value containing the [:]
    separator, and migrating its own output again changes nothing. *)
Theorem migrateModelValue_colon_idempotent
    {T : Type} `{NamedModel T}
    (oldValue : string) (availableModels : list T)
    (currentProviderId : option string) :
  In ":"%char
     (list_ascii_of_string
        (migrateModelValue oldValue availableModels currentProviderId)) /\
  migrateModelValue
    (migrateModelValue oldValue availableModels currentProviderId)
    availableModels currentProviderId
  = migrateModelValue oldValue availableModels currentProviderId.
Proof.
  assert (Hcolon :
    Js.includes (migrateModelValue oldValue availableModels currentProviderId) ":"
      = true).
  { unfold migrateModelValue.
    destruct (Js.includes oldValue ":") eqn:Hold; [exact Hold |].
    destruct (List.filter _ availableModels) as [| m [| m' ms]];
      try apply includes_format.
    destruct (Js.truthy currentProviderId); [| apply includes_format].
    destruct (List.find _ _); apply includes_format. }
  split; [apply includes_colon_iff; exact Hcolon |].
  unfold migrateModelValue at 1. rewrite Hcolon. reflexivity.
Qed.

(* --------------------------------------------------------------------- *)
(** *** Sequencing *)
(* --------------------------------------------------------------------- *)

Lemma bind_returned {W A B} (c : M W A) (k : A -> M W B) (w w' : W) (a : A) :
  c w = (Returned a, w') -> bind c k w = k a w'.
Proof. intros Hc. unfold bind. rewrite Hc. reflexivity. Qed.

Lemma bind_threw {W A B} (c : M W A) (k : A -> M W B) (w w' : W) (e : Thrown) :
  c w = (Threw e, w') -> bind c k w = (Threw e, w').
Proof. intros Hc. unfold bind. rewrite Hc. reflexivity. Qed.

Lemma bind_get {W B} (k : W -> M W B) (w : W) : bind get k w = k w w.
Proof. reflexivity. Qed.

Lemma bind_modify {W B} (f : W -> W) (k : unit -> M W B) (w : W) :
  bind (modify f) k w = k tt (f w).
Proof. reflexivity. Qed.

(* --------------------------------------------------------------------- *)
(** *** The embedding client *)
(* --------------------------------------------------------------------- *)

Section EmbeddingFacts.

Context {number : Type}.
Variable toFixedDigits : number -> Z -> string.
Variable Number : string -> number.

Local Abbreviation generateEmbeddings := (generateEmbeddings toFixedDigits Number).
Local Abbreviation generateOpenAiEmbeddings :=
  (generateOpenAiEmbeddings toFixedDigits Number).
Local Abbreviation quantize := (quantize toFixedDigits Number).

Lemma nonempty_true (s : string) : s <> "" -> Js.nonempty s = true.
Proof.
  unfold Js.nonempty. intros Hs. apply negb_true_iff.
  apply String.eqb_neq. exact Hs.
Qed.

(** Inside its range, [toFixed] followed by [Number] over a whole vector
    is the componentwise rounding, and leaves the world alone. *)
Lemma map_toFixed_Number {W} (decimals : Z) (values : list number) (w : W) :
  0 <= decimals <= 100 ->
  map_throwing
    (fun value => (digits <- toFixed toFixedDigits value decimals ;;
                   ret (Number digits))%js)
    values w
  = (Returned (List.map (quantize decimals) values), w).
Proof.
  intros Hrange. induction values as [| v vs IH]; [reflexivity |].
  cbn [map_throwing List.map].
  erewrite bind_returned; cycle 1.
  { unfold toFixed.
    replace ((decimals <? 0) || (100 <? decimals)) with false
      by (symmetry; apply orb_false_iff; split; apply Z.ltb_ge; lia).
    reflexivity. }
  erewrite bind_returned by exact IH. reflexivity.
Qed.

Lemma map_entries_quantized
    (decimals : Z) (entries : list (EmbeddingEntry number)) (w : Remote number) :
  0 <= decimals <= 100 ->
  map_throwing
    (fun entry =>
       map_throwing
         (fun value => (digits <- toFixed toFixedDigits value decimals ;;
                        ret (Number digits))%js)
         (entry_embedding entry))
    entries w
  = (Returned
       (List.map (fun e => List.map (quantize decimals) (entry_embedding e)) entries),
     w).
Proof.
  intros Hrange. induction entries as [| e es IH]; [reflexivity |].
  cbn [map_throwing List.map].
  erewrite bind_returned by (apply map_toFixed_Number; exact Hrange).
  erewrite bind_returned by exact IH. reflexivity.
Qed.

(** What one successful call stores, as a function of the answer. *)
Lemma generateOpenAiEmbeddings_answer
    (this : OpenAIClient) (docs : list string) (w : Remote number)
    (answer : CreateEmbeddingResponse number) :
  0 <= quantization_decimals (config this) <= 100 ->
  service w (sent w) (request_sent this docs) = Returned answer ->
  generateOpenAiEmbeddings this docs w
  = (Returned
       (List.head
          (List.map
             (fun e => List.map (quantize (quantization_decimals (config this)))
                                (entry_embedding e))
             (data answer))),
     {| sent := sent w ++ [request_sent this docs]; service := service w |}).
Proof.
  intros Hrange Hanswer.
  unfold generateOpenAiEmbeddings. fold (request_sent this docs).
  erewrite bind_returned; cycle 1.
  { unfold embeddings_create. rewrite Hanswer. reflexivity. }
  erewrite bind_returned by (apply map_entries_quantized; exact Hrange).
  reflexivity.
Qed.

(** C1. A client built without a configured precision rounds to 3
    decimals; the vector a call hands back for storage is the raw
    embedding of the answer's first entry, each component passed through
    the rounding rule [Number(value.toFixed(decimals))]; and two calls
    under the same precision that are answered with the same raw embedding
    hand back identical vectors. *)
Theorem stored_vector_is_quantized :
  (forall (apiKey : string) (partial : option PartialOpenAIClientConfig),
      match partial with
      | Some p => quantization_decimals_opt p = None
      | None => True
      end ->
      quantization_decimals (config (new_OpenAIClient apiKey partial)) = 3) /\
  (forall (this : OpenAIClient) (docs : list string) (w : Remote number)
          (raw : list number) (others : list (EmbeddingEntry number)),
      0 <= quantization_decimals (config this) <= 100 ->
      service w (sent w) (request_sent this docs)
        = Returned {| data := {| entry_embedding := raw |} :: others |} ->
      fst (generateOpenAiEmbeddings this docs w)
        = Returned
            (Some (List.map (quantize (quantization_decimals (config this))) raw))) /\
  (forall (c1 c2 : OpenAIClient) (docs : list string) (w1 w2 : Remote number)
          (raw : list number) (others1 others2 : list (EmbeddingEntry number)),
      embeddings_model (config c1) = embeddings_model (config c2) ->
      quantization_decimals (config c1) = quantization_decimals (config c2) ->
      0 <= quantization_decimals (config c1) <= 100 ->
      service w1 (sent w1) (request_sent c1 docs)
        = Returned {| data := {| entry_embedding := raw |} :: others1 |} ->
      service w2 (sent w2) (request_sent c2 docs)
        = Returned {| data := {| entry_embedding := raw |} :: others2 |} ->
      fst (generateOpenAiEmbeddings c1 docs w1)
        = fst (generateOpenAiEmbeddings c2 docs w2)).
Proof.
  split; [| split].
  - intros apiKey [p |] Hp; [| reflexivity].
    unfold new_OpenAIClient, spread_config. cbn [config quantization_decimals].
    rewrite Hp. reflexivity.
  - intros this docs w raw others Hrange Hanswer.
    rewrite (generateOpenAiEmbeddings_answer this docs w _ Hrange Hanswer).
    reflexivity.
  - intros c1 c2 docs w1 w2 raw others1 others2 _ Hprec Hrange H1 H2.
    rewrite (generateOpenAiEmbeddings_answer c1 docs w1 _ Hrange H1).
    rewrite Hprec in Hrange.
    rewrite (generateOpenAiEmbeddings_answer c2 docs w2 _ Hrange H2).
    cbn [fst data List.map List.head]. rewrite Hprec. reflexivity.
Qed.

(** C3. A call whose text is empty or missing is rejected with an error;
    nothing is sent to the embeddings endpoint, and the only trace of the
    rejection is the outcome handed to this caller. *)
Theorem generateEmbeddings_rejects_missing_text
    (text : option string) (modelName : string)
    (openaiClient : option OpenAIClient) (w : Remote number) :
  text = None \/ text = Some "" ->
  generateEmbeddings text modelName openaiClient w
  = (Threw (Error "No text provided for embedding generation"), w).
Proof. intros [-> | ->]; reflexivity. Qed.

(** C6. With a built-in OpenAI model name and no client, the call is
    rejected at once: the outcome is an error, and the endpoint's record
    of requests is what it was, so nothing was sent, a first time or
    again. For a non-empty text the error is the missing client. *)
Theorem generateEmbeddings_rejects_missing_client
    (text : option string) (modelName : string) (w : Remote number) :
  modelName = OPENAI_EMBEDDING_3_SMALL \/ modelName = OPENAI_EMBEDDING_3_LARGE ->
  (exists message,
      generateEmbeddings text modelName None w = (Threw (Error message), w)) /\
  (Js.truthy text = true ->
   generateEmbeddings text modelName None w
   = (Threw (Error "OpenAI client not initialized"), w)).
Proof.
  intros Hmodel.
  assert (Hbuiltin :
    String.eqb modelName OPENAI_EMBEDDING_3_SMALL
    || String.eqb modelName OPENAI_EMBEDDING_3_LARGE = true).
  { destruct Hmodel as [-> | ->]; reflexivity. }
  unfold generateEmbeddings. destruct text as [t |]; cbn [Js.truthy].
  - fold (Js.nonempty t). destruct (Js.nonempty t).
    + rewrite Hbuiltin. split; [eexists |]; reflexivity.
    + split; [eexists; reflexivity | discriminate].
  - split; [eexists; reflexivity | discriminate].
Qed.

(** C10. For a non-empty text and any model name other than the two
    built-in ones, the call is rejected with [Unknown embedding model]
    and nothing reaches the client's endpoint. This covers models that
    [availableEmbeddingModels] lists: every named custom model is listed
    as available, and every auto-discovered model is listed as it was
    discovered. *)
Theorem generateEmbeddings_rejects_other_models :
  (forall (text modelName : string) (openaiClient : option OpenAIClient)
          (w : Remote number),
      text <> "" ->
      modelName <> OPENAI_EMBEDDING_3_SMALL ->
      modelName <> OPENAI_EMBEDDING_3_LARGE ->
      generateEmbeddings (Some text) modelName openaiClient w
      = (Threw (Error ("Unknown embedding model: " +:+ modelName)), w)) /\
  (forall (openAIKey : string) (customModels : list CustomEmbeddingModel)
          (providerModels : option (list (string * ProviderModels)))
          (custom : CustomEmbeddingModel),
      In custom customModels ->
      cem_name custom <> "" ->
      exists m,
        In m (availableEmbeddingModels openAIKey (Some customModels) providerModels) /\
        em_name m = cem_name custom /\ em_available m = true) /\
  (forall (openAIKey : string) (customModels : option (list CustomEmbeddingModel))
          (providerModels : list (string * ProviderModels))
          (id : string) (models : ProviderModels) (m : EmbeddingModel),
      In (id, models) providerModels ->
      In m (embedding models) ->
      In m (availableEmbeddingModels openAIKey customModels (Some providerModels))).
Proof.
  split; [| split].
  - intros text modelName client w Htext Hsmall Hlarge.
    unfold generateEmbeddings. rewrite (nonempty_true text Htext).
    apply String.eqb_neq in Hsmall, Hlarge. rewrite Hsmall, Hlarge.
    reflexivity.
  - intros key customs pms custom Hin Hname.
    eexists. split; [| split].
    + unfold availableEmbeddingModels.
      apply in_or_app. right. apply in_or_app. left.
      apply in_map_iff. exists custom. split; [reflexivity |].
      apply filter_In. split; [exact Hin | apply nonempty_true; exact Hname].
    + reflexivity.
    + reflexivity.
  - intros key customs pms id models m Hkv Hm.
    unfold availableEmbeddingModels.
    apply in_or_app. right. apply in_or_app. right.
    apply in_concat. exists (embedding models). split; [| exact Hm].
    apply in_map_iff. exists (id, models). split; [reflexivity | exact Hkv].
Qed.

End EmbeddingFacts.

(* --------------------------------------------------------------------- *)
(** *** The indexing run *)
(* --------------------------------------------------------------------- *)

Section PluginFacts.

Context {StoredVector NoteGroup TFile VectorStore ConcurrencyManager : Type}.

Local Abbreviation World :=
  (@World StoredVector NoteGroup VectorStore).
Local Abbreviation Plugin :=
  (@Plugin StoredVector NoteGroup VectorStore).

Local Abbreviation Settings :=
  (@ZettelkastenLLMToolsPluginSettings StoredVector NoteGroup).

Variable saveData_rejection : Settings -> World -> option (Thrown * option Settings).
Variable new_VectorStore : Plugin -> VectorStore.
Variable filesInGroupFolder : option NoteGroup -> M World (list TFile).
Variable generateAndStoreEmbeddings :
  @GenerateArgs StoredVector NoteGroup TFile VectorStore ->
  M World ConcurrencyManager.
Variable concurrencyManager_done : ConcurrencyManager -> M World unit.

Local Abbreviation saveData := (saveData saveData_rejection).
Local Abbreviation saveSettings := (saveSettings saveData_rejection).
Local Abbreviation indexVectorStores_work :=
  (indexVectorStores_work filesInGroupFolder generateAndStoreEmbeddings
                          concurrencyManager_done).
Local Abbreviation indexVectorStores :=
  (indexVectorStores saveData_rejection filesInGroupFolder
                     generateAndStoreEmbeddings concurrencyManager_done).
Local Abbreviation clearVectorArray := (clearVectorArray new_VectorStore).
Local Abbreviation embeddingModel_onConfirm :=
  (embeddingModel_onConfirm saveData_rejection new_VectorStore filesInGroupFolder
     generateAndStoreEmbeddings concurrencyManager_done).

(** The world once [line] is on the console. *)
Local Abbreviation logged line w :=
  (with_host (fun h =>
     {| data_json := data_json h;
        triggered := triggered h;
        console := console h ++ [line];
        notices := notices h;
        embeddingDropdown := embeddingDropdown h |}) w).

(** With an empty cache the default client is always built. *)
Lemma getOpenAIClient_default (w : World) :
  clientCache (plugin w) = ∅ ->
  exists client,
    getOpenAIClient None w
    = (Returned client,
       with_plugin (set_clientCache (<["openai" := client]> ∅)) w).
Proof.
  intros Hcache. unfold getOpenAIClient.
  cbn [Js.or_else]. change (String.eqb "openai" "anthropic") with false.
  cbv iota. rewrite bind_get. rewrite Hcache, lookup_empty.
  change (String.eqb "openai" "gcp") with false.
  change (negb (String.eqb "openai" "openai")) with false.
  cbv iota. eexists.
  erewrite bind_returned by reflexivity. cbv zeta beta iota.
  rewrite bind_modify. unfold ret, with_plugin. cbn [plugin host].
  rewrite Hcache. reflexivity.
Qed.

(** A write that resolves leaves [data] in [data.json]; one that rejects
    leaves what the host says and throws. *)
Lemma saveData_resolved (data : Settings) (w : World) :
  saveData_rejection data w = None ->
  saveData data w
  = (Returned tt,
     with_host (fun h =>
       {| data_json := Some data;
          triggered := triggered h;
          console := console h;
          notices := notices h;
          embeddingDropdown := embeddingDropdown h |}) w).
Proof.
  intros Hwrite. unfold saveData. rewrite bind_get, Hwrite. reflexivity.
Qed.

Lemma saveData_rejected (data : Settings) (w : World)
    (error : Thrown) (blob : option Settings) :
  saveData_rejection data w = Some (error, blob) ->
  saveData data w
  = (Threw error,
     with_host (fun h =>
       {| data_json := blob;
          triggered := triggered h;
          console := console h;
          notices := notices h;
          embeddingDropdown := embeddingDropdown h |}) w).
Proof.
  intros Hwrite. unfold saveData. rewrite bind_get, Hwrite. reflexivity.
Qed.

(** When the host's write resolves, [saveSettings] resolves: it persists
    the settings as they are and rebuilds the clients. *)
Lemma saveSettings_resolves (w : World) :
  saveData_rejection (settings (plugin w)) (logged (console_log "saving...") w)
  = None ->
  exists w',
    saveSettings w = (Returned tt, w') /\
    same_plugin_state w w' /\
    data_json (host w') = Some (settings (plugin w)) /\
    triggered (host w') = triggered (host w) /\
    notices (host w') = notices (host w) /\
    console (host w')
    = console (host w) ++ [console_log "saving..."; console_log "done"].
Proof.
  intros Hwrite. unfold saveSettings.
  unfold console_write at 1. rewrite bind_modify, bind_get.
  erewrite bind_returned by (apply saveData_resolved; exact Hwrite).
  rewrite bind_modify.
  match goal with
  | |- context [bind (getOpenAIClient None) ?k ?w0] =>
      destruct (getOpenAIClient_default w0 eq_refl) as [client Hclient];
      rewrite (bind_returned _ k _ _ _ Hclient)
  end.
  rewrite bind_modify. unfold console_write, modify.
  eexists. split; [reflexivity |].
  cbn [plugin host with_plugin with_host data_json triggered notices console].
  rewrite <- app_assoc. repeat split.
Qed.

(** When the host's write rejects, so does [saveSettings], at once: the
    plugin is what it was. *)
Lemma saveSettings_rejects (w : World) (error : Thrown) (blob : option Settings) :
  saveData_rejection (settings (plugin w)) (logged (console_log "saving...") w)
  = Some (error, blob) ->
  exists w',
    saveSettings w = (Threw error, w') /\
    plugin w' = plugin w /\
    data_json (host w') = blob /\
    triggered (host w') = triggered (host w) /\
    notices (host w') = notices (host w) /\
    console (host w') = console (host w) ++ [console_log "saving..."].
Proof.
  intros Hwrite. unfold saveSettings.
  unfold console_write at 1. rewrite bind_modify, bind_get.
  erewrite bind_threw by (apply saveData_rejected; exact Hwrite).
  eexists. split; [reflexivity |]. repeat split.
Qed.

(** Runs the [saveSettings] that is next in the goal, on a host whose
    writes resolve. *)
Tactic Notation "run_saveSettings" "with" constr(Hhost) "as"
    ident(w') ident(Hsave) ident(Hsame) ident(Hhostfacts) :=
  match goal with
  | |- context [bind saveSettings ?k ?w0] =>
      destruct (saveSettings_resolves w0 (Hhost _ _))
        as (w' & Hsave & Hsame & Hhostfacts);
      rewrite (bind_returned _ k _ _ _ Hsave)
  end.

(** C2. While the status is ['indexing'], [indexVectorStores] returns at
    once and the world is exactly what it was: no embedding work was
    handed over, and the vectors, the status and the persisted settings
    are untouched. *)
Theorem indexVectorStores_coalesced (w : World) :
  indexingStatus (plugin w) = INDEXING_STATUS ->
  indexVectorStores w = (Returned tt, w).
Proof.
  intros Hstatus. unfold indexVectorStores.
  rewrite bind_get, Hstatus.
  rewrite bool_decide_eq_true_2 by reflexivity.
  rewrite orb_true_r. reflexivity.
Qed.

(** [indexVectorStores_work] is the [try] block of [indexVectorStores]. *)
Lemma indexVectorStores_runs_work :
  indexVectorStores
  = (w <- get ;;
     if negb (embeddingsEnabled (settings (plugin w)))
        || bool_decide (indexingStatus (plugin w) = INDEXING_STATUS)
     then ret tt
     else
       modify (with_plugin (set_indexingStatus INDEXING_STATUS)) ;;;
       modify (with_plugin (set_lastIndexedCount 0)) ;;;
       trigger index_updated ;;;
       saveSettings ;;;
       try_finally
         (try_catch indexVectorStores_work
            (fun error =>
               console_write (console_error "Error during indexing:" error)))
         (modify (with_plugin (set_indexingStatus IDLE_STATUS)) ;;;
          trigger index_updated ;;;
          saveSettings ;;;
          w <- get ;;
          Notice ("Indexed " +:+ pretty (lastIndexedCount (plugin w)) +:+ " notes")))%js.
Proof. reflexivity. Qed.

(** The world in which a run that got past the guard asks for its first
    write (main.ts:452): the status and the count are set, the event is
    out and ['saving...'] is on the console. *)
Local Abbreviation first_write w :=
  (logged (console_log "saving...")
     (with_host (fun h =>
        {| data_json := data_json h;
           triggered := triggered h ++ [index_updated];
           console := console h;
           notices := notices h;
           embeddingDropdown := embeddingDropdown h |})
        (with_plugin (set_lastIndexedCount 0)
           (with_plugin (set_indexingStatus INDEXING_STATUS) w)))).

(** The world in which the run asks for its last write (main.ts:478), the
    work having ended in [outcome] and left the world [w2]: a failure of
    the work is on the console, the status is ['idle'], the event is out
    and ['saving...'] is on the console. *)
Local Abbreviation last_write outcome w2 :=
  (logged (console_log "saving...")
     (with_host (fun h =>
        {| data_json := data_json h;
           triggered := triggered h ++ [index_updated];
           console := console h;
           notices := notices h;
           embeddingDropdown := embeddingDropdown h |})
        (with_plugin (set_indexingStatus IDLE_STATUS)
           match outcome with
           | Returned _ => w2
           | Threw error =>
               logged (console_error "Error during indexing:" error) w2
           end))).

(** The [finally] block of [indexVectorStores]. *)
Local Abbreviation indexVectorStores_finally :=
  (modify (with_plugin (set_indexingStatus IDLE_STATUS)) ;;;
   trigger index_updated ;;;
   saveSettings ;;;
   w <- get ;;
   Notice ("Indexed " +:+ pretty (lastIndexedCount (plugin w)) +:+ " notes"))%js.



(** Every option of the dropdown has the [providerId:modelName] shape. *)
Lemma embeddingDropdownOptions_nonempty
    (s : @ZettelkastenLLMToolsPluginSettings StoredVector NoteGroup)
    (value : string) :
  In value (embeddingDropdownOptions s) -> value <> "".
Proof.
  unfold embeddingDropdownOptions. intros Hin.
  apply in_map_iff in Hin as (m & <- & _).
  intros Hempty.
  pose proof (includes_format (Js.or_else (em_providerId m) "openai") (em_name m))
    as Hcolon.
  rewrite Hempty in Hcolon. discriminate.
Qed.

(** A confirmed change to a non-empty, different value empties the
    collection in memory, then asks the host to write the settings. When
    the write resolves the run is started; when it rejects, so does the
    callback, and no run is started. *)
Lemma onConfirm_clears_then_indexes (value : string) (w : World) :
  value <> "" ->
  value <> getCurrentEmbeddingModelValue (settings (plugin w)) ->
  exists w0,
    embeddingsModelVersion (settings (plugin w0)) = Some value /\
    vectors (settings (plugin w0)) = [] /\
    lastIndexedCount (plugin w0) = 0%nat /\
    indexingStatus (plugin w0) = indexingStatus (plugin w) /\
    data_json (host w0) = data_json (host w) /\
    triggered (host w0) = triggered (host w) /\
    console (host w0) = console (host w) ++ [console_log "saving..."] /\
    match saveData_rejection (settings (plugin w0)) w0 with
    | None =>
        exists w1,
          embeddingModel_onConfirm value true w = indexVectorStores w1 /\
          settings (plugin w1) = settings (plugin w0) /\
          lastIndexedCount (plugin w1) = 0%nat /\
          data_json (host w1) = Some (settings (plugin w1))
    | Some (error, blob) =>
        exists w1,
          embeddingModel_onConfirm value true w = (Threw error, w1) /\
          plugin w1 = plugin w0 /\
          triggered (host w1) = triggered (host w)
    end.
Proof.
  intros Hnonempty Hdiff.
  assert (Hshape :
    embeddingModel_onConfirm value true w
    = (saveSettings ;;; indexVectorStores)%js
        (with_plugin (set_lastIndexedCount 0)
           (with_plugin (fun p => set_vectorStore (new_VectorStore p) p)
              (with_plugin (with_settings (set_vectors []))
                 (with_plugin
                    (with_settings
                       (set_embeddingsModel (Some value)
                          (Some (providerId (parseModelValue value)))))
                    w))))).
  { unfold embeddingModel_onConfirm.
    cbn [negb]. rewrite bind_get.
    rewrite (nonempty_true value Hnonempty).
    apply String.eqb_neq in Hdiff. rewrite Hdiff. cbn [negb andb].
    rewrite bind_modify.
    unfold clearVectorArray. unfold bind at 2 3.
    unfold modify at 1 2 3. unfold bind at 1. reflexivity. }
  rewrite Hshape. clear Hshape.
  match goal with
  | |- context [bind saveSettings ?k ?w0] =>
      exists (logged (console_log "saving...") w0);
      repeat (split; [reflexivity |]);
      change (settings (plugin (logged (console_log "saving...") w0)))
        with (settings (plugin w0));
      destruct (saveData_rejection (settings (plugin w0))
                  (logged (console_log "saving...") w0))
        as [[error blob] |] eqn:Hwrite;
      [ destruct (saveSettings_rejects w0 error blob Hwrite)
          as (w1 & Hsave & Hplugin & _ & Hevents & _);
        rewrite (bind_threw _ k _ _ _ Hsave)
      | destruct (saveSettings_resolves w0 Hwrite)
          as (w1 & Hsave & Hsame & Hdisk & _);
        rewrite (bind_returned _ k _ _ _ Hsave) ]
  end.
  - exists w1. split; [reflexivity |]. split; [exact Hplugin | exact Hevents].
  - exists w1. split; [reflexivity |].
    destruct Hsame as (Hsettings & _ & _ & Hcount).
    rewrite Hdisk, Hsettings, Hcount. repeat split.
Qed.

(** C5. When the user confirms one of the dropdown's values and it
    differs from the current one, the vector collection is emptied and the
    indexed count set to 0 in memory, and the host is asked to write these
    settings. When the write resolves, re-indexing starts from a world in
    which the collection is empty, the count is 0 and the persisted
    settings are these same settings: no vector of the previous model is
    left in the store. When the write rejects, the callback rejects with
    the same error and re-indexing does not start: nothing is triggered
    and the status is what it was. *)
Theorem model_change_empties_store (value : string) (w : World) :
  In value (embeddingDropdownOptions (settings (plugin w))) ->
  value <> getCurrentEmbeddingModelValue (settings (plugin w)) ->
  exists w0,
    embeddingsModelVersion (settings (plugin w0)) = Some value /\
    vectors (settings (plugin w0)) = [] /\
    lastIndexedCount (plugin w0) = 0%nat /\
    indexingStatus (plugin w0) = indexingStatus (plugin w) /\
    data_json (host w0) = data_json (host w) /\
    triggered (host w0) = triggered (host w) /\
    console (host w0) = console (host w) ++ [console_log "saving..."] /\
    match saveData_rejection (settings (plugin w0)) w0 with
    | None =>
        exists w1,
          embeddingModel_onConfirm value true w = indexVectorStores w1 /\
          embeddingsModelVersion (settings (plugin w1)) = Some value /\
          vectors (settings (plugin w1)) = [] /\
          lastIndexedCount (plugin w1) = 0%nat /\
          (vectors <$> data_json (host w1)) = Some []
    | Some (error, blob) =>
        exists w1,
          embeddingModel_onConfirm value true w = (Threw error, w1) /\
          vectors (settings (plugin w1)) = [] /\
          lastIndexedCount (plugin w1) = 0%nat /\
          indexingStatus (plugin w1) = indexingStatus (plugin w) /\
          triggered (host w1) = triggered (host w)
    end.
Proof.
  intros Hoption Hdiff.
  destruct (onConfirm_clears_then_indexes value w) as
    (w0 & Hmodel & Hvectors & Hcount & Hstatus & Hdisk & Hevents & Hconsole & Hrun);
    [eapply embeddingDropdownOptions_nonempty; exact Hoption | exact Hdiff |].
  exists w0. repeat (split; [assumption |]).
  destruct (saveData_rejection (settings (plugin w0)) w0) as [[error blob] |].
  - destruct Hrun as (w1 & Hcall & Hplugin & Hevents1).
    exists w1. rewrite Hplugin. repeat split; assumption.
  - destruct Hrun as (w1 & Hcall & Hsettings & Hcount1 & Hdisk1).
    exists w1. rewrite Hdisk1. cbn [fmap option_fmap option_map].
    rewrite Hsettings, Hvectors. repeat split; assumption.
Qed.

End PluginFacts.

(* --------------------------------------------------------------------- *)
(** *** Progress notifications *)
(* --------------------------------------------------------------------- *)

Section ManagerFacts.

Import ConcurrencyManager.

Context {Doc : Type}.
Variable worker : Doc -> bool.

Local Abbreviation Manager := (@Manager Doc).
Local Abbreviation manager_inv := (@manager_inv Doc).
Local Abbreviation complete := (complete worker).
Local Abbreviation drain := (drain worker).
Local Abbreviation run := (run worker).

(** Filling the window moves tasks, it neither drops nor invents any; the
    window is never left empty while tasks wait; it never overfills. *)
Lemma fill_window_spec (maxConcurrency : nat) (waiting flying : list Doc) :
  let '(waiting', flying') := fill_window maxConcurrency waiting flying in
  (length waiting' + length flying' = length waiting + length flying)%nat /\
  ((1 <= maxConcurrency)%nat -> flying' = [] -> waiting' = []) /\
  ((length flying <= maxConcurrency)%nat ->
   (length flying' <= maxConcurrency)%nat).
Proof.
  revert flying. induction waiting as [| task rest IH]; intros flying.
  - cbn [fill_window]. repeat split; auto.
  - cbn [fill_window].
    destruct (Nat.ltb_spec (length flying) maxConcurrency) as [Hroom | Hfull].
    + specialize (IH (flying ++ [task])).
      destruct (fill_window maxConcurrency rest (flying ++ [task]))
        as [waiting' flying'].
      destruct IH as (Hcount & Hprogress & Hbound).
      rewrite length_app in Hcount, Hbound. cbn [length] in *.
      repeat split; [lia | exact Hprogress |].
      intros _. apply Hbound. lia.
    + repeat split; auto.
      intros Hmax ->. cbn [length] in Hfull. lia.
Qed.

Lemma start_inv (tasks : list Doc) (maxConcurrency : nat) :
  (1 <= maxConcurrency)%nat ->
  manager_inv maxConcurrency (length tasks) (start tasks maxConcurrency).
Proof.
  intros Hmax. unfold start.
  pose proof (fill_window_spec maxConcurrency tasks []) as Hfill.
  destruct (fill_window maxConcurrency tasks []) as [waiting' flying'].
  destruct Hfill as (Hcount & Hprogress & Hbound).
  cbn [length] in *.
  constructor; cbn [pending inFlight succeeded failed completed delivered length];
    [lia | reflexivity | reflexivity | constructor | auto | apply Hbound; lia].
Qed.

Lemma length_without (A : Type) (i : nat) (l : list A) :
  (i < length l)%nat ->
  length (take i l ++ drop (S i) l) = Nat.pred (length l).
Proof.
  intros Hi. rewrite length_app, length_take, length_drop. lia.
Qed.

Lemma complete_inv (maxConcurrency total choice : nat) (m : Manager) :
  (1 <= maxConcurrency)%nat ->
  manager_inv maxConcurrency total m ->
  inFlight m <> [] ->
  manager_inv maxConcurrency total (complete maxConcurrency choice m) /\
  (length (pending (complete maxConcurrency choice m))
   + length (inFlight (complete maxConcurrency choice m))
   < length (pending m) + length (inFlight m))%nat.
Proof.
  intros Hmax [Htotal Hterminal Hcounts Hcumulative Hprogress Hwindow] Hflying.
  unfold ConcurrencyManager.complete.
  destruct (inFlight m) as [| first others] eqn:Hin; [congruence |].
  set (flying := first :: others) in *.
  set (i := (choice mod length flying)%nat).
  assert (Hi : (i < length flying)%nat).
  { apply Nat.mod_upper_bound. discriminate. }
  pose proof (length_without Doc i flying Hi) as Hless.
  pose proof (fill_window_spec maxConcurrency (pending m)
                (take i flying ++ drop (S i) flying)) as Hfill.
  destruct (fill_window maxConcurrency (pending m)
              (take i flying ++ drop (S i) flying)) as [waiting' flying'].
  destruct Hfill as (Hcount & Hprog' & Hbound).
  assert (Hpos : (0 < length flying)%nat) by (cbn [flying length]; lia).
  split; [constructor |];
    cbn [pending inFlight succeeded failed completed delivered].
  - lia.
  - destruct (worker (nth i flying first)); rewrite length_app; cbn [length]; lia.
  - rewrite List.map_app, Hcounts. cbn [List.map numCompleted].
    rewrite seq_S. reflexivity.
  - apply Forall_app. split; [exact Hcumulative |].
    constructor; [| constructor].
    cbn [numCompleted succeeded_then failed_then].
    destruct (worker (nth i flying first)); rewrite length_app; cbn [length]; lia.
  - apply Hprog'. exact Hmax.
  - apply Hbound. lia.
  - lia.
Qed.

Lemma drain_inv (fuel maxConcurrency total : nat) (latency : nat -> nat)
    (m : Manager) :
  (1 <= maxConcurrency)%nat ->
  manager_inv maxConcurrency total m ->
  (length (pending m) + length (inFlight m) <= fuel)%nat ->
  manager_inv maxConcurrency total (drain fuel maxConcurrency latency m) /\
  inFlight (drain fuel maxConcurrency latency m) = [].
Proof.
  intros Hmax. revert m. induction fuel as [| fuel IH]; intros m Hinv Hfuel.
  - cbn [ConcurrencyManager.drain]. split; [exact Hinv |].
    destruct (inFlight m); [reflexivity | cbn [length] in Hfuel; lia].
  - cbn [ConcurrencyManager.drain].
    destruct (inFlight m) as [| first others] eqn:Hin; [auto |].
    destruct (complete_inv maxConcurrency total (latency (completed m)) m Hmax Hinv)
      as [Hinv' Hless]; [rewrite Hin; discriminate |].
    rewrite Hin in Hless. apply IH; [exact Hinv' | lia].
Qed.

Lemma seq_sorted (start len : nat) : Sorted Nat.le (seq start len).
Proof.
  revert start. induction len as [| len IH]; intros start; cbn [seq].
  - constructor.
  - constructor; [apply IH |].
    destruct len; cbn [seq]; constructor. unfold Nat.le. lia.
Qed.

(** C7. In one run with a window of at least one, every submitted task
    reaches a terminal state, the callback is called once per completion,
    the count it is given is the number of tasks that had succeeded or
    failed by then, the counts are 1, 2, ... up to the number of tasks,
    and so never decrease. *)
Theorem progress_counts_cumulative
    (tasks : list Doc) (maxConcurrency : nat) (latency : nat -> nat) :
  (1 <= maxConcurrency)%nat ->
  let m := run tasks maxConcurrency latency in
  drained m /\
  length (delivered m) = length tasks /\
  length (delivered m) = (length (succeeded m) + length (failed m))%nat /\
  Forall (fun n => numCompleted n = (succeeded_then n + failed_then n)%nat)
         (delivered m) /\
  List.map numCompleted (delivered m) = seq 1 (length tasks) /\
  Sorted Nat.le (List.map numCompleted (delivered m)).
Proof.
  intros Hmax m.
  pose proof (start_inv tasks maxConcurrency Hmax) as Hstart.
  destruct (drain_inv (length tasks) maxConcurrency (length tasks) latency
              (start tasks maxConcurrency) Hmax Hstart) as [Hinv Hempty].
  { destruct Hstart as [Htotal _ _ _ _ _]. lia. }
  fold (run tasks maxConcurrency latency) in Hinv, Hempty. fold m in Hinv, Hempty.
  destruct Hinv as [Htotal Hterminal Hcounts Hcumulative Hprogress Hwindow].
  assert (Hpending : pending m = []) by (apply Hprogress; exact Hempty).
  assert (Hdone : completed m = length tasks).
  { rewrite Hpending, Hempty in Htotal. cbn [length] in Htotal. lia. }
  assert (Hcalls : length (delivered m) = completed m).
  { rewrite <- (length_map numCompleted), Hcounts. apply length_seq. }
  repeat split.
  - exact Hpending.
  - exact Hempty.
  - lia.
  - lia.
  - exact Hcumulative.
  - rewrite Hcounts, Hdone. reflexivity.
  - rewrite Hcounts. apply seq_sorted.
Qed.

End ManagerFacts.

(* --------------------------------------------------------------------- *)
(** *** The properties at work on the example vault *)
(* --------------------------------------------------------------------- *)

Lemma stored_vector_is_quantized_witness :
  quantization_decimals (config (new_OpenAIClient "sk-test" None)) = 3 /\
  fst (generateOpenAiEmbeddings
         DecimalNumbers.toFixedDigits DecimalNumbers.Number
         (new_OpenAIClient "sk-test" None) ["a note"] Example.steady_remote)
  = Returned (Some [Some (Qmake 123 1000); Some (Qmake (-333) 1000);
                    Some (Qmake 1 1000)]).
Proof.
  split.
  - apply (proj1 (stored_vector_is_quantized
                    DecimalNumbers.toFixedDigits DecimalNumbers.Number)).
    exact I.
  - apply (proj1 (proj2 (stored_vector_is_quantized
                           DecimalNumbers.toFixedDigits DecimalNumbers.Number))
             (new_OpenAIClient "sk-test" None) ["a note"] Example.steady_remote
             Example.raw_embedding []).
    + vm_compute. split; discriminate.
    + reflexivity.
Defined.

Lemma generateEmbeddings_rejects_missing_text_witness :
  generateEmbeddings DecimalNumbers.toFixedDigits DecimalNumbers.Number
    (Some EmptyString) OPENAI_EMBEDDING_3_SMALL
    (Some (new_OpenAIClient "sk-test" None)) Example.steady_remote
  = (Threw (Error "No text provided for embedding generation"),
     Example.steady_remote).
Proof.
  apply (generateEmbeddings_rejects_missing_text
           DecimalNumbers.toFixedDigits DecimalNumbers.Number).
  right. reflexivity.
Defined.

Lemma generateEmbeddings_rejects_missing_client_witness :
  generateEmbeddings DecimalNumbers.toFixedDigits DecimalNumbers.Number
    (Some "a note") OPENAI_EMBEDDING_3_LARGE None Example.steady_remote
  = (Threw (Error "OpenAI client not initialized"), Example.steady_remote).
Proof.
  apply (proj2 (generateEmbeddings_rejects_missing_client
                  DecimalNumbers.toFixedDigits DecimalNumbers.Number
                  (Some "a note") OPENAI_EMBEDDING_3_LARGE Example.steady_remote
                  (or_intror eq_refl))).
  reflexivity.
Defined.

Lemma generateEmbeddings_rejects_other_models_witness :
  generateEmbeddings DecimalNumbers.toFixedDigits DecimalNumbers.Number
    (Some "a note") "text-embedding-004"
    (Some (new_OpenAIClient "sk-test" None)) Example.steady_remote
  = (Threw (Error "Unknown embedding model: text-embedding-004"),
     Example.steady_remote).
Proof.
  apply (proj1 (generateEmbeddings_rejects_other_models
                  DecimalNumbers.toFixedDigits DecimalNumbers.Number));
    discriminate.
Defined.

Lemma indexVectorStores_coalesced_witness :
  indexingStatus (plugin (Example.world_with INDEXING_STATUS)) = INDEXING_STATUS /\
  indexVectorStores Example.saveData_rejection Example.filesInGroupFolder
    Example.generateAndStoreEmbeddings Example.concurrencyManager_done
    (Example.world_with INDEXING_STATUS)
  = (Returned tt, Example.world_with INDEXING_STATUS).
Proof.
  split; [reflexivity |].
  apply indexVectorStores_coalesced. reflexivity.
Defined.



Lemma model_change_empties_store_witness :
  exists w1,
    embeddingModel_onConfirm Example.saveData_rejection Example.new_VectorStore
      Example.filesInGroupFolder
      Example.generateAndStoreEmbeddings Example.concurrencyManager_done
      "openai:text-embedding-3-large" true (Example.world_with IDLE_STATUS)
    = indexVectorStores Example.saveData_rejection Example.filesInGroupFolder
        Example.generateAndStoreEmbeddings Example.concurrencyManager_done w1 /\
    embeddingsModelVersion (settings (plugin w1))
    = Some "openai:text-embedding-3-large" /\
    vectors (settings (plugin w1)) = [] /\
    lastIndexedCount (plugin w1) = 0%nat /\
    (vectors <$> data_json (host w1)) = Some [].
Proof.
  destruct (model_change_empties_store Example.saveData_rejection
              Example.new_VectorStore Example.filesInGroupFolder
              Example.generateAndStoreEmbeddings Example.concurrencyManager_done
              "openai:text-embedding-3-large" (Example.world_with IDLE_STATUS))
    as (w0 & _ & _ & _ & _ & _ & _ & _ & Hrun).
  - vm_compute. right. left. reflexivity.
  - vm_compute. discriminate.
  - exact Hrun.
Defined.

Lemma progress_counts_cumulative_witness :
  List.map ConcurrencyManager.numCompleted
    (ConcurrencyManager.delivered
       (ConcurrencyManager.run Example.embeds Example.notes 2 Example.last_first))
  = [1; 2; 3]%nat.
Proof.
  apply (progress_counts_cumulative Example.embeds Example.notes 2
           Example.last_first).
  lia.
Defined.

(* ===================================================================== *)
(** * Part III: further properties of the code *)
(* ===================================================================== *)

(* --------------------------------------------------------------------- *)
(** *** The embedding client: requests and edge cases *)
(* --------------------------------------------------------------------- *)

Section EmbeddingEdges.

Context {number : Type}.
Variable toFixedDigits : number -> Z -> string.
Variable Number : string -> number.

Local Abbreviation generateEmbeddings := (generateEmbeddings toFixedDigits Number).
Local Abbreviation generateOpenAiEmbeddings :=
  (generateOpenAiEmbeddings toFixedDigits Number).

(** One component: rounded, or a [RangeError]; the world stays. *)
Lemma toFixed_Number_step {W} (decimals : Z) (value : number) (w : W) :
  (exists r,
      (digits <- toFixed toFixedDigits value decimals ;; ret (Number digits))%js w
      = (r, w)).
Proof.
  unfold bind, toFixed.
  destruct ((decimals <? 0) || (100 <? decimals)); eexists; reflexivity.
Qed.

(** Rounding a vector, in range or not, leaves the world alone. *)
Lemma map_toFixed_world {W} (decimals : Z) (values : list number) (w : W) :
  snd (map_throwing
         (fun value => (digits <- toFixed toFixedDigits value decimals ;;
                        ret (Number digits))%js)
         values w) = w.
Proof.
  induction values as [| v vs IH]; [reflexivity |].
  cbn [map_throwing].
  destruct (toFixed_Number_step decimals v w) as [[y | e] Hstep].
  - erewrite bind_returned by exact Hstep.
    destruct (map_throwing _ vs w) as [[ys | e] w'] eqn:Hrest;
      cbn [snd] in IH; subst w'.
    + erewrite bind_returned by exact Hrest. reflexivity.
    + erewrite bind_threw by exact Hrest. reflexivity.
  - erewrite bind_threw by exact Hstep. reflexivity.
Qed.

Lemma map_entries_world
    (decimals : Z) (entries : list (EmbeddingEntry number)) (w : Remote number) :
  snd (map_throwing
         (fun entry =>
            map_throwing
              (fun value => (digits <- toFixed toFixedDigits value decimals ;;
                             ret (Number digits))%js)
              (entry_embedding entry))
         entries w) = w.
Proof.
  induction entries as [| e es IH]; [reflexivity |].
  cbn [map_throwing].
  pose proof (map_toFixed_world decimals (entry_embedding e) w) as Hfirst.
  destruct (map_throwing _ (entry_embedding e) w) as [[ys | err] w1] eqn:Hentry;
    cbn [snd] in Hfirst; subst w1.
  - erewrite bind_returned by exact Hentry.
    destruct (map_throwing _ es w) as [[yss | err] w2] eqn:Hrest;
      cbn [snd] in IH; subst w2.
    + erewrite bind_returned by exact Hrest. reflexivity.
    + erewrite bind_threw by exact Hrest. reflexivity.
  - erewrite bind_threw by exact Hentry. reflexivity.
Qed.

(** Every call sends its one request and touches nothing else. *)
Lemma generateOpenAiEmbeddings_world
    (this : OpenAIClient) (docs : list string) (w : Remote number) :
  snd (generateOpenAiEmbeddings this docs w)
  = {| sent := sent w ++ [request_sent this docs]; service := service w |}.
Proof.
  unfold generateOpenAiEmbeddings. fold (request_sent this docs).
  destruct (service w (sent w) (request_sent this docs)) as [answer | e] eqn:Hs.
  - erewrite bind_returned; cycle 1.
    { unfold embeddings_create. rewrite Hs. reflexivity. }
    match goal with
    | |- context [bind (map_throwing ?f (data answer)) ?k ?w0] =>
        pose proof (map_entries_world (quantization_decimals (config this))
                      (data answer) w0) as Hworld;
        destruct (map_throwing f (data answer) w0) as [[mapped | err] w1] eqn:Hmap
    end; cbn [snd] in Hworld; subst w1.
    + erewrite bind_returned by exact Hmap. reflexivity.
    + erewrite bind_threw by exact Hmap. reflexivity.
  - erewrite bind_threw; [reflexivity |].
    unfold embeddings_create. rewrite Hs. reflexivity.
Qed.

(** X1. Whatever the service answers and whatever the configured
    precision, one call of [generateOpenAiEmbeddings] sends exactly one
    request, the one for the client's own model, and changes nothing else
    of the endpoint. *)
Theorem generateOpenAiEmbeddings_one_request
    (this : OpenAIClient) (docs : list string) (w : Remote number) :
  snd (generateOpenAiEmbeddings this docs w)
  = {| sent := sent w ++ [request_sent this docs]; service := service w |}.
Proof. apply generateOpenAiEmbeddings_world. Qed.

(** X2. When the service rejects the request, the call rejects with the
    same error. *)
Theorem generateOpenAiEmbeddings_service_error
    (this : OpenAIClient) (docs : list string) (w : Remote number) (e : Thrown) :
  service w (sent w) (request_sent this docs) = Threw e ->
  fst (generateOpenAiEmbeddings this docs w) = Threw e.
Proof.
  intros Hservice. unfold generateOpenAiEmbeddings.
  fold (request_sent this docs).
  erewrite bind_threw; [reflexivity |].
  unfold embeddings_create. rewrite Hservice. reflexivity.
Qed.

(** X3. When the service answers with no entry at all, the call resolves
    to [undefined] instead of a vector, for any precision. *)
Theorem generateOpenAiEmbeddings_empty_answer
    (this : OpenAIClient) (docs : list string) (w : Remote number) :
  service w (sent w) (request_sent this docs) = Returned {| data := [] |} ->
  fst (generateOpenAiEmbeddings this docs w) = Returned None.
Proof.
  intros Hservice. unfold generateOpenAiEmbeddings.
  fold (request_sent this docs).
  erewrite bind_returned; cycle 1.
  { unfold embeddings_create. rewrite Hservice. reflexivity. }
  reflexivity.
Qed.

(** X4. With a precision outside 0..100 and an answer whose first entry
    has a component, the call rejects with a [RangeError]; the request
    has been sent all the same. *)
Theorem generateOpenAiEmbeddings_range_error
    (this : OpenAIClient) (docs : list string) (w : Remote number)
    (value : number) (values : list number)
    (others : list (EmbeddingEntry number)) :
  quantization_decimals (config this) < 0
  \/ 100 < quantization_decimals (config this) ->
  service w (sent w) (request_sent this docs)
    = Returned {| data := {| entry_embedding := value :: values |} :: others |} ->
  generateOpenAiEmbeddings this docs w
  = (Threw (RangeError "toFixed() digits argument must be between 0 and 100"),
     {| sent := sent w ++ [request_sent this docs]; service := service w |}).
Proof.
  intros Hrange Hservice. unfold generateOpenAiEmbeddings.
  fold (request_sent this docs).
  erewrite bind_returned; cycle 1.
  { unfold embeddings_create. rewrite Hservice. reflexivity. }
  cbn [data map_throwing entry_embedding].
  do 3 (erewrite bind_threw; [reflexivity |]).
  unfold toFixed.
  replace ((quantization_decimals (config this) <? 0)
           || (100 <? quantization_decimals (config this))) with true;
    [reflexivity |].
  symmetry. apply orb_true_iff.
  destruct Hrange as [Hlow | Hhigh]; [left | right]; apply Z.ltb_lt; assumption.
Qed.

(** X5. With a non-empty text, a built-in model name and a client,
    [generateEmbeddings] is the client's call on that one text: the
    request names the model the client was configured with, whichever of
    the two built-in names was passed. *)
Theorem generateEmbeddings_asks_client_model
    (text modelName : string) (client : OpenAIClient) (w : Remote number) :
  text <> "" ->
  modelName = OPENAI_EMBEDDING_3_SMALL \/ modelName = OPENAI_EMBEDDING_3_LARGE ->
  generateEmbeddings (Some text) modelName (Some client) w
  = generateOpenAiEmbeddings client [text] w /\
  sent (snd (generateEmbeddings (Some text) modelName (Some client) w))
  = sent w ++ [ {| endpoint := openai client;
                   model := embeddings_model (config client);
                   input := [text];
                   dimensions :=
                     if String.eqb (embeddings_model (config client))
                                   OPENAI_EMBEDDING_3_SMALL
                     then Some 256 else None |} ].
Proof.
  intros Htext Hmodel.
  assert (Hcall : generateEmbeddings (Some text) modelName (Some client) w
                  = generateOpenAiEmbeddings client [text] w).
  { unfold generateEmbeddings. rewrite (nonempty_true text Htext).
    destruct Hmodel as [-> | ->]; reflexivity. }
  split; [exact Hcall |].
  rewrite Hcall, generateOpenAiEmbeddings_world. reflexivity.
Qed.

End EmbeddingEdges.

(* --------------------------------------------------------------------- *)
(** *** Model values: parsing back and migrating *)
(* --------------------------------------------------------------------- *)

(** A string with a colon splits at its first colon. *)
Lemma index_colon_split (value : string) (i : nat) :
  String.index 0 ":" value = Some i ->
  exists p m,
    value = p +:+ ":" +:+ m /\ String.index 0 ":" p = None /\ String.length p = i.
Proof.
  revert i. induction value as [| a v IH]; intros i Hidx.
  - cbn in Hidx. discriminate.
  - rewrite index_colon_cons in Hidx.
    destruct (bool_decide_reflect (a = ":"%char)) as [-> | Hne].
    + injection Hidx as <-. exists EmptyString, v. repeat split.
    + destruct (String.index 0 ":" v) as [j |] eqn:Hv; [| discriminate].
      cbn [option_map] in Hidx. injection Hidx as <-.
      destruct (IH j eq_refl) as (p & m & -> & Hp & Hlen).
      exists (String a p), m. rewrite append_cons. repeat split.
      * rewrite index_colon_cons, bool_decide_eq_false_2 by exact Hne.
        rewrite Hp. reflexivity.
      * cbn [String.length]. rewrite Hlen. reflexivity.
Qed.

Lemma parse_of_format (p m : string) :
  String.index 0 ":" p = None ->
  parseModelValue (formatModelValue p m) = {| providerId := p; modelName := m |}.
Proof.
  intros Hp. unfold parseModelValue, Js.indexOf, formatModelValue.
  rewrite (index_colon_append p m Hp).
  destruct (Z.eqb_spec (Z.of_nat (String.length p)) (-1)) as [Hneg | _]; [lia |].
  f_equal; [apply js_substring_head | apply js_substring_tail].
Qed.

(** X6. A value that contains a colon is rebuilt exactly by formatting
    its two parsed parts, and the parsed provider part has no colon: the
    split is at the first colon, later ones stay in the model name. *)
Theorem format_of_parse (value : string) :
  In ":"%char (list_ascii_of_string value) ->
  formatModelValue (providerId (parseModelValue value))
                   (modelName (parseModelValue value)) = value /\
  ~ In ":"%char (list_ascii_of_string (providerId (parseModelValue value))).
Proof.
  intros Hcolon. apply includes_colon_iff in Hcolon. unfold Js.includes in Hcolon.
  destruct (String.index 0 ":" value) as [i |] eqn:Hidx; [| discriminate].
  destruct (index_colon_split value i Hidx) as (p & m & -> & Hp & _).
  fold (formatModelValue p m). rewrite (parse_of_format p m Hp).
  cbn [providerId modelName]. split; [reflexivity |].
  intros Hin. apply includes_colon_iff in Hin. unfold Js.includes in Hin.
  rewrite Hp in Hin. discriminate.
Qed.

Lemma format_of_parse_witness :
  formatModelValue (providerId (parseModelValue "local:org:model"))
                   (modelName (parseModelValue "local:org:model"))
  = "local:org:model" /\
  modelName (parseModelValue "local:org:model") = "org:model".
Proof.
  split; [| reflexivity].
  apply (format_of_parse "local:org:model").
  cbn. tauto.
Defined.

Section MigrateFacts.

Context {T : Type} `{NamedModel T}.

Lemma or_else_cases (o : option string) :
  (Js.or_else o "openai" = "openai") \/ (o = Some (Js.or_else o "openai")).
Proof.
  destruct o as [s |]; cbn [Js.or_else]; [| left; reflexivity].
  destruct (String.eqb s ""); [left | right]; reflexivity.
Qed.

Lemma migrate_choice (oldValue : string) (m : T) (availableModels : list T) :
  In m (List.filter (fun m => String.eqb (name_of m) oldValue) availableModels) ->
  Js.or_else (providerId_of m) "openai" = "openai" \/
  exists m', In m' availableModels /\ name_of m' = oldValue /\
             providerId_of m' = Some (Js.or_else (providerId_of m) "openai").
Proof.
  intros Hin. apply filter_In in Hin as [Hin Hname].
  apply String.eqb_eq in Hname.
  destruct (or_else_cases (providerId_of m)) as [Hdefault | Hown]; [left; exact Hdefault |].
  right. exists m. auto.
Qed.

(** X7. Migrating an old-format value (no colon) keeps it as the model
    name and only puts a provider in front: ['openai'], or the provider of
    a listed model of that very name. *)
Theorem migrateModelValue_keeps_name
    (oldValue : string) (availableModels : list T)
    (currentProviderId : option string) :
  ~ In ":"%char (list_ascii_of_string oldValue) ->
  exists provider,
    migrateModelValue oldValue availableModels currentProviderId
    = formatModelValue provider oldValue /\
    (provider = "openai" \/
     exists m, In m availableModels /\ name_of m = oldValue /\
               providerId_of m = Some provider).
Proof.
  intros Hold. apply includes_colon_false in Hold.
  unfold migrateModelValue. rewrite Hold.
  destruct (List.filter _ availableModels) as [| m1 [| m2 ms]] eqn:Hmatch.
  - exists "openai". auto.
  - eexists. split; [reflexivity |].
    apply (migrate_choice oldValue m1 availableModels). rewrite Hmatch. left. reflexivity.
  - assert (Hfirst :
      Js.or_else (providerId_of m1) "openai" = "openai" \/
      exists m', In m' availableModels /\ name_of m' = oldValue /\
                 providerId_of m' = Some (Js.or_else (providerId_of m1) "openai")).
    { apply (migrate_choice oldValue m1 availableModels). rewrite Hmatch.
      left. reflexivity. }
    destruct (Js.truthy currentProviderId); [| eexists; split; [reflexivity | exact Hfirst]].
    destruct (List.find _ _) as [preferred |] eqn:Hfind;
      [| eexists; split; [reflexivity | exact Hfirst]].
    eexists. split; [reflexivity |].
    apply find_some in Hfind as [Hin _].
    apply (migrate_choice oldValue preferred availableModels).
    rewrite Hmatch. exact Hin.
Qed.

(** X8. When several listed models bear the old name and one of them
    belongs to the provider currently set, migration picks the current
    provider, wherever that model stands in the list. *)
Theorem migrateModelValue_prefers_current
    (oldValue current : string) (availableModels : list T) (m : T) :
  ~ In ":"%char (list_ascii_of_string oldValue) ->
  current <> "" ->
  (2 <= length (List.filter (fun m => String.eqb (name_of m) oldValue)
                            availableModels))%nat ->
  In m availableModels -> name_of m = oldValue ->
  providerId_of m = Some current ->
  migrateModelValue oldValue availableModels (Some current)
  = formatModelValue current oldValue.
Proof.
  intros Hold Hcurrent Hseveral Hin Hname Hprovider.
  apply includes_colon_false in Hold.
  unfold migrateModelValue. rewrite Hold.
  set (matching := List.filter (fun m => String.eqb (name_of m) oldValue)
                               availableModels) in *.
  assert (Hm : In m matching).
  { apply filter_In. split; [exact Hin | apply String.eqb_eq; exact Hname]. }
  assert (Hpreferred :
    exists preferred,
      List.find (fun m => bool_decide (providerId_of m = Some current)) matching
      = Some preferred /\ providerId_of preferred = Some current).
  { destruct (List.find (fun m => bool_decide (providerId_of m = Some current))
                        matching) as [preferred |] eqn:Hfind.
    - exists preferred. split; [reflexivity |].
      apply find_some in Hfind as [_ Hdec].
      apply bool_decide_eq_true in Hdec. exact Hdec.
    - exfalso. apply (find_none _ _ Hfind) in Hm.
      apply bool_decide_eq_false in Hm. contradiction. }
  destruct Hpreferred as (preferred & Hfind & Hpref).
  assert (Hchosen : Js.or_else (providerId_of preferred) "openai" = current).
  { rewrite Hpref. cbn [Js.or_else].
    apply String.eqb_neq in Hcurrent. rewrite Hcurrent. reflexivity. }
  assert (Htruthy : Js.truthy (Some current) = true).
  { cbn [Js.truthy]. apply negb_true_iff. apply String.eqb_neq. exact Hcurrent. }
  destruct matching as [| a [| b rest]] eqn:Hmatch.
  - destruct Hm.
  - cbn [length] in Hseveral. lia.
  - rewrite Htruthy, Hfind, Hchosen. reflexivity.
Qed.

End MigrateFacts.

Lemma migrateModelValue_keeps_name_witness :
  exists provider,
    migrateModelValue "text-embedding-3-small"
      (availableEmbeddingModels "sk-test" None None) None
    = formatModelValue provider "text-embedding-3-small".
Proof.
  destruct (migrateModelValue_keeps_name "text-embedding-3-small"
              (availableEmbeddingModels "sk-test" None None) None)
    as (provider & Hvalue & _).
  - cbn. intros H. repeat (destruct H as [H | H]; [discriminate H |]). exact H.
  - exists provider. exact Hvalue.
Defined.

Lemma migrateModelValue_prefers_current_witness :
  migrateModelValue "embed-v1"
    [ mkEmbeddingModel "openai" "embed-v1" "A: embed-v1" true (Some "provider-a");
      mkEmbeddingModel "openai" "embed-v1" "B: embed-v1" true (Some "provider-b") ]
    (Some "provider-b")
  = "provider-b:embed-v1".
Proof.
  apply (migrateModelValue_prefers_current "embed-v1" "provider-b" _
           (mkEmbeddingModel "openai" "embed-v1" "B: embed-v1" true (Some "provider-b"))).
  - cbn. intros H. repeat (destruct H as [H | H]; [discriminate H |]). exact H.
  - discriminate.
  - cbn. lia.
  - right. left. reflexivity.
  - reflexivity.
  - reflexivity.
Defined.

(* --------------------------------------------------------------------- *)
(** *** Duplicate model names *)
(* --------------------------------------------------------------------- *)

Lemma map_get_set {V : Type} (m : list (string * V)) (key key' : string) (v : V) :
  map_get (map_set m key v) key'
  = if String.eqb key key' then Some v else map_get m key'.
Proof.
  induction m as [| [k v0] rest IH]; cbn [map_set map_get].
  - reflexivity.
  - destruct (String.eqb_spec k key) as [-> | Hk]; cbn [map_get].
    + destruct (String.eqb key key'); reflexivity.
    + rewrite IH. destruct (String.eqb_spec k key') as [-> | Hk'];
        [| reflexivity].
      apply String.eqb_neq in Hk. rewrite String.eqb_sym in Hk.
      rewrite Hk. reflexivity.
Qed.

Lemma map_get_None_keys {V : Type} (m : list (string * V)) (key : string) :
  map_get m key = None <-> ~ In key (List.map fst m).
Proof.
  induction m as [| [k v] rest IH]; cbn [map_get List.map fst In].
  - tauto.
  - destruct (String.eqb_spec k key) as [-> | Hk].
    + split; [discriminate | intros Hnot; exfalso; apply Hnot; left; reflexivity].
    + rewrite IH. tauto.
Qed.

Lemma map_set_keys {V : Type} (m : list (string * V)) (key : string) (v : V) :
  List.map fst (map_set m key v)
  = match map_get m key with
    | Some _ => List.map fst m
    | None => List.map fst m ++ [key]
    end.
Proof.
  induction m as [| [k v0] rest IH]; cbn [map_set map_get List.map fst].
  - reflexivity.
  - destruct (String.eqb_spec k key) as [-> | Hk]; cbn [List.map fst].
    + reflexivity.
    + rewrite IH. destruct (map_get rest key); reflexivity.
Qed.

Lemma map_set_NoDup {V : Type} (m : list (string * V)) (key : string) (v : V) :
  List.NoDup (List.map fst m) -> List.NoDup (List.map fst (map_set m key v)).
Proof.
  intros Hnodup. rewrite map_set_keys.
  destruct (map_get m key) eqn:Hget; [exact Hnodup |].
  apply map_get_None_keys in Hget.
  apply List.NoDup_app.
  - exact Hnodup.
  - constructor; [intros [] | constructor].
  - intros x Hx [<- | []]. contradiction.
Qed.

Section DuplicateFacts.

Context {T : Type} `{NamedModel T}.

(** The models of a given name, in list order. *)
Local Abbreviation named n models :=
  (List.filter (fun m : T => String.eqb (name_of m) n) models).

Lemma nameToModels_snoc (models : list T) (model : T) :
  nameToModels (models ++ [model])
  = map_set (nameToModels models) (name_of model)
      (default [] (map_get (nameToModels models) (name_of model)) ++ [model]).
Proof. unfold nameToModels. rewrite fold_left_app. reflexivity. Qed.

(** After the first loop, each name met maps to its models, in order. *)
Lemma nameToModels_spec (models : list T) :
  List.NoDup (List.map fst (nameToModels models)) /\
  forall n,
    map_get (nameToModels models) n
    = match named n models with
      | [] => None
      | _ :: _ => Some (named n models)
      end.
Proof.
  induction models as [| model models [IHkeys IHget]] using rev_ind.
  - split; [constructor | reflexivity].
  - rewrite nameToModels_snoc. split; [apply map_set_NoDup; exact IHkeys |].
    intros n. rewrite map_get_set, List.filter_app. cbn [List.filter].
    destruct (String.eqb_spec (name_of model) n) as [Heq | Hn].
    + rewrite Heq, IHget.
      destruct (named n models) as [| m0 ms]; cbn [default app]; reflexivity.
    + rewrite IHget, app_nil_r. reflexivity.
Qed.

(** The second loop keeps the entries with more than one model. *)
Lemma keep_duplicates_get
    (entries acc : list (string * list T)) (n : string) :
  List.NoDup (List.map fst entries) ->
  map_get
    (List.fold_left
       (fun duplicates entry =>
          let '(name, modelList) := entry in
          if (1 <? length modelList)%nat then map_set duplicates name modelList
          else duplicates)
       entries acc) n
  = match map_get entries n with
    | Some l => if (1 <? length l)%nat then Some l else map_get acc n
    | None => map_get acc n
    end.
Proof.
  revert acc. induction entries as [| [k l] rest IH]; intros acc Hkeys.
  - reflexivity.
  - cbn [List.map fst] in Hkeys. inversion Hkeys as [| ? ? Hfresh Hrest]; subst.
    cbn [List.fold_left map_get]. rewrite (IH _ Hrest).
    destruct (String.eqb_spec k n) as [-> | Hk].
    + assert (Hnone : map_get rest n = None).
      { apply map_get_None_keys. exact Hfresh. }
      rewrite Hnone. destruct (1 <? length l)%nat; [| reflexivity].
      rewrite map_get_set, String.eqb_refl. reflexivity.
    + assert (Hother :
        map_get (if (1 <? length l)%nat then map_set acc k l else acc) n
        = map_get acc n).
      { destruct (1 <? length l)%nat; [| reflexivity].
        rewrite map_get_set. apply String.eqb_neq in Hk. rewrite Hk. reflexivity. }
      rewrite Hother. reflexivity.
Qed.

Lemma keep_duplicates_NoDup (entries acc : list (string * list T)) :
  List.NoDup (List.map fst acc) ->
  List.NoDup (List.map fst
    (List.fold_left
       (fun duplicates entry =>
          let '(name, modelList) := entry in
          if (1 <? length modelList)%nat then map_set duplicates name modelList
          else duplicates)
       entries acc)).
Proof.
  revert acc. induction entries as [| [k l] rest IH]; intros acc Hacc.
  - exact Hacc.
  - cbn [List.fold_left]. apply IH.
    destruct (1 <? length l)%nat; [apply map_set_NoDup |]; exact Hacc.
Qed.

Lemma detectDuplicateModelNames_lookup_aux (models : list T) (n : string) :
  map_get (detectDuplicateModelNames models) n
  = (if (2 <=? length (named n models))%nat then Some (named n models) else None)
  /\ List.NoDup (List.map fst (detectDuplicateModelNames models)).
Proof.
  destruct (nameToModels_spec models) as [Hkeys Hget].
  unfold detectDuplicateModelNames. split.
  - rewrite (keep_duplicates_get _ [] n Hkeys), Hget. cbn [map_get].
    destruct (named n models) as [| m0 [| m1 ms]]; reflexivity.
  - apply keep_duplicates_NoDup. constructor.
Qed.

(** X9. [detectDuplicateModelNames] reports a name exactly when at least
    two of the models bear it, and then with all the models of that name
    in list order; no name is reported twice. *)
Theorem detectDuplicateModelNames_lookup (models : list T) (n : string) :
  map_get (detectDuplicateModelNames models) n
  = (if (2 <=? length (named n models))%nat then Some (named n models) else None)
  /\ List.NoDup (List.map fst (detectDuplicateModelNames models)).
Proof.
  destruct (nameToModels_spec models) as [Hkeys Hget].
  unfold detectDuplicateModelNames. split.
  - rewrite (keep_duplicates_get _ [] n Hkeys), Hget. cbn [map_get].
    destruct (named n models) as [| m0 [| m1 ms]]; reflexivity.
  - apply keep_duplicates_NoDup. constructor.
Qed.

Lemma count_named (models : list T) (n : string) :
  length (named n models) = count_occ string_dec (List.map name_of models) n.
Proof.
  induction models as [| m ms IH]; [reflexivity |].
  cbn [List.filter List.map count_occ].
  destruct (String.eqb_spec (name_of m) n) as [Heq | Hne];
    destruct (string_dec (name_of m) n) as [Heq' | Hne']; try contradiction;
    cbn [length]; rewrite IH; reflexivity.
Qed.

(** X10. Nothing is reported, so no warning is shown, exactly when the
    model names are pairwise distinct. *)
Theorem detectDuplicateModelNames_empty_iff (models : list T) :
  detectDuplicateModelNames models = [] <-> List.NoDup (List.map name_of models).
Proof.
  split.
  - intros Hempty. apply (List.NoDup_count_occ string_dec). intros n.
    rewrite <- count_named.
    pose proof (proj1 (detectDuplicateModelNames_lookup_aux models n)) as Hget.
    rewrite Hempty in Hget. cbn [map_get] in Hget.
    destruct (Nat.leb_spec 2 (length (named n models))); [discriminate | lia].
  - intros Hnodup.
    destruct (detectDuplicateModelNames models) as [| [k l] rest] eqn:Hdup;
      [reflexivity |].
    exfalso.
    pose proof (proj1 (detectDuplicateModelNames_lookup_aux models k)) as Hget.
    rewrite Hdup in Hget. cbn [map_get] in Hget. rewrite String.eqb_refl in Hget.
    pose proof (proj1 (List.NoDup_count_occ string_dec _) Hnodup k) as Hcount.
    rewrite <- count_named in Hcount.
    destruct (Nat.leb_spec 2 (length (named k models))); [lia | discriminate].
Qed.

End DuplicateFacts.

(* --------------------------------------------------------------------- *)
(** *** Clients and saved settings *)
(* --------------------------------------------------------------------- *)

Section ClientFacts.

Context {StoredVector NoteGroup VectorStore : Type}.

Local Abbreviation World := (@World StoredVector NoteGroup VectorStore).
Local Abbreviation Settings :=
  (@ZettelkastenLLMToolsPluginSettings StoredVector NoteGroup).

Variable saveData_rejection : Settings -> World -> option (Thrown * option Settings).

Local Abbreviation saveSettings := (saveSettings saveData_rejection).

(** The world once [client] is cached under [id]. *)
Local Abbreviation cached id client w :=
  (with_plugin
     (fun p => set_clientCache (<[id := client]> (clientCache p)) p) w).

(** A call that misses the cache builds a client from some credentials,
    caches it under the provider id, and at most writes to the console. *)
Lemma getOpenAIClient_miss (providerId : option string) (w : World) :
  String.eqb (Js.or_else providerId "openai") "anthropic" = false ->
  clientCache (plugin w) !! Js.or_else providerId "openai" = None ->
  exists apiKey baseURL w0,
    plugin w0 = plugin w /\
    data_json (host w0) = data_json (host w) /\
    triggered (host w0) = triggered (host w) /\
    notices (host w0) = notices (host w) /\
    getOpenAIClient providerId w
    = (Returned (client_for (settings (plugin w)) apiKey baseURL),
       cached (Js.or_else providerId "openai")
              (client_for (settings (plugin w)) apiKey baseURL) w0).
Proof.
  intros Hnot Hmiss. unfold getOpenAIClient. rewrite Hnot.
  rewrite bind_get, Hmiss.
  set (s := settings (plugin w)).
  destruct (String.eqb (Js.or_else providerId "openai") "gcp").
  - destruct (Js.nonempty (gcpAPIKey s)).
    + exists (gcpAPIKey s),
        "https://generativelanguage.googleapis.com/v1beta/openai/", w.
      repeat split.
    + eexists (openaiAPIKey s), (openaiBaseUrl s), _.
      split; [| split; [| split; [| split]]]; cycle 4.
      * unfold console_write.
        cbv beta iota zeta delta [bind ret modify]. reflexivity.
      * reflexivity.
      * reflexivity.
      * reflexivity.
      * reflexivity.
  - destruct (negb (String.eqb (Js.or_else providerId "openai") "openai")).
    + destruct (List.find _ (customProviders s)) as [provider |].
      * exists (cp_apiKey provider), (cp_baseUrl provider), w. repeat split.
      * eexists (openaiAPIKey s), (openaiBaseUrl s), _.
        split; [| split; [| split; [| split]]]; cycle 4.
        -- unfold console_write.
           cbv beta iota zeta delta [bind ret modify]. reflexivity.
        -- reflexivity.
        -- reflexivity.
        -- reflexivity.
        -- reflexivity.
    + exists (openaiAPIKey s), (openaiBaseUrl s), w. repeat split.
Qed.

Lemma getOpenAIClient_hit (providerId : option string) (w : World)
    (client : OpenAIClient) :
  String.eqb (Js.or_else providerId "openai") "anthropic" = false ->
  clientCache (plugin w) !! Js.or_else providerId "openai" = Some client ->
  getOpenAIClient providerId w = (Returned client, w).
Proof.
  intros Hnot Hhit. unfold getOpenAIClient. rewrite Hnot.
  rewrite bind_get, Hhit. reflexivity.
Qed.

Lemma getOpenAIClient_anthropic (providerId : option string) (w : World) :
  String.eqb (Js.or_else providerId "openai") "anthropic" = true ->
  getOpenAIClient providerId w
  = (Threw (Error "Anthropic provider is not supported for OpenAI-compatible operations. Use AnthropicClient for Anthropic models."),
     w).
Proof. intros Hyes. unfold getOpenAIClient. rewrite Hyes. reflexivity. Qed.

Lemma client_for_precision (s : Settings) (apiKey baseURL : string) :
  quantization_decimals (config (client_for s apiKey baseURL))
  = quantizationDecimals.
Proof. reflexivity. Qed.

(** X11. A client obtained once is the client obtained again: a second
    [getOpenAIClient] for the same provider id returns the same client and
    changes nothing. *)
Theorem getOpenAIClient_cached
    (providerId : option string) (w w1 : World) (client : OpenAIClient) :
  getOpenAIClient providerId w = (Returned client, w1) ->
  getOpenAIClient providerId w1 = (Returned client, w1).
Proof.
  intros Hfirst.
  destruct (String.eqb (Js.or_else providerId "openai") "anthropic") eqn:Hanth.
  - rewrite (getOpenAIClient_anthropic providerId w Hanth) in Hfirst. discriminate.
  - destruct (clientCache (plugin w) !! Js.or_else providerId "openai")
      as [c0 |] eqn:Hcache.
    + rewrite (getOpenAIClient_hit providerId w c0 Hanth Hcache) in Hfirst.
      injection Hfirst as <- <-.
      apply getOpenAIClient_hit; assumption.
    + destruct (getOpenAIClient_miss providerId w Hanth Hcache)
        as (apiKey & baseURL & w0 & _ & _ & _ & _ & Hbuilt).
      rewrite Hbuilt in Hfirst. injection Hfirst as <- <-.
      apply getOpenAIClient_hit; [exact Hanth |].
      cbn [plugin with_plugin clientCache set_clientCache].
      apply lookup_insert_eq.
Qed.

(** X12. The plugin never configures a precision: if every cached
    client rounds to 3 decimals, so does the client [getOpenAIClient]
    returns, and so does every cached client afterwards. *)
Theorem getOpenAIClient_default_precision
    (providerId : option string) (w w1 : World) (client : OpenAIClient) :
  cache_default_precision w ->
  getOpenAIClient providerId w = (Returned client, w1) ->
  quantization_decimals (config client) = 3 /\ cache_default_precision w1.
Proof.
  intros Hcache Hcall.
  destruct (String.eqb (Js.or_else providerId "openai") "anthropic") eqn:Hanth.
  - rewrite (getOpenAIClient_anthropic providerId w Hanth) in Hcall. discriminate.
  - destruct (clientCache (plugin w) !! Js.or_else providerId "openai")
      as [c0 |] eqn:Hlookup.
    + rewrite (getOpenAIClient_hit providerId w c0 Hanth Hlookup) in Hcall.
      injection Hcall as <- <-. split; [| exact Hcache].
      apply (Hcache _ _ Hlookup).
    + destruct (getOpenAIClient_miss providerId w Hanth Hlookup)
        as (apiKey & baseURL & w0 & Hplugin & _ & _ & _ & Hbuilt).
      rewrite Hbuilt in Hcall. injection Hcall as <- <-.
      split; [reflexivity |].
      intros id c. cbn [plugin with_plugin clientCache set_clientCache].
      rewrite Hplugin, lookup_insert.
      destruct (decide (Js.or_else providerId "openai" = id)) as [_ | _].
      * intros [= <-]. reflexivity.
      * apply Hcache.
Qed.

(** The console once [line] is written to it. *)
Local Abbreviation logged line w :=
  (with_host (fun h =>
     {| data_json := data_json h;
        triggered := triggered h;
        console := console h ++ [line];
        notices := notices h;
        embeddingDropdown := embeddingDropdown h |}) w).

(** X13. For a provider id other than the built-in ones that is not
    cached: when a custom provider has this id, the client is built from
    its key and base URL; when none has, the client is built from the
    OpenAI key and base URL, a warning goes to the console, and that
    client is cached under the unknown id. *)
Theorem getOpenAIClient_custom_provider (id : string) (w : World) :
  id <> "" -> id <> "openai" -> id <> "anthropic" -> id <> "gcp" ->
  clientCache (plugin w) !! id = None ->
  let s := settings (plugin w) in
  match List.find (fun p => String.eqb (cp_id p) id) (customProviders s) with
  | Some provider =>
      getOpenAIClient (Some id) w
      = (Returned (client_for s (cp_apiKey provider) (cp_baseUrl provider)),
         cached id (client_for s (cp_apiKey provider) (cp_baseUrl provider)) w)
  | None =>
      getOpenAIClient (Some id) w
      = (Returned (client_for s (openaiAPIKey s) (openaiBaseUrl s)),
         cached id (client_for s (openaiAPIKey s) (openaiBaseUrl s))
           (logged (console_warn
                      ("Custom provider " +:+ Js.quoted id +:+
                       " not found. It may have been deleted. Falling back to OpenAI."))
                   w))
  end.
Proof.
  intros Hempty Hopenai Hanthropic Hgcp Hmiss s.
  assert (Hid : Js.or_else (Some id) "openai" = id).
  { cbn [Js.or_else]. apply String.eqb_neq in Hempty. rewrite Hempty. reflexivity. }
  unfold getOpenAIClient. rewrite Hid.
  apply String.eqb_neq in Hopenai, Hanthropic, Hgcp.
  rewrite Hanthropic, bind_get, Hmiss, Hgcp, Hopenai. cbn [negb].
  fold s. destruct (List.find _ (customProviders s)) as [provider |].
  - reflexivity.
  - unfold console_write.
    cbv beta iota zeta delta [bind ret modify]. reflexivity.
Qed.

(** X14. For the provider id ['gcp'] that is not cached: with a GCP key
    the client talks to the Google endpoint with that key; without one it
    is built from the OpenAI key and base URL, with a warning on the
    console. *)
Theorem getOpenAIClient_gcp (w : World) :
  clientCache (plugin w) !! "gcp" = None ->
  let s := settings (plugin w) in
  if Js.nonempty (gcpAPIKey s) then
    getOpenAIClient (Some "gcp") w
    = (Returned
         (client_for s (gcpAPIKey s)
            "https://generativelanguage.googleapis.com/v1beta/openai/"),
       cached "gcp"
         (client_for s (gcpAPIKey s)
            "https://generativelanguage.googleapis.com/v1beta/openai/") w)
  else
    getOpenAIClient (Some "gcp") w
    = (Returned (client_for s (openaiAPIKey s) (openaiBaseUrl s)),
       cached "gcp" (client_for s (openaiAPIKey s) (openaiBaseUrl s))
         (logged (console_warn
                    "GCP provider requested but no API key is configured. Falling back to OpenAI.")
                 w)).
Proof.
  intros Hmiss s. unfold getOpenAIClient.
  change (Js.or_else (Some "gcp") "openai") with "gcp".
  change (String.eqb "gcp" "anthropic") with false.
  change (String.eqb "gcp" "gcp") with true.
  cbv iota. rewrite bind_get, Hmiss. fold s.
  destruct (Js.nonempty (gcpAPIKey s)).
  - reflexivity.
  - unfold console_write.
    cbv beta iota zeta delta [bind ret modify]. reflexivity.
Qed.

Lemma configured_model_new_format (s : Settings) (p n : string) :
  embeddingsModelVersion s = Some (formatModelValue p n) ->
  ~ In ":"%char (list_ascii_of_string p) ->
  configuredEmbeddingsModel s = n.
Proof.
  intros Hversion Hp. unfold configuredEmbeddingsModel. rewrite Hversion.
  assert (Hnonempty : Js.or_else (Some (formatModelValue p n))
                        unlabelledEmbeddingModel = formatModelValue p n).
  { cbn [Js.or_else].
    destruct (String.eqb_spec (formatModelValue p n) "") as [Heq |]; [| reflexivity].
    pose proof (includes_format p n) as Hcolon. rewrite Heq in Hcolon. discriminate. }
  rewrite Hnonempty, includes_format.
  apply includes_colon_false in Hp. unfold Js.includes in Hp.
  destruct (String.index 0 ":" p) eqn:Hidx; [discriminate |].
  rewrite (parse_of_format p n Hidx). reflexivity.
Qed.

(** X15. A client built while the setting is [provider:name], with a
    colon-free provider part, is configured with [name] alone: the prefix
    never reaches the endpoint, whichever provider id the client is built
    for. *)
Theorem getOpenAIClient_model_name
    (providerId : option string) (w w1 : World) (client : OpenAIClient)
    (p n : string) :
  clientCache (plugin w) !! Js.or_else providerId "openai" = None ->
  embeddingsModelVersion (settings (plugin w)) = Some (formatModelValue p n) ->
  ~ In ":"%char (list_ascii_of_string p) ->
  getOpenAIClient providerId w = (Returned client, w1) ->
  embeddings_model (config client) = n.
Proof.
  intros Hmiss Hversion Hp Hcall.
  destruct (String.eqb (Js.or_else providerId "openai") "anthropic") eqn:Hanth.
  - rewrite (getOpenAIClient_anthropic providerId w Hanth) in Hcall. discriminate.
  - destruct (getOpenAIClient_miss providerId w Hanth Hmiss)
      as (apiKey & baseURL & w0 & _ & _ & _ & _ & Hbuilt).
    rewrite Hbuilt in Hcall. injection Hcall as <- _.
    change (embeddings_model (config (client_for (settings (plugin w)) apiKey baseURL)))
      with (configuredEmbeddingsModel (settings (plugin w))).
    apply (configured_model_new_format _ p n Hversion Hp).
Qed.

Lemma getOpenAIClient_default_client (w : World) :
  clientCache (plugin w) = ∅ ->
  getOpenAIClient None w
  = (Returned (client_for (settings (plugin w))
                 (openaiAPIKey (settings (plugin w)))
                 (openaiBaseUrl (settings (plugin w)))),
     with_plugin
       (set_clientCache
          {[ "openai" := client_for (settings (plugin w))
                           (openaiAPIKey (settings (plugin w)))
                           (openaiBaseUrl (settings (plugin w))) ]}) w).
Proof.
  intros Hcache. unfold getOpenAIClient.
  cbn [Js.or_else]. change (String.eqb "openai" "anthropic") with false.
  cbv iota. rewrite bind_get. rewrite Hcache, lookup_empty.
  change (String.eqb "openai" "gcp") with false.
  change (negb (String.eqb "openai" "openai")) with false.
  cbv iota.
  erewrite bind_returned by reflexivity. cbv zeta beta iota.
  rewrite bind_modify. unfold ret, with_plugin. cbn [plugin host].
  rewrite Hcache. rewrite insert_empty. reflexivity.
Qed.

(** What [saveSettings] does when the host's write resolves, field by
    field. *)
Lemma saveSettings_effect (w : World) :
  let s := settings (plugin w) in
  let client := client_for s (openaiAPIKey s) (openaiBaseUrl s) in
  saveData_rejection s (logged (console_log "saving...") w) = None ->
  exists w',
    saveSettings w = (Returned tt, w') /\
    settings (plugin w') = s /\
    data_json (host w') = Some s /\
    openaiClient (plugin w') = client /\
    clientCache (plugin w') = {[ "openai" := client ]} /\
    anthropicClient (plugin w') = {| anthropic_apiKey := anthropicAPIKey s |} /\
    triggered (host w') = triggered (host w) /\
    notices (host w') = notices (host w) /\
    console (host w')
    = console (host w) ++ [console_log "saving..."] ++ [console_log "done"] /\
    indexingStatus (plugin w') = indexingStatus (plugin w) /\
    lastIndexedCount (plugin w') = lastIndexedCount (plugin w) /\
    vectorStore (plugin w') = vectorStore (plugin w) /\
    embeddingDropdown (host w') = embeddingDropdown (host w).
Proof.
  intros s client Hwrite. unfold saveSettings.
  unfold console_write at 1. rewrite bind_modify, bind_get.
  erewrite bind_returned by (apply saveData_resolved; exact Hwrite).
  rewrite bind_modify.
  match goal with
  | |- context [bind (getOpenAIClient None) ?k ?w0] =>
      rewrite (bind_returned _ k _ _ _ (getOpenAIClient_default_client w0 eq_refl))
  end.
  rewrite bind_modify. unfold console_write, modify.
  eexists. split; [reflexivity |].
  cbn [plugin host with_plugin with_host settings set_clients set_clientCache
       data_json openaiClient clientCache anthropicClient triggered notices
       console indexingStatus lastIndexedCount vectorStore embeddingDropdown].
  rewrite <- app_assoc. repeat split.
Qed.

(** X16. [saveSettings] resolves exactly when the host's write of the
    settings does. When the write resolves, [data.json] holds the settings
    as they are, every cached client is dropped, and the plugin is left
    with a default client built from the current OpenAI key, base URL and
    model, cached alone under ['openai'], and an Anthropic client with the
    current key; no event is triggered and no notice shown. When the write
    rejects, [saveSettings] rejects with the same error before it touches
    the plugin: the cache and the clients are what they were, and the
    console has ['saving...'] without ['done']. *)
Theorem saveSettings_refreshes_clients (w : World) :
  let s := settings (plugin w) in
  let client := client_for s (openaiAPIKey s) (openaiBaseUrl s) in
  match saveData_rejection s (logged (console_log "saving...") w) with
  | None =>
      exists w',
        saveSettings w = (Returned tt, w') /\
        settings (plugin w') = s /\
        data_json (host w') = Some s /\
        openaiClient (plugin w') = client /\
        clientCache (plugin w') = {[ "openai" := client ]} /\
        anthropicClient (plugin w') = {| anthropic_apiKey := anthropicAPIKey s |} /\
        triggered (host w') = triggered (host w) /\
        notices (host w') = notices (host w) /\
        console (host w')
        = console (host w) ++ [console_log "saving..."; console_log "done"]
  | Some (error, blob) =>
      exists w',
        saveSettings w = (Threw error, w') /\
        plugin w' = plugin w /\
        data_json (host w') = blob /\
        triggered (host w') = triggered (host w) /\
        notices (host w') = notices (host w) /\
        console (host w') = console (host w) ++ [console_log "saving..."]
  end.
Proof.
  intros s client.
  destruct (saveData_rejection s (logged (console_log "saving...") w))
    as [[error blob] |] eqn:Hwrite.
  - apply saveSettings_rejects. exact Hwrite.
  - destruct (saveSettings_effect w Hwrite)
      as (w' & Hrun & Hs & Hdisk & Hclient & Hcache & Hanthropic & Hevents
          & Hnotices & Hconsole & _).
    exists w'. repeat split; assumption.
Qed.

End ClientFacts.

(* --------------------------------------------------------------------- *)
(** *** Indexing runs that do no work *)
(* --------------------------------------------------------------------- *)

Section IndexFacts.

Context {StoredVector NoteGroup TFile VectorStore ConcurrencyManager : Type}.

Local Abbreviation World := (@World StoredVector NoteGroup VectorStore).

Local Abbreviation Settings :=
  (@ZettelkastenLLMToolsPluginSettings StoredVector NoteGroup).

Variable saveData_rejection : Settings -> World -> option (Thrown * option Settings).
Variable new_VectorStore :
  @Plugin StoredVector NoteGroup VectorStore -> VectorStore.
Variable filesInGroupFolder : option NoteGroup -> M World (list TFile).
Variable generateAndStoreEmbeddings :
  @GenerateArgs StoredVector NoteGroup TFile VectorStore ->
  M World ConcurrencyManager.
Variable concurrencyManager_done : ConcurrencyManager -> M World unit.

Local Abbreviation saveSettings := (saveSettings saveData_rejection).
Local Abbreviation indexVectorStores :=
  (indexVectorStores saveData_rejection filesInGroupFolder
                     generateAndStoreEmbeddings concurrencyManager_done).
Local Abbreviation embeddingModel_onConfirm :=
  (embeddingModel_onConfirm saveData_rejection new_VectorStore filesInGroupFolder
     generateAndStoreEmbeddings concurrencyManager_done).
Local Abbreviation currentNote_work :=
  (currentNote_work generateAndStoreEmbeddings concurrencyManager_done).
Local Abbreviation generateEmbeddingsForCurrentNote :=
  (generateEmbeddingsForCurrentNote saveData_rejection
     generateAndStoreEmbeddings concurrencyManager_done).

(** The world once [line] is on the console. *)
Local Abbreviation logged line w :=
  (with_host (fun h =>
     {| data_json := data_json h;
        triggered := triggered h;
        console := console h ++ [line];
        notices := notices h;
        embeddingDropdown := embeddingDropdown h |}) w).

(** Runs the [saveSettings] that is next in the goal, keeping all it is
    known to do; [write_resolves] shows that the host's write resolves. *)
Tactic Notation "save_step" "as" ident(w') ident(Hfacts)
    "by" tactic(write_resolves) :=
  match goal with
  | |- context [bind saveSettings ?k ?w0] =>
      let Hrun := fresh "Hrun" in
      let Hwrite := fresh "Hwrite" in
      assert (Hwrite : saveData_rejection (settings (plugin w0))
                         (logged (console_log "saving...") w0) = None)
        by write_resolves;
      destruct (saveSettings_effect saveData_rejection w0 Hwrite)
        as (w' & Hrun & Hfacts);
      rewrite (bind_returned _ k _ _ _ Hrun)
  end.

(** X17. With embeddings disabled, [indexVectorStores] returns at once
    and the world is what it was, whatever the indexing status. *)
Theorem indexVectorStores_disabled (w : World) :
  embeddingsEnabled (settings (plugin w)) = false ->
  indexVectorStores w = (Returned tt, w).
Proof.
  intros Hdisabled. unfold indexVectorStores.
  rewrite bind_get, Hdisabled. reflexivity.
Qed.

(** A run whose guarded part logs [e] and does nothing else. *)
Lemma failed_run (e : Thrown) (w : World) :
  (forall w0, saveData_rejection (settings (plugin w)) w0 = None) ->
  embeddingsEnabled (settings (plugin w)) = true ->
  indexingStatus (plugin w) <> INDEXING_STATUS ->
  (forall w1,
      settings (plugin w1) = settings (plugin w) ->
      try_catch
        (w2 <- get ;;
         filesForNoteGroup <-
           filesInGroupFolder
             (array_get (noteGroups (settings (plugin w2)))
                        (indexedNoteGroup (settings (plugin w2)))) ;;
         w3 <- get ;;
         client <-
           getOpenAIClient (embeddingsModelProviderId (settings (plugin w3))) ;;
         w4 <- get ;;
         concurrencyManager <-
           generateAndStoreEmbeddings
             {| files := filesForNoteGroup;
                args_vectorStore := vectorStore (plugin w4);
                args_openaiClient := client;
                notify := notify_callback |} ;;
         concurrencyManager_done concurrencyManager)%js
        (fun error =>
           console_write (console_error "Error during indexing:" error)) w1
      = console_write (console_error "Error during indexing:" e) w1) ->
  exists w',
    indexVectorStores w = (Returned tt, w') /\
    settings (plugin w') = settings (plugin w) /\
    indexingStatus (plugin w') = IDLE_STATUS /\
    lastIndexedCount (plugin w') = 0%nat /\
    notices (host w') = notices (host w) ++ ["Indexed 0 notes"] /\
    triggered (host w') = triggered (host w) ++ [index_updated; index_updated] /\
    console (host w')
    = console (host w)
      ++ [console_log "saving..."; console_log "done";
          console_error "Error during indexing:" e;
          console_log "saving..."; console_log "done"] /\
    data_json (host w') = Some (settings (plugin w)).
Proof.
  intros Hhost Henabled Hstatus Hguarded. unfold indexVectorStores.
  rewrite bind_get, Henabled.
  rewrite bool_decide_eq_false_2 by exact Hstatus.
  cbn [negb orb]. rewrite !bind_modify. unfold trigger at 1.
  rewrite bind_modify.
  save_step as w1 Hfirst by apply Hhost.
  destruct Hfirst as (Hs1 & _ & _ & _ & _ & Hev1 & Hno1 & Hco1 & _ & Hcount1 & _).
  unfold try_finally. rewrite (Hguarded w1 Hs1).
  unfold console_write at 1. unfold modify at 1.
  rewrite bind_modify. unfold trigger. rewrite bind_modify.
  save_step as w3 Hlast
    by (cbn [plugin with_plugin with_host settings set_indexingStatus];
        rewrite Hs1; apply Hhost).
  destruct Hlast as (Hs3 & Hdisk3 & _ & _ & _ & Hev3 & Hno3 & Hco3 & Hst3
                     & Hcount3 & _).
  rewrite bind_get. unfold Notice, modify.
  eexists. split; [reflexivity |].
  cbn [plugin host with_plugin with_host settings set_indexingStatus
       set_lastIndexedCount indexingStatus lastIndexedCount notices triggered
       console data_json] in *.
  rewrite Hcount3, Hcount1.
  rewrite Hs3, Hs1, Hst3, Hno3, Hno1, Hev3, Hev1, Hco3, Hco1, Hdisk3.
  rewrite <- !app_assoc. repeat split.
  rewrite Hs1. reflexivity.
Qed.

(** X18. When the listing of the group's files rejects with [e], a run
    that got past the guard still resolves, on a host that accepts the
    write of the settings: the error goes to the console, the settings are
    untouched and saved, the count shown is 0 and the notice says so. *)
Theorem indexVectorStores_listing_failure (e : Thrown) (w : World) :
  (forall w0, saveData_rejection (settings (plugin w)) w0 = None) ->
  embeddingsEnabled (settings (plugin w)) = true ->
  indexingStatus (plugin w) <> INDEXING_STATUS ->
  (forall noteGroup w0, filesInGroupFolder noteGroup w0 = (Threw e, w0)) ->
  exists w',
    indexVectorStores w = (Returned tt, w') /\
    settings (plugin w') = settings (plugin w) /\
    indexingStatus (plugin w') = IDLE_STATUS /\
    lastIndexedCount (plugin w') = 0%nat /\
    notices (host w') = notices (host w) ++ ["Indexed 0 notes"] /\
    triggered (host w') = triggered (host w) ++ [index_updated; index_updated] /\
    console (host w')
    = console (host w)
      ++ [console_log "saving..."; console_log "done";
          console_error "Error during indexing:" e;
          console_log "saving..."; console_log "done"] /\
    data_json (host w') = Some (settings (plugin w)).
Proof.
  intros Hhost Henabled Hstatus Hlisting.
  apply failed_run; [exact Hhost | exact Henabled | exact Hstatus |].
  intros w1 _. unfold try_catch. rewrite bind_get.
  erewrite bind_threw by apply Hlisting. reflexivity.
Qed.

(** X19. When the provider id set for embeddings is ['anthropic'] and
    the listing of files succeeds, a run that got past the guard hands no
    work over, on a host that accepts the write of the settings:
    [getOpenAIClient] rejects, the error goes to the console, and the run
    ends with a count of 0, as if there were no notes. *)
Theorem indexVectorStores_anthropic_provider (w : World) :
  (forall w0, saveData_rejection (settings (plugin w)) w0 = None) ->
  embeddingsEnabled (settings (plugin w)) = true ->
  indexingStatus (plugin w) <> INDEXING_STATUS ->
  embeddingsModelProviderId (settings (plugin w)) = Some "anthropic" ->
  (forall noteGroup w0,
      exists listed, filesInGroupFolder noteGroup w0 = (Returned listed, w0)) ->
  exists w',
    indexVectorStores w = (Returned tt, w') /\
    settings (plugin w') = settings (plugin w) /\
    indexingStatus (plugin w') = IDLE_STATUS /\
    lastIndexedCount (plugin w') = 0%nat /\
    notices (host w') = notices (host w) ++ ["Indexed 0 notes"] /\
    triggered (host w') = triggered (host w) ++ [index_updated; index_updated] /\
    console (host w')
    = console (host w)
      ++ [console_log "saving..."; console_log "done";
          console_error "Error during indexing:"
            (Error "Anthropic provider is not supported for OpenAI-compatible operations. Use AnthropicClient for Anthropic models.");
          console_log "saving..."; console_log "done"] /\
    data_json (host w') = Some (settings (plugin w)).
Proof.
  intros Hhost Henabled Hstatus Hprovider Hlisting.
  apply failed_run; [exact Hhost | exact Henabled | exact Hstatus |].
  intros w1 Hs1. unfold try_catch. rewrite bind_get.
  match goal with
  | |- context [filesInGroupFolder ?g] =>
      destruct (Hlisting g w1) as [listed Hlisted]
  end.
  erewrite bind_returned by exact Hlisted.
  rewrite bind_get, Hs1, Hprovider.
  erewrite bind_threw by (apply getOpenAIClient_anthropic; reflexivity).
  reflexivity.
Qed.

(** The world in which a run that got past the guard asks for its first
    write: the status and the count are set, the event is out and
    ['saving...'] is on the console. *)
Local Abbreviation first_write w :=
  (logged (console_log "saving...")
     (with_host (fun h =>
        {| data_json := data_json h;
           triggered := triggered h ++ [index_updated];
           console := console h;
           notices := notices h;
           embeddingDropdown := embeddingDropdown h |})
        (with_plugin (set_lastIndexedCount 0)
           (with_plugin (set_indexingStatus INDEXING_STATUS) w)))).


(** [currentNote_work] is what the command's [try] block does after its
    save. *)
Lemma currentNote_runs_work (file : TFile) :
  generateEmbeddingsForCurrentNote true (Some file)
  = try_finally
      (modify (with_plugin (set_indexingStatus INDEXING_STATUS)) ;;;
       saveSettings ;;;
       currentNote_work file)%js
      (modify (with_plugin (set_indexingStatus IDLE_STATUS)) ;;;
       saveSettings)%js.
Proof. reflexivity. Qed.

(** X21. The single-note command has no guard, and its first save is
    inside the [try] block. Whatever the host, the work, the indexing
    status and the embeddings flag, with an active view and file the
    command ends with the status at ['idle']. On a host whose writes
    resolve it sets the status to ['indexing'] and saves, then looks the
    client up and hands the one file over; whatever that work ends in is
    what the command ends in, with the settings saved as the work left
    them. *)
Theorem currentNote_command_ends_idle (file : TFile) (w : World) :
  (exists outcome w',
      generateEmbeddingsForCurrentNote true (Some file) w = (outcome, w') /\
      indexingStatus (plugin w') = IDLE_STATUS) /\
  ((forall data w0, saveData_rejection data w0 = None) ->
   exists w1 outcome w2 w',
     indexingStatus (plugin w1) = INDEXING_STATUS /\
     settings (plugin w1) = settings (plugin w) /\
     lastIndexedCount (plugin w1) = lastIndexedCount (plugin w) /\
     vectorStore (plugin w1) = vectorStore (plugin w) /\
     data_json (host w1) = Some (settings (plugin w)) /\
     currentNote_work file w1 = (outcome, w2) /\
     generateEmbeddingsForCurrentNote true (Some file) w = (outcome, w') /\
     indexingStatus (plugin w') = IDLE_STATUS /\
     settings (plugin w') = settings (plugin w2) /\
     lastIndexedCount (plugin w') = lastIndexedCount (plugin w2) /\
     data_json (host w') = Some (settings (plugin w2))).
Proof.
  split.
  - unfold generateEmbeddingsForCurrentNote, try_finally.
    match goal with
    | |- context [let (_, _) := ?body w in _] => destruct (body w) as [r w2]
    end.
    rewrite bind_modify.
    destruct (saveData_rejection
                (settings (plugin (with_plugin (set_indexingStatus IDLE_STATUS) w2)))
                (logged (console_log "saving...")
                   (with_plugin (set_indexingStatus IDLE_STATUS) w2)))
      as [[error blob] |] eqn:Hlast.
    + destruct (saveSettings_rejects saveData_rejection _ error blob Hlast)
        as (w3 & Hrun & Hplugin & _).
      rewrite Hrun. exists (Threw error), w3. split; [reflexivity |].
      rewrite Hplugin. reflexivity.
    + destruct (saveSettings_effect saveData_rejection _ Hlast)
        as (w3 & Hrun & _ & _ & _ & _ & _ & _ & _ & _ & Hst3 & _).
      rewrite Hrun. exists r, w3. split; [reflexivity |].
      rewrite Hst3. reflexivity.
  - intros Hhost.
    unfold generateEmbeddingsForCurrentNote, try_finally.
    rewrite bind_modify.
    save_step as w1 Hfirst by apply Hhost.
    destruct Hfirst as (Hs1 & Hdisk1 & _ & _ & _ & _ & _ & _ & Hst1 & Hcount1
                        & Hstore1 & _).
    match goal with
    | |- context [let (_, _) := ?body w1 in _] =>
        change (body w1) with (currentNote_work file w1)
    end.
    destruct (currentNote_work file w1) as [outcome w2] eqn:Hwork.
    exists w1, outcome, w2.
    rewrite bind_modify.
    match goal with
    | |- context [saveSettings ?w0] =>
        destruct (saveSettings_effect saveData_rejection w0 (Hhost _ _))
          as (w3 & Hlast & Hs3 & Hdisk3 & _ & _ & _ & _ & _ & _ & Hst3 & Hcount3 & _)
    end.
    rewrite Hlast. exists w3.
    rewrite Hst1, Hs1, Hcount1, Hstore1, Hdisk1, Hst3, Hs3, Hcount3, Hdisk3.
    repeat split. exact Hwork.
Qed.

(** X22. Unlike [indexVectorStores], the single-note command lets a
    failure through: with the embeddings provider id set to ['anthropic'],
    on a host that accepts the write of the settings, the command rejects
    with [getOpenAIClient]'s error, after the settings were saved and the
    status put back to ['idle']. *)
Theorem currentNote_command_rejects (file : TFile) (w : World) :
  (forall w0, saveData_rejection (settings (plugin w)) w0 = None) ->
  embeddingsModelProviderId (settings (plugin w)) = Some "anthropic" ->
  exists w',
    generateEmbeddingsForCurrentNote true (Some file) w
    = (Threw (Error "Anthropic provider is not supported for OpenAI-compatible operations. Use AnthropicClient for Anthropic models."),
       w') /\
    indexingStatus (plugin w') = IDLE_STATUS /\
    settings (plugin w') = settings (plugin w) /\
    lastIndexedCount (plugin w') = lastIndexedCount (plugin w).
Proof.
  intros Hhost Hprovider.
  unfold generateEmbeddingsForCurrentNote, try_finally.
  rewrite bind_modify.
  save_step as w1 Hfirst by apply Hhost.
  destruct Hfirst as (Hs1 & _ & _ & _ & _ & _ & _ & _ & _ & Hcount1 & _).
  rewrite bind_get.
  cbn [plugin with_plugin settings set_indexingStatus lastIndexedCount] in Hs1, Hcount1.
  rewrite Hs1, Hprovider.
  erewrite bind_threw by (apply getOpenAIClient_anthropic; reflexivity).
  rewrite bind_modify.
  assert (Hlastwrite :
    saveData_rejection
      (settings (plugin (with_plugin (set_indexingStatus IDLE_STATUS) w1)))
      (logged (console_log "saving...")
         (with_plugin (set_indexingStatus IDLE_STATUS) w1)) = None).
  { cbn [plugin with_plugin settings set_indexingStatus].
    rewrite Hs1. apply Hhost. }
  destruct (saveSettings_effect saveData_rejection
              (with_plugin (set_indexingStatus IDLE_STATUS) w1) Hlastwrite)
    as (w3 & Hlast & Hs3 & _ & _ & _ & _ & _ & _ & _ & Hst3 & Hcount3 & _).
  rewrite Hlast. exists w3. split; [reflexivity |].
  rewrite Hst3, Hs3, Hcount3.
  cbn [plugin with_plugin settings set_indexingStatus indexingStatus
       lastIndexedCount].
  rewrite Hs1, Hcount1. repeat split.
Qed.

(** X23. A change of embedding model that is declined, or confirmed for
    the value already current, clears nothing: the plugin and [data.json]
    are what they were. Declining puts the dropdown back on the current
    value; confirming the current value changes nothing at all. *)
Theorem onConfirm_keeps_store (value : string) (confirmWasClicked : bool)
    (w : World) :
  confirmWasClicked = false
  \/ value = getCurrentEmbeddingModelValue (settings (plugin w)) ->
  exists w',
    embeddingModel_onConfirm value confirmWasClicked w = (Returned tt, w') /\
    plugin w' = plugin w /\
    data_json (host w') = data_json (host w) /\
    (if confirmWasClicked then w' = w
     else embeddingDropdown (host w')
          = getCurrentEmbeddingModelValue (settings (plugin w))).
Proof.
  intros Hcase. unfold embeddingModel_onConfirm.
  destruct confirmWasClicked; cbn [negb].
  - destruct Hcase as [Hno | Hsame]; [discriminate |].
    rewrite bind_get. rewrite <- Hsame, String.eqb_refl.
    rewrite andb_false_r. exists w. repeat split.
  - rewrite bind_get. unfold dropdown_setValue, modify.
    eexists. split; [reflexivity |]. repeat split.
Qed.

End IndexFacts.

(* --------------------------------------------------------------------- *)
(** *** Loading settings *)
(* --------------------------------------------------------------------- *)

Lemma migrateModelValue_has_colon {T : Type} `{NamedModel T}
    (oldValue : string) (availableModels : list T)
    (currentProviderId : option string) :
  Js.includes (migrateModelValue oldValue availableModels currentProviderId) ":"
  = true.
Proof.
  unfold migrateModelValue.
  destruct (Js.includes oldValue ":") eqn:Hold; [exact Hold |].
  destruct (List.filter _ availableModels) as [| m [| m' ms]];
    try apply includes_format.
  destruct (Js.truthy currentProviderId); [| apply includes_format].
  destruct (List.find _ _); apply includes_format.
Qed.

Lemma bind_assoc {W A B C} (c : M W A) (k1 : A -> M W B) (k2 : B -> M W C)
    (w : W) :
  bind (bind c k1) k2 w = bind c (fun a => bind (k1 a) k2) w.
Proof. unfold bind. destruct (c w) as [[a | e] w']; reflexivity. Qed.

Lemma bind_if_modify {W B} (b : bool) (f : W -> W) (k : unit -> M W B) (w : W) :
  bind (if b then modify f else ret tt) k w = k tt (if b then f w else w).
Proof. destruct b; reflexivity. Qed.

Section LoadFacts.

Context {StoredVector NoteGroup VectorStore : Type}.

Local Abbreviation World := (@World StoredVector NoteGroup VectorStore).
Local Abbreviation Settings :=
  (@ZettelkastenLLMToolsPluginSettings StoredVector NoteGroup).
Local Abbreviation LoadedSettings := (@LoadedSettings StoredVector NoteGroup).

Variable DEFAULT_NOTE_GROUPS : list NoteGroup.
Variable loadData : M World (option LoadedSettings).

Local Abbreviation loadSettings := (loadSettings DEFAULT_NOTE_GROUPS loadData).

(** The settings once the embeddings model value has been migrated. *)
Local Abbreviation embeddings_migrated s :=
  (if Js.truthy (embeddingsModelVersion s)
      && negb (Js.includes (default EmptyString (embeddingsModelVersion s)) ":")
   then
     set_embeddingsModel
       (Some (migrateModelValue (default EmptyString (embeddingsModelVersion s))
                (availableEmbeddingModels (openaiAPIKey s)
                   (Some (customEmbeddingModels s)) (Some (providerModels s)))
                (embeddingsModelProviderId s)))
       (Some (providerId (parseModelValue
          (migrateModelValue (default EmptyString (embeddingsModelVersion s))
             (availableEmbeddingModels (openaiAPIKey s)
                (Some (customEmbeddingModels s)) (Some (providerModels s)))
             (embeddingsModelProviderId s))))) s
   else s).

(** The settings once the copilot model value has been migrated. *)
Local Abbreviation copilot_migrated s :=
  (if Js.nonempty (copilotModel s) && negb (Js.includes (copilotModel s) ":")
   then
     set_copilotModel
       (migrateModelValue (copilotModel s)
          (availableChatModels (openaiAPIKey s) (anthropicAPIKey s)
             (Some (customChatModels s)) (Some (providerModels s)))
          (copilotModelProviderId s))
       (Some (providerId (parseModelValue
          (migrateModelValue (copilotModel s)
             (availableChatModels (openaiAPIKey s) (anthropicAPIKey s)
                (Some (customChatModels s)) (Some (providerModels s)))
             (copilotModelProviderId s))))) s
   else s).

(** [migrateModelSettings] always resolves; it rewrites the two model
    values and nothing else of the plugin, and only adds to the console. *)
Lemma migrateModelSettings_effect (w : World) :
  exists w',
    migrateModelSettings w = (Returned tt, w') /\
    settings (plugin w')
    = copilot_migrated (embeddings_migrated (settings (plugin w))) /\
    vectorStore (plugin w') = vectorStore (plugin w) /\
    indexingStatus (plugin w') = indexingStatus (plugin w) /\
    lastIndexedCount (plugin w') = lastIndexedCount (plugin w) /\
    data_json (host w') = data_json (host w) /\
    triggered (host w') = triggered (host w) /\
    notices (host w') = notices (host w).
Proof.
  unfold migrateModelSettings. rewrite bind_get.
  set (s := settings (plugin w)).
  destruct (Js.truthy (embeddingsModelVersion s)
            && negb (Js.includes (default EmptyString (embeddingsModelVersion s)) ":"))
    eqn:Hfirst.
  - rewrite bind_assoc. unfold console_write at 1.
    rewrite bind_modify, bind_modify, bind_get.
    cbn [plugin host with_plugin with_host settings with_settings].
    fold s.
    match goal with
    | |- context [set_embeddingsModel ?v ?p s] =>
        set (s1 := set_embeddingsModel v p s)
    end.
    destruct (Js.nonempty (copilotModel s1)
              && negb (Js.includes (copilotModel s1) ":")) eqn:Hsecond.
    + unfold console_write. rewrite bind_modify. unfold modify.
      eexists. split; [reflexivity |].
      cbn [plugin host with_plugin with_host settings with_settings
           vectorStore indexingStatus lastIndexedCount data_json triggered
           notices].
      repeat split.
    + unfold ret. eexists. split; [reflexivity |].
      cbn [plugin host with_plugin with_host settings with_settings
           vectorStore indexingStatus lastIndexedCount data_json triggered
           notices].
      repeat split.
  - unfold ret at 1. unfold bind at 1. rewrite bind_get. fold s.
    destruct (Js.nonempty (copilotModel s)
              && negb (Js.includes (copilotModel s) ":")) eqn:Hsecond.
    + unfold console_write. rewrite bind_modify. unfold modify.
      eexists. split; [reflexivity |].
      cbn [plugin host with_plugin with_host settings with_settings
           vectorStore indexingStatus lastIndexedCount data_json triggered
           notices].
      repeat split.
    + unfold ret. exists w. repeat split.
Qed.

Lemma migrated_new_format (s : Settings) :
  new_format (copilot_migrated (embeddings_migrated s)).
Proof.
  set (s1 := embeddings_migrated s).
  assert (Hembed :
    Js.truthy (embeddingsModelVersion s1) = true ->
    Js.includes (default EmptyString (embeddingsModelVersion s1)) ":" = true).
  { subst s1.
    destruct (Js.truthy (embeddingsModelVersion s)) eqn:Htruthy; cbn [andb].
    - destruct (Js.includes (default EmptyString (embeddingsModelVersion s)) ":")
        eqn:Hinc; cbn [negb].
      + intros _. exact Hinc.
      + intros _. cbn [embeddingsModelVersion set_embeddingsModel default].
        apply migrateModelValue_has_colon.
    - intros Hyes. rewrite Htruthy in Hyes. discriminate. }
  destruct (Js.nonempty (copilotModel s1)) eqn:Hnonempty; cbn [andb].
  - destruct (Js.includes (copilotModel s1) ":") eqn:Hinc; cbn [negb].
    + split; [exact Hembed | intros _; exact Hinc].
    + split.
      * exact Hembed.
      * intros _. cbn [copilotModel set_copilotModel].
        apply migrateModelValue_has_colon.
  - split; [exact Hembed |].
    intros Hyes. rewrite Hnonempty in Hyes. discriminate.
Qed.

Lemma migrated_id (s : Settings) :
  new_format s -> copilot_migrated (embeddings_migrated s) = s.
Proof.
  intros [Hembed Hcopilot].
  assert (Hfirst :
    Js.truthy (embeddingsModelVersion s)
    && negb (Js.includes (default EmptyString (embeddingsModelVersion s)) ":")
    = false).
  { destruct (Js.truthy (embeddingsModelVersion s)); [| reflexivity].
    rewrite (Hembed eq_refl). reflexivity. }
  rewrite Hfirst.
  assert (Hsecond :
    Js.nonempty (copilotModel s) && negb (Js.includes (copilotModel s) ":")
    = false).
  { destruct (Js.nonempty (copilotModel s)); [| reflexivity].
    rewrite (Hcopilot eq_refl). reflexivity. }
  rewrite Hsecond. reflexivity.
Qed.

(** The settings [loadSettings] works out from what was loaded, before
    migration. *)
Local Abbreviation assigned loaded :=
  (assign_settings (DEFAULT_SETTINGS DEFAULT_NOTE_GROUPS) loaded).
Local Abbreviation settings_read loaded :=
  (if negb (Js.truthy (loaded ≫= loaded_embeddingsModelVersion))
      && negb (Nat.eqb (length (vectors (assigned loaded))) 0)
   then set_embeddingsEnabled true
          (set_embeddingsModel (Some unlabelledEmbeddingModel)
             (embeddingsModelProviderId (assigned loaded)) (assigned loaded))
   else assigned loaded).

(** [loadSettings], step by step. *)
Lemma loadSettings_effect (loaded : option LoadedSettings) (w w0 : World) :
  loadData w = (Returned loaded, w0) ->
  exists w',
    loadSettings w = (Returned tt, w') /\
    settings (plugin w')
    = copilot_migrated (embeddings_migrated (settings_read loaded)) /\
    lastIndexedCount (plugin w')
    = (if (length (vectors (settings_read loaded)) =? 0)%nat
       then lastIndexedCount (plugin w0)
       else length (vectors (settings_read loaded))) /\
    indexingStatus (plugin w') = indexingStatus (plugin w0) /\
    data_json (host w') = data_json (host w0) /\
    openaiClient (plugin w')
    = client_for (settings (plugin w'))
        (openaiAPIKey (settings (plugin w')))
        (openaiBaseUrl (settings (plugin w'))).
Proof.
  intros Hload. unfold loadSettings.
  erewrite bind_returned by exact Hload.
  rewrite bind_modify, bind_get.
  cbn [plugin with_plugin settings with_settings].
  rewrite bind_if_modify, bind_get.
  match goal with
  | |- context [bind (if ?b then modify ?f else ret tt) ?k ?w1] =>
      rewrite (bind_if_modify b f k w1)
  end.
  match goal with
  | |- context [bind migrateModelSettings ?k ?w1] =>
      destruct (migrateModelSettings_effect w1)
        as (w2 & Hmig & Hs2 & _ & Hst2 & Hcount2 & Hdisk2 & _);
      rewrite (bind_returned _ k _ _ _ Hmig)
  end.
  rewrite bind_modify.
  match goal with
  | |- context [bind (getOpenAIClient None) ?k ?w1] =>
      rewrite (bind_returned _ k _ _ _ (getOpenAIClient_default_client w1 eq_refl))
  end.
  unfold modify. eexists. split; [reflexivity |].
  cbn [plugin host with_plugin with_host settings set_clients set_clientCache
       lastIndexedCount indexingStatus data_json openaiClient].
  rewrite Hs2, Hcount2, Hst2, Hdisk2.
  set (s0 := assign_settings (DEFAULT_SETTINGS DEFAULT_NOTE_GROUPS) loaded).
  destruct (negb (Js.truthy (loaded ≫= loaded_embeddingsModelVersion))
            && negb (length (vectors s0) =? 0)%nat) eqn:Hlegacy;
    cbn [plugin host with_plugin with_host settings with_settings
         set_lastIndexedCount lastIndexedCount indexingStatus data_json
         vectors set_embeddingsEnabled set_embeddingsModel];
    fold s0;
    destruct (length (vectors s0) =? 0)%nat eqn:Hempty;
    cbn [negb plugin host with_plugin with_host settings with_settings
         set_lastIndexedCount lastIndexedCount indexingStatus data_json
         vectors set_embeddingsEnabled set_embeddingsModel];
    repeat split.
Qed.

(** X24. Whatever [data.json] holds, after [loadSettings] both model
    settings are in the [providerId:modelName] format or unset: an
    embeddings model value that is set contains a colon, and so does a
    non-empty copilot model value. *)
Theorem loadSettings_new_format (loaded : option LoadedSettings) (w w0 : World) :
  loadData w = (Returned loaded, w0) ->
  exists w',
    loadSettings w = (Returned tt, w') /\
    (forall version,
        embeddingsModelVersion (settings (plugin w')) = Some version ->
        version <> "" -> In ":"%char (list_ascii_of_string version)) /\
    (copilotModel (settings (plugin w')) <> "" ->
     In ":"%char (list_ascii_of_string (copilotModel (settings (plugin w'))))).
Proof.
  intros Hload.
  destruct (loadSettings_effect loaded w w0 Hload) as (w' & Hrun & Hs & _).
  exists w'. split; [exact Hrun |].
  pose proof (migrated_new_format (settings_read loaded)) as [Hembed Hcopilot].
  rewrite <- Hs in Hembed, Hcopilot.
  split.
  - intros version Hversion Hnonempty. apply includes_colon_iff.
    rewrite Hversion in Hembed. apply Hembed.
    cbn [Js.truthy]. apply negb_true_iff. apply String.eqb_neq. exact Hnonempty.
  - intros Hnonempty. apply includes_colon_iff. apply Hcopilot.
    apply nonempty_true. exact Hnonempty.
Qed.

Lemma assign_stored_form (s : Settings) :
  assign_settings (DEFAULT_SETTINGS DEFAULT_NOTE_GROUPS) (Some (stored_form s)) = s.
Proof.
  destruct s as [k1 k2 k3 k4 vs gs [version |] [pid |] en idx cm [cpid |] ccm cem cp pm];
    reflexivity.
Qed.

(** X25. Loading what was saved gives the saved settings back, provided
    they were in the new format and either had an embeddings model set or
    had no vectors; with vectors, the indexed count is their number. *)
Theorem loadSettings_after_save (s : Settings) (w w0 : World) :
  loadData w = (Returned (Some (stored_form s)), w0) ->
  new_format s ->
  vectors s = [] \/ Js.truthy (embeddingsModelVersion s) = true ->
  exists w',
    loadSettings w = (Returned tt, w') /\
    settings (plugin w') = s /\
    (vectors s <> [] -> lastIndexedCount (plugin w') = length (vectors s)).
Proof.
  intros Hload Hformat Hcase.
  destruct (loadSettings_effect _ w w0 Hload) as (w' & Hrun & Hs & Hcount & _).
  exists w'. split; [exact Hrun |].
  rewrite assign_stored_form in Hs, Hcount.
  assert (Hlegacy :
    negb (Js.truthy (Some (stored_form s) ≫= loaded_embeddingsModelVersion))
    && negb (length (vectors s) =? 0)%nat = false).
  { cbn [mbind option_bind stored_form loaded_embeddingsModelVersion].
    destruct Hcase as [-> | ->]; [apply andb_false_r | reflexivity]. }
  rewrite Hlegacy in Hs, Hcount.
  rewrite (migrated_id s Hformat) in Hs.
  split; [exact Hs |].
  intros Hvectors. rewrite Hcount.
  destruct (vectors s); [contradiction | reflexivity].
Qed.

Lemma copilot_migrated_embeddings (s : Settings) :
  embeddingsModelVersion (copilot_migrated s) = embeddingsModelVersion s /\
  embeddingsModelProviderId (copilot_migrated s) = embeddingsModelProviderId s /\
  embeddingsEnabled (copilot_migrated s) = embeddingsEnabled s /\
  vectors (copilot_migrated s) = vectors s.
Proof.
  destruct (Js.nonempty (copilotModel s) && negb (Js.includes (copilotModel s) ":"));
    repeat split.
Qed.

(** X26. A [data.json] from before model versions were recorded, with
    vectors but no embeddings model, no custom embedding models and no
    provider models, loads with embeddings switched on, whatever the
    stored switch said, and the model set to
    [openai:text-embedding-3-small]; the vectors are kept and counted. *)
Theorem loadSettings_legacy_vectors
    (loaded : LoadedSettings) (stored : list StoredVector) (w w0 : World) :
  loadData w = (Returned (Some loaded), w0) ->
  Js.truthy (loaded_embeddingsModelVersion loaded) = false ->
  loaded_vectors loaded = Some stored ->
  stored <> [] ->
  loaded_customEmbeddingModels loaded = None ->
  loaded_providerModels loaded = None ->
  exists w',
    loadSettings w = (Returned tt, w') /\
    embeddingsEnabled (settings (plugin w')) = true /\
    embeddingsModelVersion (settings (plugin w'))
    = Some "openai:text-embedding-3-small" /\
    embeddingsModelProviderId (settings (plugin w')) = Some "openai" /\
    vectors (settings (plugin w')) = stored /\
    lastIndexedCount (plugin w') = length stored.
Proof.
  intros Hload Hversion Hvectors Hnonempty Hcustom Hdiscovered.
  destruct (loadSettings_effect _ w w0 Hload) as (w' & Hrun & Hs & Hcount & _).
  exists w'. split; [exact Hrun |].
  set (s0 := assign_settings (DEFAULT_SETTINGS DEFAULT_NOTE_GROUPS) (Some loaded))
    in *.
  assert (Hv0 : vectors s0 = stored).
  { subst s0. cbn [assign_settings vectors]. rewrite Hvectors. reflexivity. }
  assert (Hc0 : customEmbeddingModels s0 = []).
  { subst s0. cbn [assign_settings customEmbeddingModels]. rewrite Hcustom.
    reflexivity. }
  assert (Hp0 : providerModels s0 = []).
  { subst s0. cbn [assign_settings providerModels]. rewrite Hdiscovered.
    reflexivity. }
  assert (Hlegacy :
    negb (Js.truthy (Some loaded ≫= loaded_embeddingsModelVersion))
    && negb (length (vectors s0) =? 0)%nat = true).
  { cbn [mbind option_bind]. rewrite Hversion, Hv0.
    destruct stored; [contradiction | reflexivity]. }
  rewrite Hlegacy in Hs, Hcount.
  set (s1 := set_embeddingsEnabled true
               (set_embeddingsModel (Some unlabelledEmbeddingModel)
                  (embeddingsModelProviderId s0) s0)) in *.
  assert (Hmigrated :
    embeddings_migrated s1
    = set_embeddingsModel (Some "openai:text-embedding-3-small") (Some "openai") s1).
  { change (embeddingsModelVersion s1) with (Some unlabelledEmbeddingModel).
    change (customEmbeddingModels s1) with (customEmbeddingModels s0).
    change (providerModels s1) with (providerModels s0).
    rewrite Hc0, Hp0. reflexivity. }
  rewrite Hmigrated in Hs.
  destruct (copilot_migrated_embeddings
              (set_embeddingsModel (Some "openai:text-embedding-3-small")
                 (Some "openai") s1)) as (Hver & Hpid & Hen & Hvec).
  rewrite Hs, Hver, Hpid, Hen, Hvec, Hcount.
  change (vectors s1) with (vectors s0). rewrite Hv0.
  cbn [embeddingsEnabled embeddingsModelVersion embeddingsModelProviderId vectors
       set_embeddingsModel set_embeddingsEnabled s1].
  rewrite Hv0.
  destruct stored; [contradiction |]. repeat split.
Qed.

End LoadFacts.

(* --------------------------------------------------------------------- *)
(** *** Folders offered to a note group *)
(* --------------------------------------------------------------------- *)

Lemma in_indexed_from {A : Type} (start j : nat) (x : A) (l : list A) :
  In (j, x) (indexed_from start l) <->
  (start <= j)%nat /\ l !! (j - start)%nat = Some x.
Proof.
  revert start. induction l as [| y rest IH]; intros start;
    cbn [indexed_from In].
  - split; [tauto | intros [_ Hnone]; discriminate].
  - rewrite IH. split.
    + intros [Heq | [Hle Hget]].
      * injection Heq as <- <-. split; [lia |].
        replace (start - start)%nat with 0%nat by lia. reflexivity.
      * split; [lia |].
        replace (j - start)%nat with (S (j - S start)) by lia. exact Hget.
    + intros [Hle Hget]. destruct (Nat.eq_dec start j) as [<- | Hne].
      * left. replace (start - start)%nat with 0%nat in Hget by lia.
        injection Hget as <-. reflexivity.
      * right. split; [lia |].
        replace (j - start)%nat with (S (j - S start)) in Hget by lia.
        exact Hget.
Qed.

Lemma in_js_set (values : list string) (x : string) :
  In x (js_set values) <-> In x values.
Proof.
  unfold js_set.
  assert (Hgen : forall seen,
    In x (List.fold_left
            (fun seen value =>
               if existsb (String.eqb value) seen then seen else seen ++ [value])
            values seen)
    <-> In x seen \/ In x values).
  { induction values as [| v vs IH]; intros seen; cbn [List.fold_left In].
    - tauto.
    - rewrite IH.
      destruct (existsb (String.eqb v) seen) eqn:Hseen.
      + apply existsb_exists in Hseen as (y & Hy & Heq).
        apply String.eqb_eq in Heq. subst y.
        split; [tauto |]. intros [H | [<- | H]]; auto.
      + rewrite in_app_iff. cbn [In]. tauto. }
  rewrite Hgen. cbn [In]. tauto.
Qed.

Section FolderFacts.

Context {NoteGroup : Type}.
Variable notesFolder : NoteGroup -> option string.

Local Abbreviation selectableFolders := (selectableFolders notesFolder).
Local Abbreviation usedFolders := (usedFolders notesFolder).

Lemma in_usedFolders (noteGroups : list NoteGroup) (i : nat) (used : string) :
  In used (usedFolders noteGroups i) <->
  exists j group,
    j <> i /\ noteGroups !! j = Some group /\
    notesFolder group = Some used /\ used <> "".
Proof.
  unfold usedFolders. rewrite in_js_set, in_map_iff. split.
  - intros ([j group] & Hfolder & Hin).
    apply filter_In in Hin as [Hin Hkeep]. cbn [fst snd] in *.
    apply in_indexed_from in Hin as [_ Hget].
    replace (j - 0)%nat with j in Hget by lia.
    apply andb_true_iff in Hkeep as [Hother Htruthy].
    apply negb_true_iff, Nat.eqb_neq in Hother.
    destruct (notesFolder group) as [folder |] eqn:Hgroup; [| discriminate].
    cbn in Hfolder. subst folder.
    exists j, group. repeat split; try assumption.
    cbn [Js.truthy] in Htruthy. apply negb_true_iff in Htruthy.
    apply String.eqb_neq in Htruthy. exact Htruthy.
  - intros (j & group & Hother & Hget & Hgroup & Hnonempty).
    exists (j, group). cbn [fst snd]. rewrite Hgroup. split; [reflexivity |].
    apply filter_In. split.
    + apply in_indexed_from. split; [lia |].
      replace (j - 0)%nat with j by lia. exact Hget.
    + cbn [fst snd]. rewrite Hgroup. apply andb_true_iff. split.
      * apply negb_true_iff, Nat.eqb_neq. exact Hother.
      * cbn [Js.truthy]. apply negb_true_iff, String.eqb_neq. exact Hnonempty.
Qed.

(** X27. The folder dropdown of note group [i] always offers
    [(none selected)], and otherwise offers exactly the vault folders that
    are neither the folder of another note group nor inside one. *)
Theorem selectableFolders_spec
    (allFolders : list string) (noteGroups : list NoteGroup) (i : nat)
    (folder : string) :
  In folder (selectableFolders allFolders noteGroups i) <->
  folder = NO_FOLDER_SELECTED \/
  (In folder allFolders /\
   forall j group used,
     j <> i -> noteGroups !! j = Some group ->
     notesFolder group = Some used -> used <> "" ->
     folder <> used /\ String.prefix (used +:+ "/") folder = false).
Proof.
  unfold selectableFolders.
  rewrite <- list_elem_of_In.
  rewrite (merge_sort_Permutation string_le).
  rewrite list_elem_of_In. cbn [In].
  rewrite filter_In.
  assert (Hfree :
    negb (existsb
            (fun usedFolder =>
               String.eqb folder usedFolder
               || String.prefix (usedFolder +:+ "/") folder)
            (usedFolders noteGroups i)) = true
    <-> forall j group used,
          j <> i -> noteGroups !! j = Some group ->
          notesFolder group = Some used -> used <> "" ->
          folder <> used /\ String.prefix (used +:+ "/") folder = false).
  { rewrite negb_true_iff. split.
    - intros Hnone j group used Hother Hget Hgroup Hnonempty.
      assert (Hused : In used (usedFolders noteGroups i)).
      { apply in_usedFolders. exists j, group. auto. }
      destruct (String.eqb folder used
                || String.prefix (used +:+ "/") folder) eqn:Hhit.
      + exfalso.
        assert (Hsome : existsb
                  (fun usedFolder =>
                     String.eqb folder usedFolder
                     || String.prefix (usedFolder +:+ "/") folder)
                  (usedFolders noteGroups i) = true).
        { apply existsb_exists. exists used. auto. }
        rewrite Hsome in Hnone. discriminate.
      + apply orb_false_iff in Hhit as [Hne Hprefix].
        apply String.eqb_neq in Hne. auto.
    - intros Hall.
      destruct (existsb _ (usedFolders noteGroups i)) eqn:Hsome; [| reflexivity].
      exfalso. apply existsb_exists in Hsome as (used & Hused & Hhit).
      apply in_usedFolders in Hused as (j & group & Hother & Hget & Hgroup & Hne).
      destruct (Hall j group used Hother Hget Hgroup Hne) as [Hdiff Hprefix].
      apply String.eqb_neq in Hdiff. rewrite Hdiff, Hprefix in Hhit.
      discriminate. }
  rewrite Hfree. split.
  - intros [Heq | Hin]; [left; symmetry; exact Heq | right; exact Hin].
  - intros [Heq | Hin]; [left; symmetry; exact Heq | right; exact Hin].
Qed.

End FolderFacts.

(* --------------------------------------------------------------------- *)
(** *** The further properties at work *)
(* --------------------------------------------------------------------- *)

Lemma generateOpenAiEmbeddings_service_error_witness :
  fst (generateOpenAiEmbeddings DecimalNumbers.toFixedDigits DecimalNumbers.Number
         (new_OpenAIClient "sk-test" None) ["a note"] MoreExamples.failing_remote)
  = Threw (Error "429 rate limited").
Proof.
  apply (generateOpenAiEmbeddings_service_error
           DecimalNumbers.toFixedDigits DecimalNumbers.Number).
  reflexivity.
Defined.

Lemma generateOpenAiEmbeddings_empty_answer_witness :
  fst (generateOpenAiEmbeddings DecimalNumbers.toFixedDigits DecimalNumbers.Number
         (new_OpenAIClient "sk-test" None) ["a note"] MoreExamples.empty_remote)
  = Returned None.
Proof.
  apply (generateOpenAiEmbeddings_empty_answer
           DecimalNumbers.toFixedDigits DecimalNumbers.Number).
  reflexivity.
Defined.

Lemma generateOpenAiEmbeddings_range_error_witness :
  fst (generateOpenAiEmbeddings DecimalNumbers.toFixedDigits DecimalNumbers.Number
         MoreExamples.overprecise_client ["a note"] Example.steady_remote)
  = Threw (RangeError "toFixed() digits argument must be between 0 and 100").
Proof.
  rewrite (generateOpenAiEmbeddings_range_error
             DecimalNumbers.toFixedDigits DecimalNumbers.Number
             MoreExamples.overprecise_client ["a note"] Example.steady_remote
             (Some (Qmake 12345 100000))
             [Some (Qmake (-1) 3); Some (Qmake 1 2000)] []).
  - reflexivity.
  - right. reflexivity.
  - reflexivity.
Defined.

Lemma generateEmbeddings_asks_client_model_witness :
  sent (snd (generateEmbeddings DecimalNumbers.toFixedDigits DecimalNumbers.Number
               (Some "a note") OPENAI_EMBEDDING_3_LARGE
               (Some (new_OpenAIClient "sk-test" None)) Example.steady_remote))
  = [ {| endpoint := openai (new_OpenAIClient "sk-test" None);
         model := "text-embedding-3-small";
         input := ["a note"];
         dimensions := Some 256 |} ].
Proof.
  apply (generateEmbeddings_asks_client_model
           DecimalNumbers.toFixedDigits DecimalNumbers.Number
           "a note" OPENAI_EMBEDDING_3_LARGE (new_OpenAIClient "sk-test" None)
           Example.steady_remote).
  - discriminate.
  - right. reflexivity.
Defined.

Lemma getOpenAIClient_cached_witness :
  exists client w1,
    getOpenAIClient (Some "gcp") (Example.world_with IDLE_STATUS)
    = (Returned client, w1) /\
    getOpenAIClient (Some "gcp") w1 = (Returned client, w1).
Proof.
  destruct (getOpenAIClient_miss (Some "gcp") (Example.world_with IDLE_STATUS)
              eq_refl (lookup_empty _))
    as (apiKey & baseURL & w0 & _ & _ & _ & _ & Hfirst).
  eexists _, _. split; [exact Hfirst |].
  apply (getOpenAIClient_cached (Some "gcp") (Example.world_with IDLE_STATUS)).
  exact Hfirst.
Defined.

Lemma getOpenAIClient_default_precision_witness :
  exists client w1,
    getOpenAIClient (Some "gcp") (Example.world_with IDLE_STATUS)
    = (Returned client, w1) /\
    quantization_decimals (config client) = 3.
Proof.
  destruct (getOpenAIClient_miss (Some "gcp") (Example.world_with IDLE_STATUS)
              eq_refl (lookup_empty _))
    as (apiKey & baseURL & w0 & _ & _ & _ & _ & Hfirst).
  assert (Hcache : cache_default_precision (Example.world_with IDLE_STATUS)).
  { intros id client Hcached. cbn in Hcached. rewrite lookup_empty in Hcached.
    discriminate. }
  eexists _, _. split; [exact Hfirst |].
  exact (proj1 (getOpenAIClient_default_precision (Some "gcp")
                  (Example.world_with IDLE_STATUS) _ _ Hcache Hfirst)).
Defined.

Lemma getOpenAIClient_custom_provider_witness :
  fst (getOpenAIClient (Some "deleted-provider") (Example.world_with IDLE_STATUS))
  = Returned (client_for Example.user_settings "sk-test" EmptyString).
Proof.
  pose proof (getOpenAIClient_custom_provider "deleted-provider"
                (Example.world_with IDLE_STATUS)) as Hfallback.
  cbn [Example.world_with plugin settings Example.user_settings customProviders
       List.find clientCache] in Hfallback.
  rewrite Hfallback; [reflexivity | discriminate .. | apply lookup_empty].
Defined.

Lemma getOpenAIClient_gcp_witness :
  fst (getOpenAIClient (Some "gcp") (Example.world_with IDLE_STATUS))
  = Returned (client_for Example.user_settings "sk-test" EmptyString).
Proof.
  pose proof (getOpenAIClient_gcp (Example.world_with IDLE_STATUS)) as Hfallback.
  cbn [Example.world_with plugin settings Example.user_settings gcpAPIKey
       clientCache Js.nonempty String.eqb negb] in Hfallback.
  rewrite Hfallback; [reflexivity | apply lookup_empty].
Defined.

Lemma getOpenAIClient_model_name_witness :
  exists client w1,
    getOpenAIClient (Some "gcp")
      (MoreExamples.world_of MoreExamples.gcp_settings IDLE_STATUS)
    = (Returned client, w1) /\
    embeddings_model (config client) = "text-embedding-004".
Proof.
  destruct (getOpenAIClient_miss (Some "gcp")
              (MoreExamples.world_of MoreExamples.gcp_settings IDLE_STATUS)
              eq_refl (lookup_empty _))
    as (apiKey & baseURL & w0 & _ & _ & _ & _ & Hfirst).
  eexists _, _. split; [exact Hfirst |].
  eapply (getOpenAIClient_model_name (Some "gcp")
            (MoreExamples.world_of MoreExamples.gcp_settings IDLE_STATUS)
            _ _ "gcp" "text-embedding-004").
  - apply lookup_empty.
  - reflexivity.
  - cbn. intros [H | [H | [H | []]]]; discriminate H.
  - exact Hfirst.
Defined.

Lemma indexVectorStores_disabled_witness :
  indexVectorStores Example.saveData_rejection Example.filesInGroupFolder
    Example.generateAndStoreEmbeddings Example.concurrencyManager_done
    (MoreExamples.world_of MoreExamples.disabled_settings IDLE_STATUS)
  = (Returned tt, MoreExamples.world_of MoreExamples.disabled_settings IDLE_STATUS).
Proof. apply indexVectorStores_disabled. reflexivity. Defined.

Lemma indexVectorStores_listing_failure_witness :
  exists w',
    indexVectorStores Example.saveData_rejection MoreExamples.unreadable_vault
      Example.generateAndStoreEmbeddings Example.concurrencyManager_done
      (Example.world_with IDLE_STATUS)
    = (Returned tt, w') /\
    lastIndexedCount (plugin w') = 0%nat /\
    notices (host w') = ["Indexed 0 notes"].
Proof.
  destruct (indexVectorStores_listing_failure Example.saveData_rejection
              MoreExamples.unreadable_vault
              Example.generateAndStoreEmbeddings Example.concurrencyManager_done
              (Error "vault not ready") (Example.world_with IDLE_STATUS))
    as (w' & Hrun & _ & _ & Hcount & Hnotices & _).
  - reflexivity.
  - reflexivity.
  - discriminate.
  - reflexivity.
  - exists w'. auto.
Defined.

Lemma indexVectorStores_anthropic_provider_witness :
  exists w',
    indexVectorStores Example.saveData_rejection MoreExamples.one_note_vault
      Example.generateAndStoreEmbeddings Example.concurrencyManager_done
      (MoreExamples.world_of MoreExamples.anthropic_settings IDLE_STATUS)
    = (Returned tt, w') /\
    lastIndexedCount (plugin w') = 0%nat /\
    notices (host w') = ["Indexed 0 notes"].
Proof.
  destruct (indexVectorStores_anthropic_provider Example.saveData_rejection
              MoreExamples.one_note_vault
              Example.generateAndStoreEmbeddings Example.concurrencyManager_done
              (MoreExamples.world_of MoreExamples.anthropic_settings IDLE_STATUS))
    as (w' & Hrun & _ & _ & Hcount & Hnotices & _).
  - reflexivity.
  - reflexivity.
  - discriminate.
  - reflexivity.
  - intros noteGroup w0. eexists. reflexivity.
  - exists w'. auto.
Defined.


Lemma currentNote_command_ends_idle_witness :
  exists w',
    generateEmbeddingsForCurrentNote Example.saveData_rejection
      Example.generateAndStoreEmbeddings Example.concurrencyManager_done
      true (Some "notes/a.md")
      (MoreExamples.world_of MoreExamples.disabled_settings INDEXING_STATUS)
    = (Threw (Error "embedding service unavailable"), w') /\
    indexingStatus (plugin w') = IDLE_STATUS.
Proof.
  destruct (proj2 (currentNote_command_ends_idle Example.saveData_rejection
              Example.generateAndStoreEmbeddings Example.concurrencyManager_done
              "notes/a.md"
              (MoreExamples.world_of MoreExamples.disabled_settings INDEXING_STATUS)))
    as (w1 & outcome & w2 & w' & _ & Hs1 & _ & _ & _ & Hwork & Hrun & Hidle & _).
  - reflexivity.
  - exists w'. split; [| exact Hidle].
    refine (eq_trans Hrun _). f_equal.
    assert (Houtcome :
      fst (currentNote_work Example.generateAndStoreEmbeddings
             Example.concurrencyManager_done "notes/a.md" w1)
      = Threw (Error "embedding service unavailable")).
    { unfold currentNote_work. rewrite bind_get, Hs1.
      destruct (getOpenAIClient None w1) as [[client | e] w3] eqn:Hclient.
      - erewrite bind_returned by exact Hclient. reflexivity.
      - exfalso. unfold getOpenAIClient in Hclient. cbn [Js.or_else] in Hclient.
        change (String.eqb "openai" "anthropic") with false in Hclient.
        cbv iota in Hclient. rewrite bind_get in Hclient.
        destruct (clientCache (plugin w1) !! "openai"); discriminate Hclient. }
    rewrite Hwork in Houtcome. exact Houtcome.
Defined.

Lemma currentNote_command_rejects_witness :
  exists w',
    generateEmbeddingsForCurrentNote Example.saveData_rejection
      Example.generateAndStoreEmbeddings Example.concurrencyManager_done
      true (Some "notes/a.md")
      (MoreExamples.world_of MoreExamples.anthropic_settings INDEXING_STATUS)
    = (Threw (Error "Anthropic provider is not supported for OpenAI-compatible operations. Use AnthropicClient for Anthropic models."),
       w') /\
    indexingStatus (plugin w') = IDLE_STATUS.
Proof.
  destruct (currentNote_command_rejects Example.saveData_rejection
              Example.generateAndStoreEmbeddings Example.concurrencyManager_done
              "notes/a.md"
              (MoreExamples.world_of MoreExamples.anthropic_settings INDEXING_STATUS))
    as (w' & Hrun & Hidle & _).
  - reflexivity.
  - reflexivity.
  - exists w'. auto.
Defined.

Lemma onConfirm_keeps_store_witness :
  exists w',
    embeddingModel_onConfirm Example.saveData_rejection Example.new_VectorStore
      Example.filesInGroupFolder
      Example.generateAndStoreEmbeddings Example.concurrencyManager_done
      "openai:text-embedding-3-small" true (Example.world_with IDLE_STATUS)
    = (Returned tt, w') /\
    plugin w' = plugin (Example.world_with IDLE_STATUS).
Proof.
  destruct (onConfirm_keeps_store Example.saveData_rejection Example.new_VectorStore
              Example.filesInGroupFolder Example.generateAndStoreEmbeddings
              Example.concurrencyManager_done
              "openai:text-embedding-3-small" true (Example.world_with IDLE_STATUS))
    as (w' & Hrun & Hplugin & _).
  - right. reflexivity.
  - exists w'. auto.
Defined.

Lemma loadSettings_new_format_witness :
  exists w',
    loadSettings ["notes"]
      (MoreExamples.loadData_finding (Some MoreExamples.legacy_data))
      (Example.world_with IDLE_STATUS)
    = (Returned tt, w') /\
    (copilotModel (settings (plugin w')) <> "" ->
     In ":"%char (list_ascii_of_string (copilotModel (settings (plugin w'))))).
Proof.
  destruct (loadSettings_new_format ["notes"]
              (MoreExamples.loadData_finding (Some MoreExamples.legacy_data))
              (Some MoreExamples.legacy_data)
              (Example.world_with IDLE_STATUS) (Example.world_with IDLE_STATUS))
    as (w' & Hrun & _ & Hcopilot).
  - reflexivity.
  - exists w'. auto.
Defined.

Lemma loadSettings_after_save_witness :
  exists w',
    loadSettings ["notes"]
      (MoreExamples.loadData_finding
         (Some (stored_form MoreExamples.migrated_settings)))
      (Example.world_with IDLE_STATUS)
    = (Returned tt, w') /\
    settings (plugin w') = MoreExamples.migrated_settings.
Proof.
  destruct (loadSettings_after_save ["notes"]
              (MoreExamples.loadData_finding
                 (Some (stored_form MoreExamples.migrated_settings)))
              MoreExamples.migrated_settings
              (Example.world_with IDLE_STATUS) (Example.world_with IDLE_STATUS))
    as (w' & Hrun & Hsettings & _).
  - reflexivity.
  - split; intros _; reflexivity.
  - right. reflexivity.
  - exists w'. auto.
Defined.

Lemma loadSettings_legacy_vectors_witness :
  exists w',
    loadSettings ["notes"]
      (MoreExamples.loadData_finding (Some MoreExamples.legacy_data))
      (Example.world_with IDLE_STATUS)
    = (Returned tt, w') /\
    embeddingsEnabled (settings (plugin w')) = true /\
    embeddingsModelVersion (settings (plugin w'))
    = Some "openai:text-embedding-3-small" /\
    lastIndexedCount (plugin w') = 2%nat.
Proof.
  destruct (loadSettings_legacy_vectors ["notes"]
              (MoreExamples.loadData_finding (Some MoreExamples.legacy_data))
              MoreExamples.legacy_data
              [("notes/a.md", [Some (Qmake 123 1000)]);
               ("notes/b.md", [Some (Qmake 5 1000)])]
              (Example.world_with IDLE_STATUS) (Example.world_with IDLE_STATUS))
    as (w' & Hrun & Henabled & Hversion & _ & _ & Hcount).
  - reflexivity.
  - reflexivity.
  - reflexivity.
  - discriminate.
  - reflexivity.
  - reflexivity.
  - exists w'. auto.
Defined.
